(** * Houdini shelf tools: finalization checklist and viewport screenshot

    A shallow embedding of the two shelf-tool scripts

      - tools/finalization-checklist/src/finalization-checklist.py
      - tools/viewport-screenshot/src/viewport-screenshot.py

    together with the statements of their specification.

    Conventions of the embedding.

    - A Python [str] that the host hands to the scripts (a path, a parameter
      value, the text typed in a prompt, the stored state) is a [string]: a
      sequence of 8-bit characters read as the code points 0..255.  On that
      domain [lower], [strip], [int], slicing and the substring tests below
      are the interpreter's.  The three characters of the source's literals
      that lie above 255 are written in UTF-8.
    - A [str] decoded from JSON can hold any code point and is a [ustr].
    - [os.path] is [posixpath].
    - A Python [float] is an abstract value given by the class [FloatModel]:
      binary rounding is not part of the development.
    - The host application is a record [world]; what the scripts do to it is
      logged as a list of [event]s.  A host call has a failing outcome where
      the source guards it with [try]. *)

From Stdlib Require Import Bool List Arith ZArith NArith Ascii String Lia.
From Stdlib Require Decimal DecimalN.
Import ListNotations.

Local Open Scope list_scope.
Local Open Scope string_scope.

(** ** Exceptions and results *)

Inductive exn : Type :=
| JSONDecodeError
| ValueError
| AttributeError
| TypeError
| IndexError
| HostError                (* an exception of the host API, hou.OperationFailed and the like *)
| HouError (msg : string). (* hou.Error raised by the script itself *)

Inductive res (A : Type) : Type :=
| Ok (a : A)
| Raise (e : exn).

Arguments Ok {A} a.
Arguments Raise {A} e.

Definition res_bind {A B} (r : res A) (k : A -> res B) : res B :=
  match r with
  | Ok a => k a
  | Raise e => Raise e
  end.

(** ** Python [str] on 8-bit characters *)

Module Str.

Definition code (c : ascii) : N := N_of_ascii c.

(** [s.startswith(p)] *)
Definition startswith (s p : string) : bool := String.prefix p s.

(** [s.endswith(p)] *)
Fixpoint endswith (s p : string) : bool :=
  if String.eqb s p then true
  else match s with
       | EmptyString => false
       | String _ r => endswith r p
       end.

(** [sub in s] *)
Fixpoint contains (sub s : string) : bool :=
  if String.prefix sub s then true
  else match s with
       | EmptyString => false
       | String _ r => contains sub r
       end.

(** [s[i:j]] for [0 <= i <= j] *)
Definition slice (i j : nat) (s : string) : string := String.substring i (j - i) s.

(** [s[i:]] *)
Fixpoint drop (i : nat) (s : string) : string :=
  match i, s with
  | O, _ => s
  | S _, EmptyString => EmptyString
  | S i', String _ r => drop i' r
  end.

(** [s[:i]] *)
Fixpoint take (i : nat) (s : string) : string :=
  match i, s with
  | O, _ => EmptyString
  | S _, EmptyString => EmptyString
  | S i', String c r => String c (take i' r)
  end.

Definition lower_char (c : ascii) : ascii :=
  let n := code c in
  if ((65 <=? n) && (n <=? 90) || (192 <=? n) && (n <=? 222) && negb (n =? 215))%N
  then ascii_of_N (n + 32) else c.

(** [s.lower()] *)
Fixpoint lower (s : string) : string :=
  match s with
  | EmptyString => EmptyString
  | String c r => String (lower_char c) (lower r)
  end.

(** [c.isspace()]: the white space of [str.strip()] *)
Definition isspace (c : ascii) : bool :=
  let n := code c in
  ((9 <=? n) && (n <=? 13) || (28 <=? n) && (n <=? 32) || (n =? 133) || (n =? 160))%N.

Fixpoint lstrip (s : string) : string :=
  match s with
  | EmptyString => EmptyString
  | String c r => if isspace c then lstrip r else s
  end.

Fixpoint rstrip (s : string) : string :=
  match s with
  | EmptyString => EmptyString
  | String c r =>
      match rstrip r with
      | EmptyString => if isspace c then EmptyString else String c EmptyString
      | r' => String c r'
      end
  end.

(** [s.strip()] *)
Definition strip (s : string) : string := rstrip (lstrip s).

(** [sep.join(l)] *)
Definition join (sep : string) (l : list string) : string := String.concat sep l.

(** [s.split(c)] for a one-character [c] *)
Fixpoint split (c : ascii) (s : string) : list string :=
  match s with
  | EmptyString => [EmptyString]
  | String a r =>
      if Ascii.eqb a c then EmptyString :: split c r
      else match split c r with
           | x :: l => String a x :: l
           | [] => [String a EmptyString]
           end
  end.

(** [s.rfind(c)] for a one-character [c]: the last index, or -1 *)
Fixpoint rfind_from (c : ascii) (s : string) (i : Z) (last : Z) : Z :=
  match s with
  | EmptyString => last
  | String a r => rfind_from c r (i + 1) (if Ascii.eqb a c then i else last)
  end.

Definition rfind (c : ascii) (s : string) : Z := rfind_from c s 0 (-1).

End Str.

(** ** Decimal digits, [str(int)] and [int(str)] *)

Module Dec.

Import Decimal.

Definition digit (c : ascii) : option (uint -> uint) :=
  match c with
  | "0" => Some D0 | "1" => Some D1 | "2" => Some D2 | "3" => Some D3
  | "4" => Some D4 | "5" => Some D5 | "6" => Some D6 | "7" => Some D7
  | "8" => Some D8 | "9" => Some D9
  | _ => None
  end%char.

Definition is_digit (c : ascii) : bool :=
  match digit c with Some _ => true | None => false end.

Fixpoint string_of_uint (d : uint) : string :=
  match d with
  | Nil => EmptyString
  | D0 d => String "0" (string_of_uint d)
  | D1 d => String "1" (string_of_uint d)
  | D2 d => String "2" (string_of_uint d)
  | D3 d => String "3" (string_of_uint d)
  | D4 d => String "4" (string_of_uint d)
  | D5 d => String "5" (string_of_uint d)
  | D6 d => String "6" (string_of_uint d)
  | D7 d => String "7" (string_of_uint d)
  | D8 d => String "8" (string_of_uint d)
  | D9 d => String "9" (string_of_uint d)
  end.

(** The longest run of digits at the head of [s], and what follows it. *)
Fixpoint span_digits (s : string) : uint * string :=
  match s with
  | EmptyString => (Nil, EmptyString)
  | String c r =>
      match digit c with
      | Some d => let (u, r') := span_digits r in (d u, r')
      | None => (Nil, s)
      end
  end.

(** [str(n)] for [n >= 0] *)
Definition str_of_N (n : N) : string := string_of_uint (N.to_uint n).

(** [str(z)] *)
Definition str_of_Z (z : Z) : string :=
  match z with
  | Zneg p => String "-" (str_of_N (Npos p))
  | _ => str_of_N (Z.to_N z)
  end.

(** [f"{z:04d}"]: sign first, then zeros up to a width of four. *)
Fixpoint zeros (n : nat) : string :=
  match n with
  | O => EmptyString
  | S n' => String "0" (zeros n')
  end.

Definition format_04d (z : Z) : string :=
  match z with
  | Zneg p =>
      let ds := str_of_N (Npos p) in
      String "-" (zeros (3 - String.length ds) ++ ds)
  | _ =>
      let ds := str_of_N (Z.to_N z) in
      zeros (4 - String.length ds) ++ ds
  end.

(** Digits of an [int] literal: digits, single underscores between them. *)
Fixpoint int_digits (s : string) (acc : N) (after_digit : bool) : option N :=
  match s with
  | EmptyString => if after_digit then Some acc else None
  | String c r =>
      match digit c with
      | Some d => int_digits r (acc * 10 + N.of_uint (d Nil)) true
      | None =>
          if Ascii.eqb c "_" && after_digit
          then match r with
               | EmptyString => None
               | String c' _ => if is_digit c' then int_digits r acc false else None
               end
          else None
      end
  end.

(** White space that [int()] itself skips at both ends. *)
Definition int_space (c : ascii) : bool :=
  let n := Str.code c in
  ((9 <=? n) && (n <=? 13) || (n =? 32) || (n =? 133) || (n =? 160))%N.

Fixpoint int_lstrip (s : string) : string :=
  match s with
  | EmptyString => EmptyString
  | String c r => if int_space c then int_lstrip r else s
  end.

Fixpoint int_rstrip (s : string) : string :=
  match s with
  | EmptyString => EmptyString
  | String c r =>
      match int_rstrip r with
      | EmptyString => if int_space c then EmptyString else String c EmptyString
      | r' => String c r'
      end
  end.

(** [int(s)] in base ten; [None] is [ValueError].  The limit that recent
    interpreters put on the number of digits is not modelled. *)
Definition py_int (s : string) : option Z :=
  match int_rstrip (int_lstrip s) with
  | String "-" r => option_map (fun n => (- Z.of_N n)%Z) (int_digits r 0 false)
  | String "+" r => option_map Z.of_N (int_digits r 0 false)
  | t => option_map Z.of_N (int_digits t 0 false)
  end.

End Dec.

(** ** [os.path] (posixpath) *)

Module OsPath.

Definition char_at (i : Z) (s : string) : option ascii :=
  if (i <? 0)%Z then None else String.get (Z.to_nat i) s.

(** The loop of [genericpath._splitext] that skips leading dots: is there
    an index in [[i, i+n)] whose character differs from [extsep]? *)
Fixpoint has_non_dot (extsep : ascii) (p : string) (i : Z) (n : nat) : bool :=
  match n with
  | O => false
  | S n' =>
      match char_at i p with
      | Some c => if Ascii.eqb c extsep then has_non_dot extsep p (i + 1) n' else true
      | None => true
      end
  end.

(** [genericpath._splitext(p, sep, altsep, extsep)] *)
Definition _splitext (p : string) (sep : ascii) (altsep : option ascii) (extsep : ascii)
  : string * string :=
  let sepIndex := Str.rfind sep p in
  let sepIndex :=
    match altsep with
    | Some a => Z.max sepIndex (Str.rfind a p)
    | None => sepIndex
    end in
  let dotIndex := Str.rfind extsep p in
  if (sepIndex <? dotIndex)%Z
     && has_non_dot extsep p (sepIndex + 1) (Z.to_nat (dotIndex - (sepIndex + 1)))
  then (Str.take (Z.to_nat dotIndex) p, Str.drop (Z.to_nat dotIndex) p)
  else (p, EmptyString).

(** [os.path.splitext(p)] *)
Definition splitext (p : string) : string * string := _splitext p "/" None ".".

(** [os.path.basename(p)] *)
Definition basename (p : string) : string :=
  Str.drop (Z.to_nat (Str.rfind "/" p + 1)) p.

Fixpoint all_slashes (s : string) : bool :=
  match s with
  | EmptyString => true
  | String c r => Ascii.eqb c "/" && all_slashes r
  end.

Fixpoint rstrip_slashes (s : string) : string :=
  match s with
  | EmptyString => EmptyString
  | String c r =>
      match rstrip_slashes r with
      | EmptyString => if Ascii.eqb c "/" then EmptyString else String c EmptyString
      | r' => String c r'
      end
  end.

(** [os.path.dirname(p)] *)
Definition dirname (p : string) : string :=
  let head := Str.take (Z.to_nat (Str.rfind "/" p + 1)) p in
  if negb (String.eqb head EmptyString) && negb (all_slashes head)
  then rstrip_slashes head else head.

(** [os.path.join(a, b)] *)
Definition join (a b : string) : string :=
  if Str.startswith b "/" then b
  else if String.eqb a EmptyString || Str.endswith a "/" then a ++ b
  else a ++ "/" ++ b.

End OsPath.

(** ** Python floats *)

Module Num.

Import Decimal.

(** The groups of [json.scanner.NUMBER_RE], each matched at the head of a
    text and returned with the text after it.  The integer: an optional
    minus, then a single zero or a run of digits that does not start with
    zero. *)
Definition match_digits (sign s1 : string) : option (string * string) :=
  let '(u, s2) := Dec.span_digits s1 in
  match u with
  | Nil => None
  | D0 _ => Some (sign ++ "0", Str.drop 1 s1)
  | _ => Some (sign ++ Dec.string_of_uint u, s2)
  end.

Definition match_integer (s : string) : option (string * string) :=
  match s with
  | String c r => if Ascii.eqb c "-" then match_digits "-" r else match_digits EmptyString s
  | EmptyString => None
  end.

(** The optional fraction, a dot and digits; the empty text when absent. *)
Definition match_frac (s : string) : string * string :=
  match s with
  | String c r =>
      if Ascii.eqb c "." then
        let '(f, r') := Dec.span_digits r in
        match f with
        | Nil => (EmptyString, s)
        | _ => (String "." (Dec.string_of_uint f), r')
        end
      else (EmptyString, s)
  | EmptyString => (EmptyString, s)
  end.

(** The optional exponent: e or E, an optional sign, digits. *)
Definition match_exp (s : string) : string * string :=
  match s with
  | String c r =>
      if Ascii.eqb c "e" || Ascii.eqb c "E" then
        let '(sg, r1) :=
          match r with
          | String c' r' =>
              if Ascii.eqb c' "+" || Ascii.eqb c' "-"
              then (String c' EmptyString, r') else (EmptyString, r)
          | EmptyString => (EmptyString, r)
          end in
        let '(x, r2) := Dec.span_digits r1 in
        match x with
        | Nil => (EmptyString, s)
        | _ => (String c (sg ++ Dec.string_of_uint x), r2)
        end
      else (EmptyString, s)
  | EmptyString => (EmptyString, s)
  end.

(** [NUMBER_RE.match]: the three groups and the text after the match. *)
Definition match_number (s : string) : option (string * string * string * string) :=
  match match_integer s with
  | None => None
  | Some (integer, s2) =>
      let '(frac, s3) := match_frac s2 in
      let '(exp, s4) := match_exp s3 in
      Some (integer, frac, exp, s4)
  end.

(** [int(integer)] on the first group of a match *)
Definition int_of_group (integer : string) : Z :=
  match integer with
  | String c r =>
      if Ascii.eqb c "-" then (- Z.of_N (N.of_uint (fst (Dec.span_digits r))))%Z
      else Z.of_N (N.of_uint (fst (Dec.span_digits integer)))
  | EmptyString => 0%Z
  end.

(** The whole of [s] is a number with a fraction or an exponent. *)
Definition is_float_text (s : string) : bool :=
  match match_number s with
  | Some (_, frac, exp, EmptyString) =>
      negb (String.eqb frac EmptyString && String.eqb exp EmptyString)
  | _ => false
  end.

Inductive fkind : Type := Finite | NaN | PosInf | NegInf.

End Num.

(** What the scripts and [json] need of a [float]. *)
Class FloatModel : Type := {
  pyfloat : Type;
  float_kind : pyfloat -> Num.fkind;
  float_repr : pyfloat -> string;          (* float.__repr__ of a finite value *)
  float_of_text : string -> pyfloat;       (* float(text) of a JSON number *)
  float_nan : pyfloat;                     (* float('nan') *)
  float_inf : bool -> pyfloat;             (* float('inf'), and float('-inf') at [true] *)
  float_eq_int : pyfloat -> Z -> bool;     (* x == i *)
  float_round : pyfloat -> option Z;       (* int(round(x)); [None] where it raises *)
  float_repr_text :
    forall x, float_kind x = Num.Finite -> Num.is_float_text (float_repr x) = true
}.

(** ** The [json] module: values, [dumps] and [loads] *)

Definition dquote : ascii := ascii_of_N 34.

(** [s] between double quotes *)
Definition quoted (s : string) : string := String dquote (s ++ String dquote EmptyString).

(** A decoded [str]: its code points. *)
Definition ustr : Type := list N.

Definition ustr_of (s : string) : ustr := map Str.code (list_ascii_of_string s).

Fixpoint ustr_eqb (a b : ustr) : bool :=
  match a, b with
  | [], [] => true
  | x :: a', y :: b' => N.eqb x y && ustr_eqb a' b'
  | _, _ => false
  end.

Module Json.

Section WithFloat.

Context `{FM : FloatModel}.

(** The Python values that [json] reads and writes. *)
#[warnings="-register-all"]
Inductive pyval : Type :=
| PyNone
| PyBool (b : bool)
| PyInt (z : Z)
| PyFloat (x : pyfloat)
| PyStr (s : ustr)
| PyList (l : list pyval)
| PyDict (d : list (ustr * pyval)).   (* keys in insertion order, no key twice *)

(** *** Encoding *)

Definition hex_digit (n : N) : ascii :=
  nth (N.to_nat n)
    ["0"; "1"; "2"; "3"; "4"; "5"; "6"; "7"; "8"; "9"; "a"; "b"; "c"; "d"; "e"; "f"]%char
    "0"%char.

Definition hex4 (n : N) : string :=
  String (hex_digit (N.shiftr n 12 mod 16))
    (String (hex_digit (N.shiftr n 8 mod 16))
       (String (hex_digit (N.shiftr n 4 mod 16))
          (String (hex_digit (n mod 16)) EmptyString))).

(** One character under [ensure_ascii]. *)
Definition encode_char (n : N) : string :=
  if (n =? 34)%N then String "\" (String dquote EmptyString)
  else if (n =? 92)%N then "\\"
  else if (n =? 10)%N then "\n"
  else if (n =? 13)%N then "\r"
  else if (n =? 9)%N then "\t"
  else if (n =? 8)%N then "\b"
  else if (n =? 12)%N then "\f"
  else if ((32 <=? n) && (n <=? 126))%N then String (ascii_of_N n) EmptyString
  else if (n <? 65536)%N then "\u" ++ hex4 n
  else
    let v := (n - 65536)%N in
    "\u" ++ hex4 (N.lor 55296 (N.land (N.shiftr v 10) 1023))
    ++ "\u" ++ hex4 (N.lor 56320 (N.land v 1023)).

Definition encode_basestring_ascii (s : ustr) : string :=
  quoted (String.concat EmptyString (map encode_char s)).

Definition floatstr (x : pyfloat) : string :=
  match float_kind x with
  | Num.NaN => "NaN"
  | Num.PosInf => "Infinity"
  | Num.NegInf => "-Infinity"
  | Num.Finite => float_repr x
  end.

(** [json.dumps(v)] with the default separators. *)
Fixpoint dumps (v : pyval) : string :=
  match v with
  | PyNone => "null"
  | PyBool true => "true"
  | PyBool false => "false"
  | PyInt z => Dec.str_of_Z z
  | PyFloat x => floatstr x
  | PyStr s => encode_basestring_ascii s
  | PyList l =>
      "[" ++ (fix items (l : list pyval) : string :=
                match l with
                | [] => EmptyString
                | [x] => dumps x
                | x :: r => dumps x ++ ", " ++ items r
                end) l ++ "]"
  | PyDict d =>
      "{" ++ (fix members (d : list (ustr * pyval)) : string :=
                match d with
                | [] => EmptyString
                | [(k, x)] => encode_basestring_ascii k ++ ": " ++ dumps x
                | (k, x) :: r => encode_basestring_ascii k ++ ": " ++ dumps x ++ ", " ++ members r
                end) d ++ "}"
  end.

(** *** Decoding *)

Definition is_ws (c : ascii) : bool :=
  Ascii.eqb c " " || (Str.code c =? 9)%N || (Str.code c =? 10)%N || (Str.code c =? 13)%N.

Fixpoint skip_ws (s : string) : string :=
  match s with
  | EmptyString => EmptyString
  | String c r => if is_ws c then skip_ws r else s
  end.

Definition hex_val (c : ascii) : option N :=
  let n := Str.code c in
  if ((48 <=? n) && (n <=? 57))%N then Some (n - 48)%N
  else if ((97 <=? n) && (n <=? 102))%N then Some (n - 87)%N
  else if ((65 <=? n) && (n <=? 70))%N then Some (n - 55)%N
  else None.

Definition decode_uXXXX (h1 h2 h3 h4 : ascii) : option N :=
  match hex_val h1, hex_val h2, hex_val h3, hex_val h4 with
  | Some a, Some b, Some c, Some d => Some (((a * 16 + b) * 16 + c) * 16 + d)%N
  | _, _, _, _ => None
  end.

(** The table [BACKSLASH] of the one-letter escapes. *)
Definition unescape (c : ascii) : option N :=
  if Ascii.eqb c dquote then Some 34%N
  else if Ascii.eqb c "\" then Some 92%N
  else if Ascii.eqb c "/" then Some 47%N
  else if Ascii.eqb c "b" then Some 8%N
  else if Ascii.eqb c "f" then Some 12%N
  else if Ascii.eqb c "n" then Some 10%N
  else if Ascii.eqb c "r" then Some 13%N
  else if Ascii.eqb c "t" then Some 9%N
  else None.

(** The body of a string up to its closing quote, one unit per character
    or escape; [s] starts after the opening quote. *)
Fixpoint scan_units (s : string) (acc : list N) : res (list N * string) :=
  match s with
  | EmptyString => Raise JSONDecodeError
  | String c r =>
      if Ascii.eqb c dquote then Ok (List.rev acc, r)
      else if Ascii.eqb c "\" then
        match r with
        | EmptyString => Raise JSONDecodeError
        | String e r1 =>
            if Ascii.eqb e "u" then
              match r1 with
              | String h1 (String h2 (String h3 (String h4 r2))) =>
                  match decode_uXXXX h1 h2 h3 h4 with
                  | Some n => scan_units r2 (n :: acc)
                  | None => Raise JSONDecodeError
                  end
              | _ => Raise JSONDecodeError
              end
            else
              match unescape e with
              | Some n => scan_units r1 (n :: acc)
              | None => Raise JSONDecodeError
              end
        end
      else if (Str.code c <? 32)%N then Raise JSONDecodeError
      else scan_units r (Str.code c :: acc)
  end.

(** An escaped high surrogate followed by an escaped low one is a single
    code point.  Units above 255 come from escapes only. *)
Fixpoint join_surrogates (l : list N) : ustr :=
  match l with
  | [] => []
  | a :: r =>
      match r with
      | b :: r' =>
          if ((55296 <=? a) && (a <=? 56319) && (56320 <=? b) && (b <=? 57343))%N
          then (65536 + N.lor (N.shiftl (a - 55296) 10) (b - 56320))%N :: join_surrogates r'
          else a :: join_surrogates r
      | [] => [a]
      end
  end.

(** [py_scanstring(s, end)] in strict mode *)
Definition scanstring (s : string) : res (ustr * string) :=
  match scan_units s [] with
  | Ok (l, r) => Ok (join_surrogates l, r)
  | Raise e => Raise e
  end.

(** [d[k] = v] *)
Fixpoint dict_set (d : list (ustr * pyval)) (k : ustr) (v : pyval) : list (ustr * pyval) :=
  match d with
  | [] => [(k, v)]
  | (k', v') :: r => if ustr_eqb k' k then (k', v) :: r else (k', v') :: dict_set r k v
  end.

(** [dict(pairs)] *)
Definition dict_of_pairs (l : list (ustr * pyval)) : list (ustr * pyval) :=
  fold_left (fun d kv => dict_set d (fst kv) (snd kv)) l [].

(** [d.get(k)] *)
Fixpoint dict_get (d : list (ustr * pyval)) (k : ustr) : option pyval :=
  match d with
  | [] => None
  | (k', v) :: r => if ustr_eqb k' k then Some v else dict_get r k
  end.

Section Containers.

Variable scan : string -> res (pyval * string).

(** The loop of [JSONArray]; [s] starts at an element.  Every turn reads
    at least a comma, so [String.length s] turns are never used up. *)
Fixpoint array_loop (n : nat) (s : string) (acc : list pyval) : res (pyval * string) :=
  match n with
  | O => Raise JSONDecodeError
  | S n' =>
      match scan s with
      | Raise e => Raise e
      | Ok (v, r) =>
          match skip_ws r with
          | String c r1 =>
              if Ascii.eqb c "]" then Ok (PyList (List.rev (v :: acc)), r1)
              else if Ascii.eqb c "," then array_loop n' (skip_ws r1) (v :: acc)
              else Raise JSONDecodeError
          | EmptyString => Raise JSONDecodeError
          end
      end
  end.

(** [JSONArray]; [s] starts after the bracket. *)
Definition parse_array (s : string) : res (pyval * string) :=
  match skip_ws s with
  | String c r =>
      if Ascii.eqb c "]" then Ok (PyList [], r)
      else array_loop (S (String.length s)) (skip_ws s) []
  | EmptyString => Raise JSONDecodeError
  end.

(** The loop of [JSONObject]; [s] starts after the opening quote of a key. *)
Fixpoint object_loop (n : nat) (s : string) (acc : list (ustr * pyval))
  : res (pyval * string) :=
  match n with
  | O => Raise JSONDecodeError
  | S n' =>
      match scanstring s with
      | Raise e => Raise e
      | Ok (key, r) =>
          match skip_ws r with
          | String c r1 =>
              if Ascii.eqb c ":" then
                match scan (skip_ws r1) with
                | Raise e => Raise e
                | Ok (v, r2) =>
                    match skip_ws r2 with
                    | String c2 r3 =>
                        if Ascii.eqb c2 "}"
                        then Ok (PyDict (dict_of_pairs (List.rev ((key, v) :: acc))), r3)
                        else if Ascii.eqb c2 "," then
                          match skip_ws r3 with
                          | String c3 r4 =>
                              if Ascii.eqb c3 dquote
                              then object_loop n' r4 ((key, v) :: acc)
                              else Raise JSONDecodeError
                          | EmptyString => Raise JSONDecodeError
                          end
                        else Raise JSONDecodeError
                    | EmptyString => Raise JSONDecodeError
                    end
                end
              else Raise JSONDecodeError
          | EmptyString => Raise JSONDecodeError
          end
      end
  end.

(** [JSONObject]; [s] starts after the brace. *)
Definition parse_object (s : string) : res (pyval * string) :=
  match skip_ws s with
  | String c r =>
      if Ascii.eqb c "}" then Ok (PyDict [], r)
      else if Ascii.eqb c dquote then object_loop (S (String.length s)) r []
      else Raise JSONDecodeError
  | EmptyString => Raise JSONDecodeError
  end.

End Containers.

(** [scan_once(s, idx)].  [depth] bounds the nesting; [loads] gives more
    than a text can use, as every level of nesting opens with a bracket.
    The interpreter's own recursion limit is not modelled. *)
Fixpoint scan_once (depth : nat) (s : string) : res (pyval * string) :=
  match depth with
  | O => Raise JSONDecodeError
  | S depth' =>
      match s with
      | EmptyString => Raise JSONDecodeError
      | String c r =>
          if Ascii.eqb c dquote then
            match scanstring r with
            | Ok (u, r') => Ok (PyStr u, r')
            | Raise e => Raise e
            end
          else if Ascii.eqb c "{" then parse_object (scan_once depth') r
          else if Ascii.eqb c "[" then parse_array (scan_once depth') r
          else if Str.startswith s "null" then Ok (PyNone, Str.drop 4 s)
          else if Str.startswith s "true" then Ok (PyBool true, Str.drop 4 s)
          else if Str.startswith s "false" then Ok (PyBool false, Str.drop 5 s)
          else
            match Num.match_number s with
            | Some (integer, frac, exp, r') =>
                if String.eqb frac EmptyString && String.eqb exp EmptyString
                then Ok (PyInt (Num.int_of_group integer), r')
                else Ok (PyFloat (float_of_text (integer ++ frac ++ exp)), r')
            | None =>
                if Str.startswith s "NaN" then Ok (PyFloat float_nan, Str.drop 3 s)
                else if Str.startswith s "Infinity" then Ok (PyFloat (float_inf false), Str.drop 8 s)
                else if Str.startswith s "-Infinity" then Ok (PyFloat (float_inf true), Str.drop 9 s)
                else Raise JSONDecodeError
            end
      end
  end.

(** [json.loads(s)] *)
Definition loads (s : string) : res pyval :=
  match scan_once (S (String.length s)) (skip_ws s) with
  | Ok (v, r) =>
      if String.eqb (skip_ws r) EmptyString then Ok v else Raise JSONDecodeError
  | Raise e => Raise e
  end.

End WithFloat.

End Json.

(** ** The host application *)

Definition nl : string := String (ascii_of_N 10) EmptyString.

(** Association lists for the small key/value stores of the host. *)
Fixpoint lookup {V : Type} (k : string) (l : list (string * V)) : option V :=
  match l with
  | [] => None
  | (k', v) :: r => if String.eqb k' k then Some v else lookup k r
  end.

Fixpoint store {V : Type} (k : string) (v : V) (l : list (string * V)) : list (string * V) :=
  match l with
  | [] => [(k, v)]
  | (k', v') :: r => if String.eqb k' k then (k, v) :: r else (k', v') :: store k v r
  end.

Module Host.

Section WithFloat.

Context `{FM : FloatModel}.

(** A parameter of a node: [name()], whether [parmTemplate().type()] is
    [hou.parmTemplateType.String], and the outcome of [evalAsString()]. *)
Record parm : Type := {
  parm_name : string;
  parm_is_string : bool;
  parm_eval : res string
}.

(** A node below a root: [path()] and [parms()]. *)
Record hnode : Type := {
  node_path : string;
  node_parms : list parm
}.

(** A node that [hou.node] finds: its user data and [allSubChildren()]. *)
Record root : Type := {
  user_data : list (string * string);
  sub_children : list hnode
}.

(** The Scene Viewer pane: the camera of its current viewport if it looks
    through one, the name of the viewport, and the outcome of [flipbook]. *)
Record viewer : Type := {
  camera : option string;
  viewport_name : string;
  flipbook_outcome : res unit
}.

(** The stashed flipbook settings as the scripts fill them in. *)
Record flipbook_settings : Type := {
  fb_frame_range : pyfloat * pyfloat;
  fb_output : string;
  fb_use_resolution : bool;
  fb_resolution : Z * Z;
  fb_crop_out_mask_overlay : option bool   (* [None]: left as stashed *)
}.

(** What a script does to the host and shows to the user. *)
Inductive event : Type :=
| EvSetUserData (node key value : string)
| EvMakedirs (d : string)
| EvFlipbook (s : flipbook_settings)              (* a capture that was written *)
| EvFlipbookFailed (s : flipbook_settings) (e : exn)
| EvMessage (text : string) (buttons : list string) (* hou.ui.displayMessage, modal *)
| EvStatusBar (text : string)                     (* hou.ui.setStatusMessage *)
| EvSave (file_name : string)                     (* hou.hipFile.save *)
| EvSelect (options : list string)                (* hou.ui.selectFromList *)
| EvReadInput (title : string).                   (* hou.ui.readMultiInput *)

Record world : Type := {
  nodes : list (string * root);        (* hou.node(path) *)
  hip_path : string;                   (* hou.hipFile.path() *)
  hip_var : res string;                (* hou.expandString("$HIP") *)
  cwd : string;                        (* os.getcwd() *)
  scene_viewer : option viewer;        (* paneTabOfType(hou.paneTabType.SceneViewer) *)
  frame : pyfloat;                     (* hou.frame() *)
  clock : pyfloat;                     (* time.time() *)
  stamp : string;                      (* strftime("%Y%m%d_%H%M%S") of the local time *)
  dirs : list string;                  (* the directories that exist *)
  files : list string;                 (* the other paths that exist *)
  answer : string -> Z;                (* the button the user presses on a message *)
  selected : list nat;                 (* the user's pick in selectFromList *)
  typed : Z * (string * string);       (* the user's reply to readMultiInput *)
  status_bar : res unit;               (* the outcome of hou.ui.setStatusMessage *)
  log : list event
}.

Definition set_nodes (w : world) (x : list (string * root)) : world :=
  {| nodes := x; hip_path := hip_path w; hip_var := hip_var w; cwd := cwd w;
     scene_viewer := scene_viewer w; frame := frame w; clock := clock w;
     stamp := stamp w; dirs := dirs w; files := files w; answer := answer w;
     selected := selected w; typed := typed w; status_bar := status_bar w;
     log := log w |}.

Definition set_hip_path (w : world) (x : string) : world :=
  {| nodes := nodes w; hip_path := x; hip_var := hip_var w; cwd := cwd w;
     scene_viewer := scene_viewer w; frame := frame w; clock := clock w;
     stamp := stamp w; dirs := dirs w; files := files w; answer := answer w;
     selected := selected w; typed := typed w; status_bar := status_bar w;
     log := log w |}.

Definition set_dirs (w : world) (x : list string) : world :=
  {| nodes := nodes w; hip_path := hip_path w; hip_var := hip_var w; cwd := cwd w;
     scene_viewer := scene_viewer w; frame := frame w; clock := clock w;
     stamp := stamp w; dirs := x; files := files w; answer := answer w;
     selected := selected w; typed := typed w; status_bar := status_bar w;
     log := log w |}.

Definition set_log (w : world) (x : list event) : world :=
  {| nodes := nodes w; hip_path := hip_path w; hip_var := hip_var w; cwd := cwd w;
     scene_viewer := scene_viewer w; frame := frame w; clock := clock w;
     stamp := stamp w; dirs := dirs w; files := files w; answer := answer w;
     selected := selected w; typed := typed w; status_bar := status_bar w;
     log := x |}.

(** *** Computations in the host: state and exceptions *)

Definition M (A : Type) : Type := world -> res A * world.

Definition ret {A} (a : A) : M A := fun w => (Ok a, w).

Definition bind {A B} (m : M A) (k : A -> M B) : M B :=
  fun w =>
    match m w with
    | (Ok a, w') => k a w'
    | (Raise e, w') => (Raise e, w')
    end.

Definition raise {A} (e : exn) : M A := fun w => (Raise e, w).

(** [try: m  except Exception: h] *)
Definition try_except {A} (m : M A) (h : exn -> M A) : M A :=
  fun w =>
    match m w with
    | (Ok a, w') => (Ok a, w')
    | (Raise e, w') => h e w'
    end.

Definition lift {A} (r : res A) : M A := fun w => (r, w).

Definition gets {A} (f : world -> A) : M A := fun w => (Ok (f w), w).

Definition emit (e : event) : M unit := fun w => (Ok tt, set_log w (log w ++ [e])%list).

(** *** The calls of the host API and of the standard library *)

(** [hou.node(path)]: the node, handled by its path, or [None]. *)
Definition hou_node (path : string) : M (option string) :=
  gets (fun w => match lookup path (nodes w) with Some _ => Some path | None => None end).

(** [n.userData(key)] *)
Definition userData (n key : string) : M (option string) :=
  gets (fun w => match lookup n (nodes w) with
                 | Some r => lookup key (user_data r)
                 | None => None
                 end).

(** [n.setUserData(key, value)] *)
Definition setUserData (n key value : string) : M unit :=
  fun w =>
    match lookup n (nodes w) with
    | Some r =>
        let r' := {| user_data := store key value (user_data r);
                     sub_children := sub_children r |} in
        (Ok tt, set_log (set_nodes w (store n r' (nodes w)))
                  (log w ++ [EvSetUserData n key value])%list)
    | None => (Raise HostError, w)
    end.

(** [n.allSubChildren()] *)
Definition allSubChildren (n : string) : M (list hnode) :=
  gets (fun w => match lookup n (nodes w) with
                 | Some r => sub_children r
                 | None => []
                 end).

(** [hou.expandString(s)] for a text that starts with the variable [$HIP] *)
Definition expandString (s : string) : M string :=
  fun w =>
    if Str.startswith s "$HIP"
    then (res_bind (hip_var w) (fun h => Ok (h ++ Str.drop 4 s)), w)
    else (Ok s, w).

(** [os.path.isdir(d)] and [os.path.exists(d)] *)
Definition isdir (d : string) : M bool :=
  gets (fun w => existsb (String.eqb d) (dirs w)).

Definition exists_ (d : string) : M bool :=
  gets (fun w => existsb (String.eqb d) (dirs w) || existsb (String.eqb d) (files w)).

(** [os.makedirs(d)] *)
Definition makedirs (d : string) : M unit :=
  fun w => (Ok tt, set_log (set_dirs w (d :: dirs w)) (log w ++ [EvMakedirs d])%list).

(** [hou.ui.displayMessage(text, buttons=...)]: the index of the button *)
Definition displayMessage (text : string) (buttons : list string) : M Z :=
  fun w => (Ok (answer w text), set_log w (log w ++ [EvMessage text buttons])%list).

(** [hou.ui.setStatusMessage(text)] *)
Definition setStatusMessage (text : string) : M unit :=
  fun w =>
    match status_bar w with
    | Ok _ => (Ok tt, set_log w (log w ++ [EvStatusBar text])%list)
    | Raise e => (Raise e, w)
    end.

(** [hou.hipFile.save(file_name=p)]: the scene is written to [p], which
    becomes the current file. *)
Definition hipFile_save (p : string) : M unit :=
  fun w => (Ok tt, set_log (set_hip_path w p) (log w ++ [EvSave p])%list).

(** [sv.flipbook(viewport, settings)] *)
Definition flipbook (sv : viewer) (s : flipbook_settings) : M unit :=
  fun w =>
    match flipbook_outcome sv with
    | Ok _ => (Ok tt, set_log w (log w ++ [EvFlipbook s])%list)
    | Raise e => (Raise e, set_log w (log w ++ [EvFlipbookFailed s e])%list)
    end.

(** [hou.ui.selectFromList(options, exclusive=True)] *)
Definition selectFromList (options : list string) : M (list nat) :=
  fun w => (Ok (selected w), set_log w (log w ++ [EvSelect options])%list).

(** [hou.ui.readMultiInput(title, labels, initial_contents=...)] *)
Definition readMultiInput (title : string) : M (Z * (string * string)) :=
  fun w => (Ok (typed w), set_log w (log w ++ [EvReadInput title])%list).

End WithFloat.

End Host.

Declare Scope host_scope.
Delimit Scope host_scope with host.
Notation "x <- m ;; k" := (Host.bind m (fun x => k))
  (at level 61, m at next level, right associativity) : host_scope.
Notation "m ;;; k" := (Host.bind m (fun _ => k))
  (at level 61, right associativity) : host_scope.

(** Loops of the host monad and loops that a [return] can leave. *)
Fixpoint for_each {FM : FloatModel} {A S : Type}
  (l : list A) (body : S -> A -> Host.M S) (s : S) : Host.M S :=
  match l with
  | [] => Host.ret s
  | x :: r => (s' <- body s x ;; for_each r body s')%host
  end.

Inductive flow (S : Type) : Type :=
| Next (s : S)      (* the loop goes on *)
| Return (s : S).   (* the function has returned *)

Arguments Next {S} s.
Arguments Return {S} s.

Fixpoint for_flow {A S : Type} (body : S -> A -> flow S) (l : list A) (s : S) : flow S :=
  match l with
  | [] => Next s
  | x :: r =>
      match body s x with
      | Next s' => for_flow body r s'
      | Return s' => Return s'
      end
  end.

Definition flow_result {S : Type} (f : flow S) : S :=
  match f with
  | Next s => s
  | Return s => s
  end.

(** [l[i] = x] on a list that has an index [i] *)
Fixpoint set_nth {A : Type} (i : nat) (x : A) (l : list A) : list A :=
  match l, i with
  | [], _ => []
  | _ :: r, O => x :: r
  | y :: r, S i' => y :: set_nth i' x r
  end.

(** ** The finalization checklist *)

Module Checklist.

Import Host Json.

Section WithFloat.

Context `{FM : FloatModel}.

Local Open Scope host_scope.

Definition label_uv : string :=
  "No UV or texture stretching; verify texture paths are valid and UDIMs resolve correctly.".

Definition label_cache : string :=
  "Heavy sims/meshes cached to disk; downstream reads from caches.".

Definition CHECK_ITEMS : list string := [
  "No error flags (red) or critical warnings anywhere in the network.";
  "All external file paths are relative ($HIP, $JOB) — no absolute C:/ or /Users/ paths.";
  "Parameters behave as intended; key sliders/ramps don’t break the graph.";
  "Procedural chains still work after changing inputs (robustness sanity check).";
  "Remove or bypass unused test geometry/nodes (scene hygiene).";
  "Node names are clear and grouped; network annotated with sticky notes/colors.";
  "Remove or bypass temporary debugging/visualization nodes.";
  "Basic lighting rig in place (no default headlight in final shots).";
  "Shot camera(s) framed, locked, and protected (avoid accidental nudges).";
  "Shaders finalized or clean procedural placeholders — no default gray giveaways.";
  label_uv
  ++ label_cache;
  "Clear history & caches where safe (reduce file size, speed up load times).";
  "Display flags / viewport LODs optimized for smooth playback.";
  "All dependencies gathered into project folder (textures, caches, alembic, etc.).";
  "Final .hip saved with `_final` suffix (versioned and traceable).";
  "Required exports (EXR/MP4/ABC/FBX/etc.) completed per delivery specs.";
  "Scene opens cleanly on another machine (no missing plugins/paths).";
  "Final renders/playblast checked for artifacts, missing frames, or flicker."
].

(** *** Persistence helpers (userData on /obj) *)

Definition STATE_KEY : string := "finalization_checklist_state_v1".

Definition _state_node : M (option string) := hou_node "/obj".

Definition empty_dict : pyval := PyDict [].

Definition _load_state : M pyval :=
  n <- _state_node ;;
  match n with
  | None => ret empty_dict
  | Some n =>
      raw <- userData n STATE_KEY ;;
      match raw with
      | None => ret empty_dict
      | Some raw =>
          if String.eqb raw EmptyString then ret empty_dict
          else try_except (lift (loads raw)) (fun _ => ret empty_dict)
      end
  end.

(** The dictionary that [_save_state] serializes. *)
Definition state_dict (checked_indices : list Z) (time : pyfloat) : pyval :=
  PyDict [(ustr_of "checked", PyList (map PyInt checked_indices));
          (ustr_of "time", PyFloat time)].

Definition _save_state (checked_indices : list Z) : M unit :=
  n <- _state_node ;;
  match n with
  | None => ret tt
  | Some n =>
      t <- gets clock ;;
      setUserData n STATE_KEY (dumps (state_dict checked_indices t))
  end.

(** *** Screenshot helpers *)

Definition _hip_dir : M string :=
  try_except (expandString "$HIP")
    (fun _ =>
       p <- gets hip_path ;;
       c <- gets cwd ;;
       ret (OsPath.dirname (if String.eqb p EmptyString then c else p))).

Definition _screens_dir : M string :=
  h <- _hip_dir ;;
  let d := OsPath.join h "screenshots" in
  b <- isdir d ;;
  (if b then ret tt else makedirs d) ;;;
  ret d.

Definition _timestamp : M string := gets stamp.

Definition _active_view_label : M string :=
  sv <- gets scene_viewer ;;
  match sv with
  | None => ret "noview"
  | Some sv =>
      match camera sv with
      | Some cam => ret cam
      | None => ret (viewport_name sv)
      end
  end.

Definition _frame_str : M string :=
  f <- gets frame ;;
  match float_round f with
  | Some z => ret ("f" ++ Dec.format_04d z)
  | None => ret "f0000"
  end.

Definition _screenshot_viewport (custom_suffix : string) : M (option string) :=
  sv <- gets scene_viewer ;;
  match sv with
  | None => ret None
  | Some sv =>
      p <- gets hip_path ;;
      let base := fst (OsPath.splitext (if String.eqb p EmptyString then "untitled.hip" else p)) in
      label <- _active_view_label ;;
      fs <- _frame_str ;;
      ts <- _timestamp ;;
      let fname := OsPath.basename base ++ "_" ++ label ++ "_" ++ fs ++ "_" ++ ts in
      let fname :=
        if String.eqb custom_suffix EmptyString then fname
        else fname ++ "_" ++ custom_suffix in
      d <- _screens_dir ;;
      let img_path := OsPath.join d (fname ++ ".jpg") in
      f <- gets frame ;;
      let settings :=
        {| fb_frame_range := (f, f);
           fb_output := img_path;
           fb_use_resolution := true;
           fb_resolution := (1920, 1080)%Z;
           fb_crop_out_mask_overlay := Some true |} in
      try_except (flipbook sv settings ;;; ret (Some img_path)) (fun _ => ret None)
  end.

(** *** Path check and save-as-final *)

Definition truncated : string := "… (truncated)".

Definition is_abs (val : string) : bool :=
  Str.contains ":/" val
  || Str.startswith val "/"
  || (2 <? String.length val)%nat && String.eqb (Str.slice 1 3 val) ":\".

Definition scan_parm (node : hnode) (bad : list string) (p : parm) : flow (list string) :=
  if negb (parm_is_string p) then Next bad
  else
    match parm_eval p with
    | Raise _ => Next bad
    | Ok val =>
        if String.eqb val EmptyString then Next bad
        else if is_abs val && negb (Str.contains "$HIP" val) && negb (Str.contains "$JOB" val)
        then
          let bad := List.app bad [node_path node ++ " : " ++ parm_name p ++ " = " ++ val] in
          if (50 <? List.length bad)%nat then Return (List.app bad [truncated])
          else Next bad
        else Next bad
    end.

Definition scan_node (bad : list string) (node : hnode) : flow (list string) :=
  for_flow (scan_parm node) (node_parms node) bad.

Definition scan_root (w : world) (bad : list string) (r : string) : flow (list string) :=
  match lookup r (nodes w) with
  | None => Next bad
  | Some n => for_flow scan_node (sub_children n) bad
  end.

Definition ROOTS : list string := ["/obj"; "/stage"; "/mat"; "/img"].

Definition _has_absolute_paths : M (list string) :=
  gets (fun w => flow_result (for_flow (scan_root w) ROOTS [])).

Definition _save_as_final : M (option string) :=
  cur <- gets hip_path ;;
  if String.eqb cur EmptyString || String.eqb cur "untitled.hip" then
    displayMessage "Save your scene first." ["OK"] ;;;
    ret None
  else if Str.endswith (Str.lower cur) "_final.hip" then ret (Some cur)
  else
    let '(base, ext) := OsPath.splitext cur in
    let final_path := base ++ "_final" ++ ext in
    hipFile_save final_path ;;;
    ret (Some final_path).

(** *** The dialog *)

(** The state of a [FinalizationDialog]: the check state of each row of
    the list widget, the inline status line, whether [itemChanged] is
    connected to [_persist_now], and how the dialog was closed. *)
Record dialog : Type := {
  checks : list bool;
  status : string;
  connected : bool;
  closed : option bool     (* [Some true]: accepted, [Some false]: rejected *)
}.

Definition with_checks (d : dialog) (x : list bool) : dialog :=
  {| checks := x; status := status d; connected := connected d; closed := closed d |}.

Definition with_status (d : dialog) (x : string) : dialog :=
  {| checks := checks d; status := x; connected := connected d; closed := closed d |}.

Definition with_connected (d : dialog) (x : bool) : dialog :=
  {| checks := checks d; status := status d; connected := x; closed := closed d |}.

Definition with_closed (d : dialog) (x : option bool) : dialog :=
  {| checks := checks d; status := status d; connected := connected d; closed := x |}.

(** [self.list.count()] *)
Definition count (d : dialog) : nat := List.length (checks d).

(** [self.list.item(i).checkState() == QtCore.Qt.Checked] *)
Definition is_checked (d : dialog) (i : nat) : bool := nth i (checks d) false.

(** [range(self.list.count())] *)
Definition rows (d : dialog) : list nat := seq 0 (count d).

Definition _notify (d : dialog) (msg : string) : M dialog :=
  try_except (setStatusMessage msg) (fun _ => ret tt) ;;;
  ret (with_status d msg).

Definition _collect_checked_indices (d : dialog) : list Z :=
  map Z.of_nat (filter (is_checked d) (rows d)).

Definition _persist_now (d : dialog) : M unit :=
  _save_state (_collect_checked_indices d).

(** [self.list.item(i).setCheckState(b)].  The widget emits [itemChanged]
    when the value changes, and the connected slot runs at once. *)
Definition setCheckState (d : dialog) (i : nat) (b : bool) : M dialog :=
  if Bool.eqb (is_checked d i) b then ret d
  else
    let d' := with_checks d (set_nth i b (checks d)) in
    if connected d then _persist_now d' ;;; ret d' else ret d'.

(** [x == i] for an [int] [i] *)
Definition py_eq_int (i : Z) (x : pyval) : bool :=
  match x with
  | PyInt z => Z.eqb z i
  | PyBool b => Z.eqb (if b then 1 else 0) i
  | PyFloat f => float_eq_int f i
  | _ => false
  end.

Definition hashable (x : pyval) : bool :=
  match x with
  | PyList _ | PyDict _ => false
  | _ => true
  end.

(** [set(x)]: its elements, or [TypeError] *)
Definition py_set (x : pyval) : res (list pyval) :=
  match x with
  | PyList l => if forallb hashable l then Ok l else Raise TypeError
  | PyStr s => Ok (map (fun c => PyStr [c]) s)
  | PyDict d => Ok (map (fun kv => PyStr (fst kv)) d)
  | _ => Raise TypeError
  end.

(** [saved.get("checked", [])] *)
Definition get_checked (saved : pyval) : res pyval :=
  match saved with
  | PyDict d =>
      match dict_get d (ustr_of "checked") with
      | Some v => Ok v
      | None => Ok (PyList [])
      end
  | _ => Raise AttributeError
  end.

(** [set(saved.get("checked", []))] *)
Definition checked_set_of (saved : pyval) : res (list pyval) :=
  res_bind (get_checked saved) py_set.

(** [i in checked_set] *)
Definition py_in (i : nat) (checked_set : list pyval) : bool :=
  existsb (py_eq_int (Z.of_nat i)) checked_set.

(** The dialog as its constructor leaves the list widget: one unchecked
    row for each label. *)
Definition fresh : dialog :=
  {| checks := map (fun _ => false) CHECK_ITEMS;
     status := EmptyString; connected := false; closed := None |}.

Definition __init__ : M dialog :=
  saved <- _load_state ;;
  checked_set <- lift (checked_set_of saved) ;;
  d <- for_each (rows fresh)
         (fun d i => if py_in i checked_set then setCheckState d i true else ret d)
         fresh ;;
  ret (with_connected d true).

Definition _check_all (d : dialog) : M dialog :=
  d <- for_each (rows d) (fun d i => setCheckState d i true) d ;;
  _persist_now d ;;;
  _notify d "All items checked.".

Definition _clear_all (d : dialog) : M dialog :=
  d <- for_each (rows d) (fun d i => setCheckState d i false) d ;;
  _persist_now d ;;;
  _notify d "All items cleared.".

Definition _all_checked (d : dialog) : bool := forallb (is_checked d) (rows d).

Definition _on_screenshot (d : dialog) : M dialog :=
  path <- _screenshot_viewport "checkpoint" ;;
  match path with
  | Some p =>
      if String.eqb p EmptyString
      then _notify d "Screenshot failed (no Scene Viewer or flipbook error)."
      else _notify d ("Screenshot saved: " ++ p)
  | None => _notify d "Screenshot failed (no Scene Viewer or flipbook error)."
  end.

Definition unchecked_prompt : string := "Not all items are checked. Still proceed?".

Definition paths_prompt (bad_paths : list string) : string :=
  "Found " ++ Dec.str_of_N (N.of_nat (List.length bad_paths)) ++ " absolute paths!"
  ++ nl ++ nl ++ Str.join nl (firstn 3 bad_paths) ++ nl ++ nl ++ "Proceed anyway?".

(** [_on_finalize] from [self._persist_now()] on *)
Definition finalize_save (d : dialog) : M dialog :=
  _persist_now d ;;;
  final_path <- _save_as_final ;;
  d <- match final_path with
       | Some fp =>
           if String.eqb fp EmptyString then ret d
           else
             shot <- _screenshot_viewport "final" ;;
             let msg := "Saved as: " ++ fp in
             let msg :=
               match shot with
               | Some s =>
                   if String.eqb s EmptyString then msg
                   else msg ++ "  |  Final screenshot: " ++ s
               | None => msg
               end in
             _notify d msg
       | None => ret d
       end ;;
  ret (with_closed d (Some true)).

(** [_on_finalize] from the path check on *)
Definition finalize_paths (d : dialog) : M dialog :=
  bad_paths <- _has_absolute_paths ;;
  match bad_paths with
  | _ :: _ =>
      ans <- displayMessage (paths_prompt bad_paths) ["Fix First"; "Proceed"] ;;
      if Z.eqb ans 0 then ret d else finalize_save d
  | [] => finalize_save d
  end.

Definition _on_finalize (d : dialog) : M dialog :=
  if negb (_all_checked d) then
    ans <- displayMessage unchecked_prompt ["Go Back"; "Proceed"] ;;
    if Z.eqb ans 0 then ret d else finalize_paths d
  else finalize_paths d.

(** What the user does in the open dialog. *)
Inductive action : Type :=
| Click (i : nat)     (* the check box of row [i] *)
| CheckAll
| Clear
| Screenshot
| Finalize
| Cancel.

Definition handle (d : dialog) (a : action) : M dialog :=
  match a with
  | Click i => if (i <? count d)%nat then setCheckState d i (negb (is_checked d i)) else ret d
  | CheckAll => _check_all d
  | Clear => _clear_all d
  | Screenshot => _on_screenshot d
  | Finalize => _on_finalize d
  | Cancel => ret (with_closed d (Some false))
  end.

(** [dlg.exec_()]: the actions are handled until the dialog closes. *)
Fixpoint exec_ (d : dialog) (l : list action) : M dialog :=
  match closed d, l with
  | None, a :: r => d' <- handle d a ;; exec_ d' r
  | _, _ => ret d
  end.

Definition show_finalization_dialog (l : list action) : M dialog :=
  dlg <- __init__ ;;
  exec_ dlg l.

End WithFloat.

End Checklist.

(** ** The viewport screenshot *)

Module Screenshot.

Import Host.

Section WithFloat.

Context `{FM : FloatModel}.

Local Open Scope host_scope.

Definition options : list string := ["1920x1080"; "2560x1440"; "3840x2160"; "Custom..."].

(** [try: m  except ValueError: h] *)
Definition except_ValueError {A} (m : M A) (h : M A) : M A :=
  fun w =>
    match m w with
    | (Raise ValueError, w') => h w'
    | r => r
    end.

(** [int(s)] as a statement *)
Definition int_ (s : string) : M Z :=
  match Dec.py_int s with
  | Some z => ret z
  | None => raise ValueError
  end.

Definition invalid_custom : string := "Invalid custom resolution. Use positive integers.".

(** The branch [selection == "Custom..."] *)
Definition custom_resolution : M (Z * Z) :=
  reply <- readMultiInput "Custom Resolution" ;;
  let '(btn, values) := reply in
  if negb (Z.eqb btn 0) then raise (HouError "Screenshot canceled.")
  else
    except_ValueError
      (w <- int_ (Str.strip (fst values)) ;;
       h <- int_ (Str.strip (snd values)) ;;
       if (w <=? 0)%Z || (h <=? 0)%Z then raise ValueError
       else ret (w, h))
      (raise (HouError invalid_custom)).

(** [w, h = map(int, selection.split("x"))] *)
Definition preset_resolution (selection : string) : M (Z * Z) :=
  match map Dec.py_int (Str.split "x" selection) with
  | [Some w; Some h] => ret (w, h)
  | _ => raise ValueError
  end.

Definition saved_message (file_path : string) (resolution : Z * Z) : string :=
  "Screenshot saved:" ++ nl ++ file_path ++ nl ++ "Resolution: "
  ++ Dec.str_of_Z (fst resolution) ++ "x" ++ Dec.str_of_Z (snd resolution).

(** 1) Pick a resolution (single choice) *)
Definition pick_resolution : M (Z * Z) :=
  indices <- selectFromList options ;;
  match indices with
  | [] => raise (HouError "Screenshot canceled.")
  | i :: _ =>
      match nth_error options i with
      | None => raise IndexError
      | Some selection =>
          if String.eqb selection "Custom..." then custom_resolution
          else preset_resolution selection
      end
  end.

(** 2) Find the Scene Viewer; 3) build the output path (with timestamp);
    4) configure a single-frame flipbook and shoot. *)
Definition shoot (resolution : Z * Z) : M unit :=
  sv <- gets scene_viewer ;;
  match sv with
  | None => raise (HouError "No Scene Viewer found.")
  | Some scene_viewer =>
      save_dir <- expandString "$HIP/screenshots" ;;
      e <- exists_ save_dir ;;
      (if e then ret tt else makedirs save_dir) ;;;
      hip_path <- gets hip_path ;;
      let base :=
        fst (OsPath.splitext
               (if String.eqb hip_path EmptyString then "untitled.hip" else hip_path)) in
      timestamp <- gets stamp ;;
      let file_path :=
        OsPath.join save_dir (OsPath.basename base ++ "_" ++ timestamp ++ ".jpg") in
      f <- gets frame ;;
      let settings :=
        {| fb_frame_range := (f, f);
           fb_output := file_path;
           fb_use_resolution := true;
           fb_resolution := resolution;
           fb_crop_out_mask_overlay := None |} in
      flipbook scene_viewer settings ;;;
      displayMessage (saved_message file_path resolution) ["OK"] ;;;
      ret tt
  end.

(** The script, from its first statement to its last. *)
Definition main : M unit :=
  resolution <- pick_resolution ;;
  shoot resolution.

End WithFloat.

End Screenshot.

(** * Properties *)

(** ** Facts about the string operations *)

Module StrFacts.

Lemma append_nil_r (s : string) : s ++ EmptyString = s.
Proof. induction s as [|c s IH]; simpl; [reflexivity | now rewrite IH]. Qed.

Lemma append_assoc (a b c : string) : (a ++ b) ++ c = a ++ b ++ c.
Proof. induction a as [|x a IH]; simpl; [reflexivity | now rewrite IH]. Qed.

Lemma length_append (a b : string) :
  String.length (a ++ b) = String.length a + String.length b.
Proof. induction a as [|x a IH]; simpl; [reflexivity | now rewrite IH]. Qed.

Lemma prefix_spec (p s : string) :
  String.prefix p s = true <-> exists r, s = p ++ r.
Proof.
  revert s; induction p as [|c p IH]; intros s.
  - split; [intros _; exists s; reflexivity | intros _; destruct s; reflexivity].
  - destruct s as [|d s]; simpl.
    + split; [discriminate | intros [r Hr]; discriminate].
    + destruct (ascii_dec c d) as [->|Hcd].
      * rewrite IH. split; intros [r Hr]; exists r; [now rewrite Hr | now inversion Hr].
      * split; [discriminate | intros [r Hr]; inversion Hr; congruence].
Qed.

Lemma startswith_spec (s p : string) :
  Str.startswith s p = true <-> exists r, s = p ++ r.
Proof. apply prefix_spec. Qed.

Lemma endswith_spec (s p : string) :
  Str.endswith s p = true <-> exists q, s = q ++ p.
Proof.
  induction s as [|c s IH].
  - destruct p as [|d p]; simpl.
    + split; [intros _; exists EmptyString; reflexivity | reflexivity].
    + split; [discriminate | intros [q Hq]; destruct q; discriminate].
  - change (Str.endswith (String c s) p)
      with (if String.eqb (String c s) p then true else Str.endswith s p).
    destruct (String.eqb (String c s) p) eqn:E.
    + apply String.eqb_eq in E.
      split; [intros _; exists EmptyString; now rewrite E | reflexivity].
    + apply String.eqb_neq in E. rewrite IH. split.
      * intros [q Hq]. exists (String c q). simpl. now rewrite Hq.
      * intros [q Hq]. destruct q as [|d q]; simpl in Hq.
        -- now elim E.
        -- inversion Hq. now exists q.
Qed.

Lemma contains_spec (sub s : string) :
  Str.contains sub s = true <-> exists a b, s = a ++ sub ++ b.
Proof.
  induction s as [|c s IH].
  - change (Str.contains sub EmptyString)
      with (if String.prefix sub EmptyString then true else false).
    destruct (String.prefix sub EmptyString) eqn:E.
    + apply prefix_spec in E. destruct E as [r Hr].
      split; [intros _; exists EmptyString, r; exact Hr | reflexivity].
    + split; [discriminate |].
      intros (a & b & H). destruct a; simpl in H.
      * assert (String.prefix sub EmptyString = true) by (apply prefix_spec; now exists b).
        congruence.
      * discriminate.
  - change (Str.contains sub (String c s))
      with (if String.prefix sub (String c s) then true else Str.contains sub s).
    destruct (String.prefix sub (String c s)) eqn:E.
    + apply prefix_spec in E. destruct E as [r Hr].
      split; [intros _; exists EmptyString, r; exact Hr | reflexivity].
    + rewrite IH. split.
      * intros (a & b & H). exists (String c a), b. simpl. now rewrite H.
      * intros (a & b & H). destruct a as [|d a]; simpl in H.
        -- assert (String.prefix sub (String c s) = true) by (apply prefix_spec; now exists b).
           congruence.
        -- inversion H. now exists a, b.
Qed.

Lemma take_drop (n : nat) (s : string) : Str.take n s ++ Str.drop n s = s.
Proof.
  revert s; induction n as [|n IH]; intros [|c s]; simpl; try reflexivity.
  now rewrite IH.
Qed.

End StrFacts.

(** ** Facts about decimal texts *)

Module DecFacts.

Import Decimal.

(** The text starts with a digit. *)
Definition digit_head (s : string) : bool :=
  match s with
  | String c _ => Dec.is_digit c
  | EmptyString => false
  end.

Lemma span_digits_str (u : uint) (r : string) :
  digit_head r = false ->
  Dec.span_digits (Dec.string_of_uint u ++ r) = (u, r).
Proof.
  intros Hr. induction u; simpl; try (rewrite IHu; reflexivity).
  destruct r as [|c r]; simpl in *; [reflexivity |].
  unfold Dec.is_digit in Hr. destruct (Dec.digit c); [discriminate | reflexivity].
Qed.

Lemma digit_text (c : ascii) (d : uint -> uint) :
  Dec.digit c = Some d ->
  forall u, Dec.string_of_uint (d u) = String c (Dec.string_of_uint u).
Proof.
  destruct c as [[|] [|] [|] [|] [|] [|] [|] [|]]; simpl; intros H;
    try discriminate H; injection H as <-; reflexivity.
Qed.

Lemma span_digits_text (s : string) :
  s = Dec.string_of_uint (fst (Dec.span_digits s)) ++ snd (Dec.span_digits s).
Proof.
  induction s as [|c s IH]; simpl; [reflexivity |].
  destruct (Dec.digit c) as [d|] eqn:E; [| reflexivity].
  destruct (Dec.span_digits s) as [u r]; simpl in *.
  rewrite (digit_text _ _ E). simpl. now rewrite <- IH.
Qed.

Lemma span_digits_rest (s : string) : digit_head (snd (Dec.span_digits s)) = false.
Proof.
  induction s as [|c s IH]; simpl; [reflexivity |].
  destruct (Dec.digit c) as [d|] eqn:E.
  - destruct (Dec.span_digits s); exact IH.
  - simpl. unfold Dec.is_digit. now rewrite E.
Qed.

Lemma span_digits_app (s x : string) :
  digit_head x = false ->
  Dec.span_digits (s ++ x) = (fst (Dec.span_digits s), snd (Dec.span_digits s) ++ x).
Proof.
  intros Hx. induction s as [|c s IH]; simpl.
  - destruct x as [|c x]; simpl in *; [reflexivity |].
    unfold Dec.is_digit in Hx. destruct (Dec.digit c); [discriminate | reflexivity].
  - destruct (Dec.digit c) as [d|]; [| reflexivity].
    rewrite IH. destruct (Dec.span_digits s); reflexivity.
Qed.

Lemma to_uint_normal (n : N) : N.to_uint n = unorm (N.to_uint n).
Proof.
  rewrite <- (DecimalN.Unsigned.of_to n) at 1.
  apply DecimalN.Unsigned.to_of.
Qed.

Lemma to_uint_nonnil (n : N) : N.to_uint n <> Nil.
Proof. rewrite to_uint_normal. apply DecimalFacts.unorm_nonnil. Qed.

Lemma to_uint_zero (n : N) (u : uint) : N.to_uint n = D0 u -> u = Nil.
Proof.
  rewrite to_uint_normal. unfold unorm.
  destruct (nzhead (N.to_uint n)) eqn:E; intros H; try discriminate H.
  - now injection H as <-.
  - rewrite <- E in H. now apply DecimalFacts.nzhead_nonzero in H.
Qed.

End DecFacts.

(** ** Facts about the number texts of [json] *)

Module NumFacts.

Import Decimal DecFacts.

(** The head of the text cannot continue a number. *)
Definition terminator (x : string) : bool :=
  match x with
  | String c _ =>
      negb (Dec.is_digit c) && negb (Ascii.eqb c ".") && negb (Ascii.eqb c "e")
      && negb (Ascii.eqb c "E") && negb (Ascii.eqb c "+") && negb (Ascii.eqb c "-")
  | EmptyString => true
  end.

Lemma terminator_digit (x : string) : terminator x = true -> digit_head x = false.
Proof.
  destruct x as [|c x]; simpl; [reflexivity |].
  destruct (Dec.is_digit c); [discriminate | reflexivity].
Qed.

Lemma match_digits_N (sign : string) (n : N) (r : string) :
  digit_head r = false ->
  Num.match_digits sign (Dec.str_of_N n ++ r) = Some (sign ++ Dec.str_of_N n, r).
Proof.
  intros Hr. unfold Num.match_digits, Dec.str_of_N.
  rewrite (span_digits_str _ _ Hr).
  destruct (N.to_uint n) as [|u|u|u|u|u|u|u|u|u|u] eqn:E; try reflexivity.
  - now elim (to_uint_nonnil n).
  - apply to_uint_zero in E. now subst u.
Qed.

Lemma str_of_N_head (n : N) :
  exists c r, Dec.str_of_N n = String c r /\ Ascii.eqb c "-" = false.
Proof.
  unfold Dec.str_of_N. pose proof (to_uint_nonnil n) as H.
  destruct (N.to_uint n); try (now elim H); simpl; eauto.
Qed.

Lemma match_integer_Z (z : Z) (r : string) :
  digit_head r = false ->
  Num.match_integer (Dec.str_of_Z z ++ r) = Some (Dec.str_of_Z z, r).
Proof.
  intros Hr. destruct z as [|p|p]; unfold Dec.str_of_Z.
  - change (Z.to_N 0) with 0%N.
    destruct (str_of_N_head 0) as (c & t & E & Hc).
    pose proof (match_digits_N EmptyString 0 r Hr) as H.
    rewrite E in *. simpl. rewrite Hc. exact H.
  - destruct (str_of_N_head (Z.to_N (Z.pos p))) as (c & t & E & Hc).
    pose proof (match_digits_N EmptyString (Z.to_N (Z.pos p)) r Hr) as H.
    rewrite E in *. simpl. simpl in H. rewrite Hc. exact H.
  - simpl. apply (match_digits_N "-" (N.pos p) r Hr).
Qed.

Lemma match_frac_terminator (x : string) :
  terminator x = true -> Num.match_frac x = (EmptyString, x).
Proof.
  destruct x as [|c x]; simpl; [reflexivity |].
  destruct (Ascii.eqb c "."); [| reflexivity].
  rewrite andb_false_r. discriminate.
Qed.

Lemma match_exp_terminator (x : string) :
  terminator x = true -> Num.match_exp x = (EmptyString, x).
Proof.
  destruct x as [|c x]; simpl; [reflexivity |].
  destruct (Ascii.eqb c "e"), (Ascii.eqb c "E"); simpl;
    rewrite ?andb_false_r; try discriminate; reflexivity.
Qed.

(** An integer followed by a terminator is matched as an integer. *)
Lemma match_number_Z (z : Z) (r : string) :
  terminator r = true ->
  Num.match_number (Dec.str_of_Z z ++ r) = Some (Dec.str_of_Z z, EmptyString, EmptyString, r).
Proof.
  intros Hr. unfold Num.match_number.
  rewrite (match_integer_Z _ _ (terminator_digit _ Hr)).
  now rewrite (match_frac_terminator _ Hr), (match_exp_terminator _ Hr).
Qed.

Lemma span_digits_uint (u : uint) : Dec.span_digits (Dec.string_of_uint u) = (u, EmptyString).
Proof.
  rewrite <- (StrFacts.append_nil_r (Dec.string_of_uint u)).
  now apply span_digits_str.
Qed.

Lemma int_of_group_N (n : N) : Num.int_of_group (Dec.str_of_N n) = Z.of_N n.
Proof.
  destruct (str_of_N_head n) as (c & t & E & Hc).
  unfold Num.int_of_group. rewrite E, Hc, <- E.
  unfold Dec.str_of_N. rewrite span_digits_uint. cbn [fst].
  now rewrite DecimalN.Unsigned.of_to.
Qed.

(** [int] reads back what [str] wrote. *)
Lemma int_of_group_Z (z : Z) : Num.int_of_group (Dec.str_of_Z z) = z.
Proof.
  destruct z as [|p|p]; unfold Dec.str_of_Z.
  - apply (int_of_group_N 0).
  - apply (int_of_group_N (Z.to_N (Z.pos p))).
  - unfold Num.int_of_group. simpl Ascii.eqb. cbv iota.
    unfold Dec.str_of_N. rewrite span_digits_uint. cbn [fst].
    now rewrite DecimalN.Unsigned.of_to.
Qed.

Lemma span_digits_nonempty (s : string) (u : uint) (r : string) :
  Dec.span_digits s = (u, r) -> u <> Nil -> exists c t, s = String c t.
Proof.
  destruct s as [|c t]; simpl; intros H Hu; [| eauto].
  injection H as <- _. now elim Hu.
Qed.

Lemma match_digits_app (sign s x : string) :
  terminator x = true ->
  Num.match_digits sign (s ++ x)
  = match Num.match_digits sign s with
    | Some (i, r) => Some (i, r ++ x)
    | None => None
    end.
Proof.
  intros Hx. unfold Num.match_digits.
  rewrite (span_digits_app _ _ (terminator_digit _ Hx)).
  destruct (Dec.span_digits s) as [u r] eqn:E. cbn [fst snd].
  destruct u; try reflexivity.
  destruct (span_digits_nonempty _ _ _ E) as (c & t & ->); [discriminate | reflexivity].
Qed.

Lemma match_integer_app (s x : string) :
  terminator x = true ->
  Num.match_integer (s ++ x)
  = match Num.match_integer s with
    | Some (i, r) => Some (i, r ++ x)
    | None => None
    end.
Proof.
  intros Hx. destruct s as [|c s].
  - destruct x as [|c x]; [reflexivity |].
    pose proof (terminator_digit _ Hx) as Hd. simpl in Hx, Hd |- *.
    destruct (Ascii.eqb c "-"); [now rewrite andb_false_r in Hx |].
    unfold Num.match_digits. simpl. unfold Dec.is_digit in Hd.
    destruct (Dec.digit c); [discriminate | reflexivity].
  - cbn [append Num.match_integer].
    destruct (Ascii.eqb c "-").
    + now apply match_digits_app.
    + now apply (match_digits_app EmptyString (String c s)).
Qed.

Lemma match_frac_app (s x : string) :
  terminator x = true ->
  Num.match_frac (s ++ x) = (fst (Num.match_frac s), snd (Num.match_frac s) ++ x).
Proof.
  intros Hx. destruct s as [|c s].
  - simpl. now rewrite match_frac_terminator.
  - cbn [append Num.match_frac].
    destruct (Ascii.eqb c "."); [| reflexivity].
    rewrite (span_digits_app _ _ (terminator_digit _ Hx)).
    destruct (Dec.span_digits s) as [f r]. cbn [fst snd].
    destruct f; reflexivity.
Qed.

Lemma match_exp_app (s x : string) :
  terminator x = true ->
  Num.match_exp (s ++ x) = (fst (Num.match_exp s), snd (Num.match_exp s) ++ x).
Proof.
  intros Hx. pose proof (terminator_digit _ Hx) as Hd. destruct s as [|c s].
  - simpl. now rewrite match_exp_terminator.
  - cbn [append Num.match_exp].
    destruct (Ascii.eqb c "e" || Ascii.eqb c "E"); [| reflexivity].
    destruct s as [|c' s].
    + cbn [append].
      assert (E : (match x with
                   | String c' r' =>
                       if Ascii.eqb c' "+" || Ascii.eqb c' "-"
                       then (String c' EmptyString, r') else (EmptyString, x)
                   | EmptyString => (EmptyString, x)
                   end) = (EmptyString, x)).
      { destruct x as [|d x]; [reflexivity |]. simpl in Hx.
        destruct (Ascii.eqb d "+"); [now rewrite !andb_false_r in Hx |].
        destruct (Ascii.eqb d "-"); [now rewrite !andb_false_r in Hx | reflexivity]. }
      rewrite E.
      pose proof (span_digits_app EmptyString x Hd) as P. simpl in P.
      rewrite P. reflexivity.
    + cbn [append].
      destruct (Ascii.eqb c' "+" || Ascii.eqb c' "-").
      * rewrite (span_digits_app _ _ Hd).
        destruct (Dec.span_digits s) as [u r]. cbn [fst snd]. destruct u; reflexivity.
      * pose proof (span_digits_app (String c' s) x Hd) as P. cbn [append] in P.
        rewrite P.
        destruct (Dec.span_digits (String c' s)) as [u r]. cbn [fst snd].
        destruct u; reflexivity.
Qed.

(** A match is not disturbed by a terminator after the text. *)
Lemma match_number_app (s x : string) :
  terminator x = true ->
  Num.match_number (s ++ x)
  = match Num.match_number s with
    | Some (i, f, e, r) => Some (i, f, e, r ++ x)
    | None => None
    end.
Proof.
  intros Hx. unfold Num.match_number. rewrite (match_integer_app _ _ Hx).
  destruct (Num.match_integer s) as [[i s2]|]; [| reflexivity].
  rewrite (match_frac_app _ _ Hx).
  destruct (Num.match_frac s2) as [f s3]. cbn [fst snd].
  rewrite (match_exp_app _ _ Hx).
  destruct (Num.match_exp s3) as [e s4]. reflexivity.
Qed.

Lemma digit_zero (c : ascii) (u : uint) (d : uint -> uint) :
  Dec.digit c = Some d -> (exists v, d u = D0 v) -> c = "0"%char.
Proof.
  destruct c as [[|] [|] [|] [|] [|] [|] [|] [|]]; simpl; intros H [v Hv];
    try discriminate H; injection H as <-; try discriminate Hv; reflexivity.
Qed.

Lemma match_digits_text (sign s i r : string) :
  Num.match_digits sign s = Some (i, r) -> sign ++ s = i ++ r.
Proof.
  unfold Num.match_digits. pose proof (span_digits_text s) as T.
  destruct (Dec.span_digits s) as [u t] eqn:E. cbn [fst snd] in T.
  destruct u; intros H; try discriminate H; injection H as <- <-;
    rewrite StrFacts.append_assoc; try (f_equal; exact T).
  destruct s as [|c s]; [discriminate T |].
  simpl in T. injection T as -> _. reflexivity.
Qed.

Lemma match_integer_text (s i r : string) :
  Num.match_integer s = Some (i, r) -> s = i ++ r.
Proof.
  destruct s as [|c s]; [discriminate |]. cbn [Num.match_integer].
  destruct (Ascii.eqb c "-") eqn:E; intros H; apply match_digits_text in H.
  - apply Ascii.eqb_eq in E. subst c. exact H.
  - exact H.
Qed.

Lemma match_frac_text (s : string) : s = fst (Num.match_frac s) ++ snd (Num.match_frac s).
Proof.
  destruct s as [|c s]; [reflexivity |]. cbn [Num.match_frac].
  destruct (Ascii.eqb c ".") eqn:E; [| reflexivity].
  apply Ascii.eqb_eq in E. subst c.
  pose proof (span_digits_text s) as T.
  destruct (Dec.span_digits s) as [f r]. cbn [fst snd] in T.
  destruct f; try reflexivity; cbn [fst snd append]; now rewrite <- T.
Qed.

Lemma match_exp_text (s : string) : s = fst (Num.match_exp s) ++ snd (Num.match_exp s).
Proof.
  destruct s as [|c s]; [reflexivity |]. cbn [Num.match_exp].
  destruct (Ascii.eqb c "e" || Ascii.eqb c "E"); [| reflexivity].
  destruct s as [|c' s].
  - reflexivity.
  - destruct (Ascii.eqb c' "+" || Ascii.eqb c' "-").
    + pose proof (span_digits_text s) as T.
      destruct (Dec.span_digits s) as [u r]. cbn [fst snd] in T.
      destruct u; try reflexivity; cbn [fst snd append]; now rewrite <- T.
    + pose proof (span_digits_text (String c' s)) as T.
      destruct (Dec.span_digits (String c' s)) as [u r]. cbn [fst snd] in T.
      destruct u; try reflexivity; cbn [fst snd append]; now rewrite <- T.
Qed.

(** The groups of a match and the text after it make up the text. *)
Lemma match_number_text (s i f e r : string) :
  Num.match_number s = Some (i, f, e, r) -> s = i ++ f ++ e ++ r.
Proof.
  unfold Num.match_number.
  destruct (Num.match_integer s) as [[i' s2]|] eqn:E1; [| discriminate].
  pose proof (match_frac_text s2) as T2.
  destruct (Num.match_frac s2) as [f' s3].
  pose proof (match_exp_text s3) as T3.
  destruct (Num.match_exp s3) as [e' s4].
  intros H. injection H as <- <- <- <-.
  apply match_integer_text in E1. cbn [fst snd] in T2, T3. congruence.
Qed.

(** The text of a float, followed by a terminator, is matched whole. *)
Lemma match_number_float (s x : string) :
  Num.is_float_text s = true ->
  terminator x = true ->
  exists i f e,
    Num.match_number (s ++ x) = Some (i, f, e, x)
    /\ i ++ f ++ e = s
    /\ String.eqb f EmptyString && String.eqb e EmptyString = false.
Proof.
  unfold Num.is_float_text. intros H Hx.
  destruct (Num.match_number s) as [[[[i f] e] r]|] eqn:E; [| discriminate].
  destruct r; [| discriminate].
  exists i, f, e. rewrite (match_number_app _ _ Hx), E. repeat split.
  - apply match_number_text in E. now rewrite !StrFacts.append_nil_r in E.
  - now apply negb_true_iff in H.
Qed.

End NumFacts.

(** ** A model of the float class

    The floats of integral value, with NaN and the two infinities: enough
    to run the scripts on concrete worlds.  A number text is read down to
    its integer part. *)

Inductive zfloat : Type :=
| ZNum (z : Z)
| ZNan
| ZInf (neg : bool).

Definition zfloat_kind (x : zfloat) : Num.fkind :=
  match x with
  | ZNum _ => Num.Finite
  | ZNan => Num.NaN
  | ZInf false => Num.PosInf
  | ZInf true => Num.NegInf
  end.

Definition zfloat_repr (x : zfloat) : string :=
  match x with
  | ZNum z => Dec.str_of_Z z ++ ".0"
  | ZNan => "nan"
  | ZInf false => "inf"
  | ZInf true => "-inf"
  end.

Definition zfloat_of_text (s : string) : zfloat :=
  match Num.match_number s with
  | Some (i, _, _, _) => ZNum (Num.int_of_group i)
  | None => ZNan
  end.

Definition zfloat_eq_int (x : zfloat) (i : Z) : bool :=
  match x with
  | ZNum z => Z.eqb z i
  | _ => false
  end.

Definition zfloat_round (x : zfloat) : option Z :=
  match x with
  | ZNum z => Some z
  | _ => None
  end.

Lemma zfloat_repr_text (x : zfloat) :
  zfloat_kind x = Num.Finite -> Num.is_float_text (zfloat_repr x) = true.
Proof.
  destruct x as [z| |[|]]; try discriminate. intros _.
  unfold Num.is_float_text, Num.match_number, zfloat_repr.
  now rewrite NumFacts.match_integer_Z.
Qed.

#[export] Instance ZFloat : FloatModel := {|
  pyfloat := zfloat;
  float_kind := zfloat_kind;
  float_repr := zfloat_repr;
  float_of_text := zfloat_of_text;
  float_nan := ZNan;
  float_inf := ZInf;
  float_eq_int := zfloat_eq_int;
  float_round := zfloat_round;
  float_repr_text := zfloat_repr_text
|}.

(** ** Reading back what [dumps] wrote *)

Module JsonFacts.

Import Json DecFacts NumFacts.

Section WithFloat.

Context `{FM : FloatModel}.

(** The first character of a number. *)
Definition num_head (c : ascii) : bool := Dec.is_digit c || Ascii.eqb c "-".

Lemma num_head_facts (c : ascii) :
  num_head c = true ->
  Ascii.eqb c dquote = false /\ Ascii.eqb c "{" = false /\ Ascii.eqb c "[" = false
  /\ Ascii.eqb c "n" = false /\ Ascii.eqb c "t" = false /\ Ascii.eqb c "f" = false
  /\ is_ws c = false.
Proof.
  destruct c as [[|] [|] [|] [|] [|] [|] [|] [|]]; simpl; intros H;
    try discriminate H; repeat split; reflexivity.
Qed.

Lemma prefix_head (c d : ascii) (p s : string) :
  Ascii.eqb c d = false -> String.prefix (String d p) (String c s) = false.
Proof.
  intros H. simpl. destruct (ascii_dec d c) as [->|]; [| reflexivity].
  now rewrite Ascii.eqb_refl in H.
Qed.

Lemma str_of_N_num_head (n : N) :
  exists c r, Dec.str_of_N n = String c r /\ num_head c = true.
Proof.
  unfold Dec.str_of_N. pose proof (to_uint_nonnil n) as H.
  destruct (N.to_uint n); try (now elim H); simpl; eauto.
Qed.

Lemma str_of_Z_num_head (z : Z) :
  exists c r, Dec.str_of_Z z = String c r /\ num_head c = true.
Proof.
  destruct z; unfold Dec.str_of_Z; try apply str_of_N_num_head.
  simpl. eauto.
Qed.

Lemma skip_ws_num (c : ascii) (s : string) :
  num_head c = true -> skip_ws (String c s) = String c s.
Proof.
  intros H. apply num_head_facts in H. simpl.
  now replace (is_ws c) with false by (symmetry; apply H).
Qed.

(** Below the quotes, brackets and keywords, [scan_once] matches a number. *)
Lemma scan_once_number (d : nat) (c : ascii) (s : string) :
  num_head c = true ->
  scan_once (S d) (String c s)
  = match Num.match_number (String c s) with
    | Some (integer, frac, exp, r') =>
        if String.eqb frac EmptyString && String.eqb exp EmptyString
        then Ok (PyInt (Num.int_of_group integer), r')
        else Ok (PyFloat (float_of_text (integer ++ frac ++ exp)), r')
    | None =>
        if Str.startswith (String c s) "NaN" then Ok (PyFloat float_nan, Str.drop 3 (String c s))
        else if Str.startswith (String c s) "Infinity"
             then Ok (PyFloat (float_inf false), Str.drop 8 (String c s))
        else if Str.startswith (String c s) "-Infinity"
             then Ok (PyFloat (float_inf true), Str.drop 9 (String c s))
        else Raise JSONDecodeError
    end.
Proof.
  intros H. apply num_head_facts in H.
  destruct H as (H1 & H2 & H3 & H4 & H5 & H6 & _).
  cbn [scan_once]. rewrite H1, H2, H3.
  unfold Str.startswith.
  now rewrite (prefix_head _ _ _ _ H4), (prefix_head _ _ _ _ H5), (prefix_head _ _ _ _ H6).
Qed.

(** An [int] that [dumps] wrote is read back. *)
Lemma scan_once_int (d : nat) (z : Z) (r : string) :
  terminator r = true ->
  scan_once (S d) (Dec.str_of_Z z ++ r) = Ok (PyInt z, r).
Proof.
  intros Hr. destruct (str_of_Z_num_head z) as (c & t & E & Hc).
  pose proof (match_number_Z z r Hr) as M.
  pose proof (int_of_group_Z z) as G.
  rewrite E in *. cbn [append] in *.
  rewrite (scan_once_number _ _ _ Hc), M. cbn [String.eqb andb].
  now rewrite G.
Qed.

(** What [json] makes of the text of a float. *)
Definition reload (x : pyfloat) : pyfloat :=
  match float_kind x with
  | Num.Finite => float_of_text (float_repr x)
  | Num.NaN => float_nan
  | Num.PosInf => float_inf false
  | Num.NegInf => float_inf true
  end.

Lemma float_text_head (s : string) :
  Num.is_float_text s = true -> exists c r, s = String c r /\ num_head c = true.
Proof.
  unfold Num.is_float_text, Num.match_number, Num.match_integer.
  destruct s as [|c s]; [discriminate |]. intros H. exists c, s. split; [reflexivity |].
  unfold num_head. destruct (Ascii.eqb c "-"); [apply orb_true_r |].
  unfold Num.match_digits in H. cbn [Dec.span_digits] in H.
  unfold Dec.is_digit. destruct (Dec.digit c); [reflexivity | discriminate].
Qed.

Lemma floatstr_head (x : pyfloat) :
  exists c r, floatstr x = String c r /\ is_ws c = false.
Proof.
  unfold floatstr. destruct (float_kind x) eqn:K; try (simpl; eauto; fail).
  destruct (float_text_head _ (float_repr_text x K)) as (c & r & E & Hc).
  exists c, r. split; [exact E |]. now apply num_head_facts in Hc.
Qed.

(** A [float] that [dumps] wrote is read back from its text. *)
Lemma scan_once_float (d : nat) (x : pyfloat) :
  scan_once (S d) (floatstr x ++ "}") = Ok (PyFloat (reload x), "}").
Proof.
  unfold floatstr, reload. destruct (float_kind x) eqn:K; try reflexivity.
  pose proof (float_repr_text x K) as T.
  destruct (float_text_head _ T) as (c & r & E & Hc).
  destruct (match_number_float _ "}" T eq_refl) as (i & f & e & M & Ht & Hfe).
  rewrite E in M |- *. cbn [append] in M |- *.
  rewrite (scan_once_number _ _ _ Hc), M, Hfe, Ht, E. reflexivity.
Qed.

(** The elements of a list of [int]s as [dumps] writes them. *)
Definition items_text (l : list Z) : string := Str.join ", " (map Dec.str_of_Z l).

Lemma dumps_ints (l : list Z) :
  dumps (PyList (map PyInt l)) = "[" ++ items_text l ++ "]".
Proof.
  cbn [dumps]. do 2 f_equal.
  induction l as [|z l IH]; [reflexivity |].
  destruct l as [|z' l]; [reflexivity |].
  cbn [map] in IH |- *. rewrite IH. reflexivity.
Qed.

Lemma items_text_head (z : Z) (l : list Z) :
  exists c r, items_text (z :: l) = String c r /\ num_head c = true.
Proof.
  destruct (str_of_Z_num_head z) as (c & r & E & Hc).
  unfold items_text, Str.join. cbn [map String.concat].
  destruct (map Dec.str_of_Z l); rewrite E; cbn [append]; eauto.
Qed.

Lemma items_text_cons (z z' : Z) (l : list Z) :
  items_text (z :: z' :: l) = Dec.str_of_Z z ++ ", " ++ items_text (z' :: l).
Proof. reflexivity. Qed.

Lemma length_items_text (l : list Z) : List.length l <= String.length (items_text l).
Proof.
  induction l as [|z l IH]; [apply Nat.le_0_l |].
  destruct (str_of_Z_num_head z) as (c & r & E & _).
  destruct l as [|z' l].
  - unfold items_text, Str.join. cbn [map String.concat List.length]. rewrite E. simpl. lia.
  - rewrite items_text_cons, StrFacts.length_append, E.
    rewrite StrFacts.length_append. simpl in *. lia.
Qed.

Lemma array_loop_ints (d : nat) (l : list Z) :
  forall (n : nat) (z : Z) (acc : list pyval) (rest : string),
    List.length l < n ->
    array_loop (scan_once (S d)) n (items_text (z :: l) ++ "]" ++ rest) acc
    = Ok (PyList (List.rev acc ++ map PyInt (z :: l))%list, rest).
Proof.
  induction l as [|z' l IH]; intros n z acc rest Hn.
  - destruct n as [|n]; [inversion Hn |].
    change (items_text [z]) with (Dec.str_of_Z z).
    cbn [array_loop]. rewrite scan_once_int by reflexivity.
    reflexivity.
  - destruct n as [|n]; [inversion Hn |].
    rewrite items_text_cons, !StrFacts.append_assoc.
    cbn [array_loop]. rewrite scan_once_int by reflexivity.
    specialize (IH n z' (PyInt z :: acc) rest).
    destruct (items_text_head z' l) as (c & r & E & Hc).
    remember (items_text (z' :: l) ++ "]" ++ rest) as X eqn:EX.
    assert (W : skip_ws X = X).
    { rewrite EX, E. cbn [append]. now apply skip_ws_num. }
    remember (scan_once (S d)) as scan eqn:ES in *.
    simpl. rewrite W, IH by (simpl in Hn; lia).
    cbn [List.rev map]. now rewrite <- app_assoc.
Qed.

(** A list of [int]s that [dumps] wrote is read back. *)
Lemma parse_array_ints (d : nat) (l : list Z) (rest : string) :
  parse_array (scan_once (S d)) (items_text l ++ "]" ++ rest)
  = Ok (PyList (map PyInt l), rest).
Proof.
  destruct l as [|z l]; [reflexivity |].
  unfold parse_array.
  destruct (items_text_head z l) as (c & r & E & Hc).
  pose proof (length_items_text (z :: l)) as L.
  pose proof (array_loop_ints d l (S (String.length (items_text (z :: l) ++ "]" ++ rest)))
                z [] rest) as A.
  assert (Hlt : List.length l < S (String.length (items_text (z :: l) ++ "]" ++ rest))).
  { rewrite StrFacts.length_append. simpl in L. lia. }
  specialize (A Hlt). clear Hlt L.
  rewrite E in *. cbn [append] in *.
  rewrite (skip_ws_num _ _ Hc).
  assert (B : Ascii.eqb c "]" = false).
  { clear - Hc. destruct c as [[|] [|] [|] [|] [|] [|] [|] [|]]; simpl in *;
      try discriminate Hc; reflexivity. }
  rewrite B. exact A.
Qed.

(** The text that [_save_state] stores. *)
Definition state_text (l : list Z) (x : pyfloat) : string :=
  "{" ++ quoted "checked" ++ ": [" ++ items_text l ++ "], "
  ++ quoted "time" ++ ": " ++ floatstr x ++ "}".

Lemma dumps_dict2 (k1 k2 : ustr) (v1 v2 : pyval) :
  dumps (PyDict [(k1, v1); (k2, v2)])
  = "{" ++ encode_basestring_ascii k1 ++ ": " ++ dumps v1 ++ ", "
    ++ encode_basestring_ascii k2 ++ ": " ++ dumps v2 ++ "}".
Proof. cbn [dumps]. rewrite !StrFacts.append_assoc. reflexivity. Qed.

Lemma dumps_state_dict (l : list Z) (x : pyfloat) :
  dumps (Checklist.state_dict l x) = state_text l x.
Proof.
  unfold Checklist.state_dict, state_text.
  rewrite dumps_dict2, dumps_ints.
  change (dumps (PyFloat x)) with (floatstr x).
  change (encode_basestring_ascii (ustr_of "checked")) with (quoted "checked").
  change (encode_basestring_ascii (ustr_of "time")) with (quoted "time").
  rewrite !StrFacts.append_assoc. reflexivity.
Qed.

Lemma object_loop_two (scan : string -> res (pyval * string)) (n : nat)
    (A B : string) (va vb : pyval) :
  (forall rest, scan ("[" ++ A ++ "]" ++ rest) = Ok (va, rest)) ->
  scan (B ++ "}") = Ok (vb, "}") ->
  skip_ws (B ++ "}") = B ++ "}" ->
  object_loop scan (S (S n))
    ("checked" ++ String dquote (": [" ++ A ++ "], " ++ quoted "time" ++ ": " ++ B ++ "}")) []
  = Ok (PyDict [(ustr_of "checked", va); (ustr_of "time", vb)], EmptyString).
Proof.
  intros HA HB HW. simpl in HA, HB, HW |- *.
  rewrite HA. simpl. rewrite HW, HB. reflexivity.
Qed.

(** The stored text is read back as the dictionary that was saved, its
    time stamp gone through its text. *)
Lemma scan_state_text (d : nat) (l : list Z) (x : pyfloat) :
  scan_once (S (S (S d))) (state_text l x)
  = Ok (Checklist.state_dict l (reload x), EmptyString).
Proof.
  unfold state_text.
  change (scan_once (S (S (S d))) ("{" ++ ?r)) with (parse_object (scan_once (S (S d))) r).
  unfold parse_object.
  change (skip_ws (quoted "checked" ++ ?r))
    with (String dquote ("checked" ++ String dquote r)).
  cbv iota.
  change (Ascii.eqb dquote "}") with false.
  change (Ascii.eqb dquote dquote) with true.
  cbv iota.
  change (String.length (quoted "checked" ++ ?r))
    with (S (String.length ("checked" ++ String dquote r))).
  apply object_loop_two.
  - intros rest.
    change (scan_once (S (S d)) ("[" ++ ?r)) with (parse_array (scan_once (S d)) r).
    apply parse_array_ints.
  - apply scan_once_float.
  - destruct (floatstr_head x) as (c & r & E & Hc).
    rewrite E. cbn [append skip_ws]. now rewrite Hc.
Qed.

(** [loads] after [dumps] on the state that [_save_state] writes. *)
Lemma loads_state_dict (l : list Z) (x : pyfloat) :
  loads (dumps (Checklist.state_dict l x)) = Ok (Checklist.state_dict l (reload x)).
Proof.
  rewrite dumps_state_dict. unfold loads.
  assert (E : exists d, String.length (state_text l x) = S (S d)).
  { unfold state_text. simpl. eauto. }
  destruct E as [d ->].
  change (skip_ws (state_text l x)) with (state_text l x).
  now rewrite scan_state_text.
Qed.

Lemma dumps_nonempty (l : list Z) (x : pyfloat) :
  String.eqb (dumps (Checklist.state_dict l x)) EmptyString = false.
Proof. rewrite dumps_state_dict. reflexivity. Qed.

End WithFloat.

End JsonFacts.

(** ** The finalization checklist: persistence *)

Module PersistFacts.

Import Host Json Checklist JsonFacts.

Section WithFloat.

Context `{FM : FloatModel}.

Lemma lookup_store {V : Type} (k : string) (v : V) (l : list (string * V)) :
  lookup k (store k v l) = Some v.
Proof.
  induction l as [|[k' v'] l IH]; simpl.
  - now rewrite String.eqb_refl.
  - destruct (String.eqb k' k) eqn:E; simpl.
    + now rewrite String.eqb_refl.
    + now rewrite E.
Qed.

(** The host after [_save_state] when the state node exists. *)
Definition saved_world (w : world) (r : root) (text : string) : world :=
  set_log
    (set_nodes w
       (store "/obj" {| user_data := store STATE_KEY text (user_data r);
                        sub_children := sub_children r |} (nodes w)))
    (log w ++ [EvSetUserData "/obj" STATE_KEY text])%list.

Lemma save_state_run (w : world) (r : root) (l : list Z) :
  lookup "/obj" (nodes w) = Some r ->
  _save_state l w = (Ok tt, saved_world w r (dumps (state_dict l (clock w)))).
Proof.
  intros H. unfold _save_state, _state_node, hou_node, bind, gets, setUserData.
  rewrite H. cbn. rewrite H. reflexivity.
Qed.

Lemma save_state_absent (w : world) (l : list Z) :
  lookup "/obj" (nodes w) = None -> _save_state l w = (Ok tt, w).
Proof.
  intros H. unfold _save_state, _state_node, hou_node, bind, gets. now rewrite H.
Qed.

(** The stored text, when there is one. *)
Definition stored (w : world) : option string :=
  match lookup "/obj" (nodes w) with
  | Some r => lookup STATE_KEY (user_data r)
  | None => None
  end.

(** The value that [_load_state] returns. *)
Definition loaded (w : world) : pyval :=
  match stored w with
  | None => empty_dict
  | Some raw =>
      if String.eqb raw EmptyString then empty_dict
      else match loads raw with
           | Ok v => v
           | Raise _ => empty_dict
           end
  end.

(** [_load_state] returns a value, whatever is stored, and leaves the
    host as it is. *)
Lemma load_state_run (w : world) : _load_state w = (Ok (loaded w), w).
Proof.
  unfold _load_state, _state_node, hou_node, userData, bind, gets, loaded, stored.
  destruct (lookup "/obj" (nodes w)) as [r|] eqn:E; [| reflexivity].
  cbn. rewrite E. destruct (lookup STATE_KEY (user_data r)) as [raw|]; [| reflexivity].
  destruct (String.eqb raw EmptyString); [reflexivity |].
  unfold try_except, lift, ret. destruct (loads raw); reflexivity.
Qed.

Lemma stored_saved_world (w : world) (r : root) (text : string) :
  stored (saved_world w r text) = Some text.
Proof.
  unfold stored, saved_world. cbn. rewrite lookup_store. cbn. apply lookup_store.
Qed.

(** What was saved is what is loaded. *)
Lemma loaded_saved_world (w : world) (r : root) (l : list Z) (x : pyfloat) :
  loaded (saved_world w r (dumps (state_dict l x))) = state_dict l (reload x).
Proof.
  unfold loaded. now rewrite stored_saved_world, dumps_nonempty, loads_state_dict.
Qed.

Lemma hashable_ints (l : list Z) : forallb hashable (map PyInt l) = true.
Proof. induction l; simpl; auto. Qed.

Lemma checked_set_of_state (l : list Z) (x : pyfloat) :
  checked_set_of (state_dict l x) = Ok (map PyInt l).
Proof.
  unfold checked_set_of, state_dict. cbn. now rewrite hashable_ints.
Qed.

Lemma in_ints (i : Z) (l : list Z) :
  existsb (py_eq_int i) (map PyInt l) = true <-> In i l.
Proof.
  induction l as [|z l IH]; simpl; [split; [discriminate | tauto] |].
  rewrite orb_true_iff, IH, Z.eqb_eq. tauto.
Qed.

(** C1.  For every list [S] of indices, and so for every subset of the
    checklist indices: when [_save_state S] has stored the state on the
    /obj node, [_load_state] returns the dictionary that was serialized,
    whose "checked" entry is [S] itself, and the set that the dialog makes
    of it has exactly the members of [S]. *)
Theorem C1_persist_then_reload (w : world) (S : list Z) :
  lookup "/obj" (nodes w) <> None ->
  let w' := snd (_save_state S w) in
  fst (_load_state w') = Ok (state_dict S (reload (clock w)))
  /\ get_checked (state_dict S (reload (clock w))) = Ok (PyList (map PyInt S))
  /\ exists elems,
       checked_set_of (state_dict S (reload (clock w))) = Ok elems
       /\ forall i : Z, existsb (py_eq_int i) elems = true <-> In i S.
Proof.
  intros H. destruct (lookup "/obj" (nodes w)) as [r|] eqn:E; [clear H | now elim H].
  cbv zeta. rewrite (save_state_run _ _ _ E). cbn [snd].
  rewrite load_state_run. unfold loaded.
  rewrite stored_saved_world, dumps_nonempty, loads_state_dict.
  split; [reflexivity |]. split; [reflexivity |].
  exists (map PyInt S). split; [apply checked_set_of_state | intros i; apply in_ints].
Qed.

End WithFloat.

End PersistFacts.

(** ** The finalization checklist: the rows of the dialog *)

Module DialogFacts.

Import Host Json Checklist JsonFacts PersistFacts.

Section WithFloat.

Context `{FM : FloatModel}.

Lemma length_set_nth {A : Type} (i : nat) (x : A) (l : list A) :
  List.length (set_nth i x l) = List.length l.
Proof.
  revert i; induction l as [|y l IH]; intros [|i]; simpl; auto.
Qed.

Lemma nth_set_nth {A : Type} (i j : nat) (x d : A) (l : list A) :
  nth j (set_nth i x l) d
  = if (j =? i)%nat && (i <? List.length l)%nat then x else nth j l d.
Proof.
  revert i j; induction l as [|y l IH]; intros i j.
  - simpl. rewrite andb_false_r. destruct i; reflexivity.
  - destruct i, j; simpl; try reflexivity. apply IH.
Qed.

(** The rows that are checked lie below the number of rows. *)
Lemma is_checked_lt (d : dialog) (i : nat) : is_checked d i = true -> i < count d.
Proof.
  unfold is_checked, count. intros H.
  destruct (Nat.lt_ge_cases i (List.length (checks d))) as [L|L]; [exact L |].
  now rewrite (nth_overflow _ _ L) in H.
Qed.

Lemma collect_spec (d : dialog) (z : Z) :
  In z (_collect_checked_indices d)
  <-> exists i, z = Z.of_nat i /\ i < count d /\ is_checked d i = true.
Proof.
  unfold _collect_checked_indices, rows. rewrite in_map_iff. split.
  - intros (i & <- & Hi). apply filter_In in Hi. destruct Hi as [Hs Hc].
    apply in_seq in Hs. exists i. repeat split; [lia | exact Hc].
  - intros (i & -> & Hl & Hc). exists i. split; [reflexivity |].
    apply filter_In. split; [apply in_seq; lia | exact Hc].
Qed.

(** What a turn of the loop of [__init__] does to the rows. *)
Definition mark (f : nat -> bool) (d : dialog) (i : nat) : dialog :=
  if f i && negb (is_checked d i)
  then with_checks d (set_nth i true (checks d)) else d.

Lemma mark_run (f : nat -> bool) (d : dialog) (i : nat) (w : world) :
  connected d = false ->
  (if f i then setCheckState d i true else ret d) w = (Ok (mark f d i), w).
Proof.
  intros C. unfold mark, setCheckState.
  destruct (f i); [| reflexivity].
  destruct (is_checked d i); cbn; [reflexivity | now rewrite C].
Qed.

Lemma mark_connected (f : nat -> bool) (d : dialog) (i : nat) :
  connected (mark f d i) = connected d.
Proof. unfold mark. destruct (f i && negb (is_checked d i)); reflexivity. Qed.

Lemma fold_mark_connected (f : nat -> bool) (l : list nat) (d : dialog) :
  connected (fold_left (mark f) l d) = connected d.
Proof.
  revert d; induction l as [|i l IH]; intros d; simpl; [reflexivity |].
  now rewrite IH, mark_connected.
Qed.

Lemma marks_run (f : nat -> bool) (l : list nat) (d : dialog) (w : world) :
  connected d = false ->
  for_each l (fun d i => if f i then setCheckState d i true else ret d) d w
  = (Ok (fold_left (mark f) l d), w).
Proof.
  revert d; induction l as [|i l IH]; intros d C; simpl; [reflexivity |].
  unfold bind. rewrite (mark_run f d i w C).
  apply IH. now rewrite mark_connected.
Qed.

Lemma mark_count (f : nat -> bool) (d : dialog) (i : nat) : count (mark f d i) = count d.
Proof.
  unfold mark, count. destruct (f i && negb (is_checked d i)); [| reflexivity].
  apply length_set_nth.
Qed.

Lemma fold_mark_count (f : nat -> bool) (l : list nat) (d : dialog) :
  count (fold_left (mark f) l d) = count d.
Proof.
  revert d; induction l as [|i l IH]; intros d; simpl; [reflexivity |].
  now rewrite IH, mark_count.
Qed.

Lemma mark_checked (f : nat -> bool) (d : dialog) (i j : nat) :
  is_checked (mark f d i) j
  = is_checked d j || (f j && (j =? i)%nat && (j <? count d)%nat).
Proof.
  unfold mark, is_checked, count.
  destruct (Nat.eqb_spec j i) as [->|N].
  - destruct (f i); cbn [andb negb].
    + destruct (nth i (checks d) false) eqn:E; cbn [negb].
      * now rewrite E.
      * cbn [with_checks checks]. rewrite nth_set_nth, Nat.eqb_refl. cbn [andb].
        destruct (i <? List.length (checks d))%nat; [reflexivity | now rewrite E].
    + now rewrite orb_false_r.
  - rewrite !andb_false_r, orb_false_r.
    destruct (f i && negb (nth i (checks d) false)); [| reflexivity].
    cbn [with_checks checks]. rewrite nth_set_nth.
    apply Nat.eqb_neq in N. now rewrite N.
Qed.

Lemma fold_mark_checked (f : nat -> bool) (l : list nat) (d : dialog) (j : nat) :
  is_checked (fold_left (mark f) l d) j
  = is_checked d j || (f j && existsb (Nat.eqb j) l && (j <? count d)%nat).
Proof.
  revert d; induction l as [|i l IH]; intros d; cbn [fold_left existsb].
  - now rewrite andb_false_r, orb_false_r.
  - rewrite IH, mark_checked, mark_count.
    destruct (is_checked d j), (f j), (j =? i)%nat, (existsb (Nat.eqb j) l),
      (j <? count d)%nat; reflexivity.
Qed.

Lemma existsb_seq (j n : nat) : existsb (Nat.eqb j) (seq 0 n) = (j <? n)%nat.
Proof.
  destruct (Nat.ltb_spec j n) as [L|L].
  - apply existsb_exists. exists j. split; [apply in_seq; lia | apply Nat.eqb_refl].
  - destruct (existsb (Nat.eqb j) (seq 0 n)) eqn:E; [| reflexivity].
    apply existsb_exists in E. destruct E as (i & Hi & Hj).
    apply in_seq in Hi. apply Nat.eqb_eq in Hj. lia.
Qed.

(** The number of rows: the number of labels. *)
Definition N_ITEMS : nat := List.length CHECK_ITEMS.

Lemma count_fresh : count fresh = N_ITEMS.
Proof. unfold count, fresh, N_ITEMS. cbn [checks]. apply length_map. Qed.

Lemma fresh_unchecked (j : nat) : is_checked fresh j = false.
Proof.
  unfold is_checked, fresh. cbn [checks].
  generalize CHECK_ITEMS. intros l. revert j.
  induction l as [|x l IH]; intros [|j]; simpl; auto.
Qed.

(** The dialog that [__init__] builds over a set of stored elements. *)
Definition opened (checked_set : list pyval) : dialog :=
  with_connected (fold_left (mark (fun i => py_in i checked_set)) (rows fresh) fresh) true.

Lemma count_with_connected (d : dialog) (b : bool) : count (with_connected d b) = count d.
Proof. reflexivity. Qed.

Lemma checked_with_connected (d : dialog) (b : bool) (j : nat) :
  is_checked (with_connected d b) j = is_checked d j.
Proof. reflexivity. Qed.

Lemma opened_count (cs : list pyval) : count (opened cs) = N_ITEMS.
Proof.
  unfold opened. now rewrite count_with_connected, fold_mark_count, count_fresh.
Qed.

Lemma opened_checked (cs : list pyval) (j : nat) :
  is_checked (opened cs) j = py_in j cs && (j <? N_ITEMS)%nat.
Proof.
  unfold opened.
  rewrite checked_with_connected, fold_mark_checked, fresh_unchecked. unfold rows.
  rewrite existsb_seq, count_fresh. cbn [orb].
  now destruct (py_in j cs), (j <? N_ITEMS)%nat.
Qed.

(** [__init__] reads the state and does nothing else to the host. *)
Lemma init_run (w : world) :
  __init__ w
  = (match checked_set_of (loaded w) with
     | Ok cs => Ok (opened cs)
     | Raise e => Raise e
     end, w).
Proof.
  unfold __init__, bind. rewrite load_state_run.
  unfold lift. destruct (checked_set_of (loaded w)) as [cs|e]; [| reflexivity].
  rewrite marks_run by reflexivity. reflexivity.
Qed.

End WithFloat.

End DialogFacts.

(** ** What a computation logs *)

Module Effects.

Import Host.

Section WithFloat.

Context `{FM : FloatModel}.

(** [m] appends to the log only events that satisfy [P], and a value that
    it returns satisfies [Q]. *)
Definition emits {A : Type} (P : event -> Prop) (Q : A -> Prop) (m : M A) : Prop :=
  forall w, exists evs,
    log (snd (m w)) = (log w ++ evs)%list
    /\ Forall P evs
    /\ forall a, fst (m w) = Ok a -> Q a.

Definition any {A : Type} : A -> Prop := fun _ => True.

Lemma emits_weaken {A} (P : event -> Prop) (Q Q' : A -> Prop) (m : M A) :
  emits P Q m -> (forall a, Q a -> Q' a) -> emits P Q' m.
Proof.
  intros H HQ w. destruct (H w) as (evs & E & F & R).
  exists evs. repeat split; auto.
Qed.

Lemma emits_ret {A} (P : event -> Prop) (Q : A -> Prop) (a : A) :
  Q a -> emits P Q (ret a).
Proof.
  intros H w. exists []. cbn. rewrite app_nil_r. repeat split; auto.
  intros b [= <-]. exact H.
Qed.

Lemma emits_raise {A} (P : event -> Prop) (Q : A -> Prop) (e : exn) :
  emits P Q (raise e).
Proof.
  intros w. exists []. cbn. rewrite app_nil_r. repeat split; auto. discriminate.
Qed.

Lemma emits_lift {A} (P : event -> Prop) (r : res A) : emits P any (lift r).
Proof.
  intros w. exists []. cbn. rewrite app_nil_r. repeat split; auto.
Qed.

Lemma emits_gets {A} (P : event -> Prop) (f : world -> A) : emits P any (gets f).
Proof.
  intros w. exists []. cbn. rewrite app_nil_r. repeat split; auto.
Qed.

Lemma emits_bind {A B} (P : event -> Prop) (Q : A -> Prop) (R : B -> Prop)
    (m : M A) (k : A -> M B) :
  emits P Q m -> (forall a, Q a -> emits P R (k a)) -> emits P R (bind m k).
Proof.
  intros Hm Hk w. unfold bind. destruct (Hm w) as (evs & E & F & Ra).
  destruct (m w) as [[a|e] w1]; cbn [fst snd] in *.
  - destruct (Hk a (Ra a eq_refl) w1) as (evs' & E' & F' & Rb).
    exists (evs ++ evs')%list. rewrite E', E, app_assoc.
    repeat split; auto. apply Forall_app; auto.
  - exists evs. repeat split; auto. discriminate.
Qed.

Lemma emits_try_except {A} (P : event -> Prop) (Q : A -> Prop)
    (m : M A) (h : exn -> M A) :
  emits P Q m -> (forall e, emits P Q (h e)) -> emits P Q (try_except m h).
Proof.
  intros Hm Hh w. unfold try_except. destruct (Hm w) as (evs & E & F & Ra).
  destruct (m w) as [[a|e] w1]; cbn [fst snd] in *.
  - exists evs. repeat split; auto.
  - destruct (Hh e w1) as (evs' & E' & F' & Rb).
    exists (evs ++ evs')%list. rewrite E', E, app_assoc.
    repeat split; auto. apply Forall_app; auto.
Qed.

Lemma emits_for_each {A S} (P : event -> Prop) (I : S -> Prop)
    (l : list A) (body : S -> A -> M S) (s : S) :
  (forall s x, I s -> emits P I (body s x)) -> I s -> emits P I (for_each l body s).
Proof.
  intros Hb. revert s. induction l as [|x l IH]; intros s Hs; cbn [for_each].
  - now apply emits_ret.
  - eapply emits_bind; [apply Hb, Hs | intros s' Hs'; now apply IH].
Qed.

(** The host calls. *)

Lemma emits_one {A} (P : event -> Prop) (m : M A) (ev : event) :
  (forall w, log (snd (m w)) = (log w ++ [ev])%list) -> P ev -> emits P any m.
Proof.
  intros H Hp w. exists [ev]. repeat split; auto.
Qed.

Lemma emits_setUserData (P : event -> Prop) (n k v : string) :
  P (EvSetUserData n k v) -> emits P any (setUserData n k v).
Proof.
  intros Hp w. unfold setUserData. destruct (lookup n (nodes w)).
  - exists [EvSetUserData n k v]. repeat split; auto.
  - exists []. cbn. rewrite app_nil_r. repeat split; auto.
Qed.

Lemma emits_makedirs (P : event -> Prop) (d : string) :
  P (EvMakedirs d) -> emits P any (makedirs d).
Proof. intros Hp. now apply (emits_one P _ (EvMakedirs d)). Qed.

Lemma emits_displayMessage (P : event -> Prop) (text : string) (buttons : list string) :
  P (EvMessage text buttons) -> emits P any (displayMessage text buttons).
Proof. intros Hp. now apply (emits_one P _ (EvMessage text buttons)). Qed.

Lemma emits_setStatusMessage (P : event -> Prop) (text : string) :
  P (EvStatusBar text) -> emits P any (setStatusMessage text).
Proof.
  intros Hp w. unfold setStatusMessage. destruct (status_bar w).
  - exists [EvStatusBar text]. repeat split; auto.
  - exists []. cbn. rewrite app_nil_r. repeat split; auto.
Qed.

Lemma emits_hipFile_save (P : event -> Prop) (p : string) :
  P (EvSave p) -> emits P any (hipFile_save p).
Proof. intros Hp. now apply (emits_one P _ (EvSave p)). Qed.

Lemma emits_flipbook (P : event -> Prop) (sv : viewer) (s : flipbook_settings) :
  P (EvFlipbook s) -> (forall e, P (EvFlipbookFailed s e)) -> emits P any (flipbook sv s).
Proof.
  intros Hp Hf w. unfold flipbook. destruct (flipbook_outcome sv).
  - exists [EvFlipbook s]. repeat split; auto.
  - exists [EvFlipbookFailed s e]. repeat split; auto.
Qed.

Lemma emits_selectFromList (P : event -> Prop) (options : list string) :
  P (EvSelect options) -> emits P any (selectFromList options).
Proof. intros Hp. now apply (emits_one P _ (EvSelect options)). Qed.

Lemma emits_readMultiInput (P : event -> Prop) (title : string) :
  P (EvReadInput title) -> emits P any (readMultiInput title).
Proof. intros Hp. now apply (emits_one P _ (EvReadInput title)). Qed.

Lemma emits_expandString (P : event -> Prop) (s : string) : emits P any (expandString s).
Proof.
  intros w. exists []. unfold expandString.
  destruct (Str.startswith s "$HIP"); cbn; rewrite app_nil_r; repeat split; auto.
Qed.

End WithFloat.

End Effects.

(** ** The finalization checklist: screenshots step by step *)

Module ShotFacts.

Import Host Json Checklist.

Section WithFloat.

Context `{FM : FloatModel}.

(** The directory that [_hip_dir] returns. *)
Definition hip_dir (w : world) : string :=
  match hip_var w with
  | Ok h => h
  | Raise _ => OsPath.dirname (if String.eqb (hip_path w) EmptyString then cwd w else hip_path w)
  end.

Lemma hip_dir_run (w : world) : _hip_dir w = (Ok (hip_dir w), w).
Proof.
  unfold _hip_dir, hip_dir, try_except, expandString, bind, gets, ret.
  cbn. destruct (hip_var w); cbn; [now rewrite StrFacts.append_nil_r | reflexivity].
Qed.

Definition screens_dir (w : world) : string := OsPath.join (hip_dir w) "screenshots".

(** The host once the screenshots directory is there. *)
Definition with_screens_dir (w : world) : world :=
  if existsb (String.eqb (screens_dir w)) (dirs w) then w
  else set_log (set_dirs w (screens_dir w :: dirs w))
         (log w ++ [EvMakedirs (screens_dir w)])%list.

Lemma screens_dir_run (w : world) :
  _screens_dir w = (Ok (screens_dir w), with_screens_dir w).
Proof.
  unfold _screens_dir, bind. rewrite hip_dir_run.
  unfold isdir, gets, with_screens_dir, screens_dir.
  destruct (existsb (String.eqb (OsPath.join (hip_dir w) "screenshots")) (dirs w));
    reflexivity.
Qed.

(** The label of the active view. *)
Definition view_label (w : world) : string :=
  match scene_viewer w with
  | None => "noview"
  | Some sv =>
      match camera sv with
      | Some cam => cam
      | None => viewport_name sv
      end
  end.

Lemma active_view_label_run (w : world) : _active_view_label w = (Ok (view_label w), w).
Proof.
  unfold _active_view_label, view_label, bind, gets.
  destruct (scene_viewer w) as [sv|]; [| reflexivity].
  destruct (camera sv); reflexivity.
Qed.

(** The frame as the file name has it. *)
Definition frame_str (w : world) : string :=
  match float_round (frame w) with
  | Some z => "f" ++ Dec.format_04d z
  | None => "f0000"
  end.

Lemma frame_str_run (w : world) : _frame_str w = (Ok (frame_str w), w).
Proof.
  unfold _frame_str, frame_str, bind, gets.
  destruct (float_round (frame w)); reflexivity.
Qed.

(** The name of the working document without its extension. *)
Definition doc_name (w : world) : string :=
  OsPath.basename
    (fst (OsPath.splitext
            (if String.eqb (hip_path w) EmptyString then "untitled.hip" else hip_path w))).

(** The file name of a screenshot of the checklist, without ".jpg". *)
Definition shot_name (w : world) (custom_suffix : string) : string :=
  let fname :=
    doc_name w ++ "_" ++ view_label w ++ "_" ++ frame_str w ++ "_" ++ stamp w in
  if String.eqb custom_suffix EmptyString then fname else fname ++ "_" ++ custom_suffix.

Definition shot_path (w : world) (custom_suffix : string) : string :=
  OsPath.join (screens_dir w) (shot_name w custom_suffix ++ ".jpg").

Definition shot_settings (w : world) (custom_suffix : string) : flipbook_settings :=
  {| fb_frame_range := (frame w, frame w);
     fb_output := shot_path w custom_suffix;
     fb_use_resolution := true;
     fb_resolution := (1920, 1080)%Z;
     fb_crop_out_mask_overlay := Some true |}.

(** The host after [_screenshot_viewport] through a viewer. *)
Definition after_shot (w : world) (sv : viewer) (custom_suffix : string) : world :=
  let w1 := with_screens_dir w in
  set_log w1
    (log w1 ++ [match flipbook_outcome sv with
                | Ok _ => EvFlipbook (shot_settings w custom_suffix)
                | Raise e => EvFlipbookFailed (shot_settings w custom_suffix) e
                end])%list.

Lemma screenshot_viewport_none (w : world) (custom_suffix : string) :
  scene_viewer w = None -> _screenshot_viewport custom_suffix w = (Ok None, w).
Proof. intros H. unfold _screenshot_viewport, bind, gets. now rewrite H. Qed.

Lemma screenshot_viewport_run (w : world) (sv : viewer) (custom_suffix : string) :
  scene_viewer w = Some sv ->
  _screenshot_viewport custom_suffix w
  = (match flipbook_outcome sv with
     | Ok _ => Ok (Some (shot_path w custom_suffix))
     | Raise _ => Ok None
     end, after_shot w sv custom_suffix).
Proof.
  intros H. unfold _screenshot_viewport.
  unfold bind at 1. unfold gets at 1. cbn [fst snd]. rewrite H.
  unfold bind at 1. unfold gets at 1.
  unfold bind at 1. rewrite active_view_label_run.
  unfold bind at 1. rewrite frame_str_run.
  unfold bind at 1. unfold _timestamp, gets at 1.
  unfold bind at 1. rewrite screens_dir_run.
  unfold bind at 1. unfold gets at 1.
  unfold try_except, bind, flipbook, ret, after_shot, shot_settings, shot_path, shot_name,
    doc_name.
  assert (F : frame (with_screens_dir w) = frame w).
  { unfold with_screens_dir. now destruct (existsb _ _). }
  rewrite F.
  destruct (flipbook_outcome sv); reflexivity.
Qed.

End WithFloat.

End ShotFacts.

(** ** The finalization checklist: what the handlers log *)

Module HandlerEffects.

Import Host Json Checklist Effects.

(** The host calls log what their lemmas say. *)
Ltac emits_call :=
  first
    [ apply emits_gets | apply emits_lift | apply emits_expandString
    | apply emits_setUserData | apply emits_makedirs | apply emits_displayMessage
    | apply emits_setStatusMessage | apply emits_hipFile_save
    | apply emits_flipbook | apply emits_selectFromList
    | apply emits_readMultiInput ].

(** One step of a proof that a computation logs only events in [P]. *)
Ltac emits_step :=
  lazymatch goal with
  | |- emits _ ?Q (ret _) =>
      first [ is_evar Q; apply (emits_ret _ any); exact I | apply emits_ret ]
  | |- emits _ _ (raise _) => apply emits_raise
  | |- emits _ _ (bind _ _) => eapply emits_bind; [| intros ? ?]
  | |- emits _ _ (try_except _ _) => apply emits_try_except; [| intros ?]
  | |- emits _ _ (match ?x with _ => _ end) => destruct x
  | |- emits _ _ _ =>
      first [ emits_call | eapply emits_weaken; [emits_call | intros ? ?] ]
  end.

Section WithFloat.

Context `{FM : FloatModel}.

(** Events other than writes of user data. *)
Definition not_a_write (ev : event) : Prop :=
  match ev with
  | EvSetUserData _ _ _ => False
  | _ => True
  end.

(** Events other than modal messages. *)
Definition not_modal (ev : event) : Prop :=
  match ev with
  | EvMessage _ _ => False
  | _ => True
  end.

Lemma screenshot_viewport_emits (P : event -> Prop) (custom_suffix : string) :
  (forall d, P (EvMakedirs d)) ->
  (forall s, P (EvFlipbook s)) ->
  (forall s e, P (EvFlipbookFailed s e)) ->
  emits P any (_screenshot_viewport custom_suffix).
Proof.
  intros H1 H2 H3. unfold _screenshot_viewport, _active_view_label, _frame_str,
    _timestamp, _screens_dir, _hip_dir, isdir.
  repeat emits_step; auto; try exact I.
Qed.

Lemma notify_emits (P : event -> Prop) (Q : dialog -> Prop) (d : dialog) (msg : string) :
  P (EvStatusBar msg) -> Q (with_status d msg) -> emits P Q (_notify d msg).
Proof.
  intros H1 H2. unfold _notify. repeat emits_step; auto; try exact I.
Qed.

Lemma save_state_emits (P : event -> Prop) (l : list Z) :
  (forall n t, P (EvSetUserData n STATE_KEY (dumps (state_dict l t)))) ->
  emits P any (_save_state l).
Proof.
  intros H. unfold _save_state, _state_node, hou_node.
  repeat emits_step; auto; exact I.
Qed.

(** The writes of user data that keep the stored indices below [n]. *)
Definition writes_below (n : nat) (ev : event) : Prop :=
  match ev with
  | EvSetUserData _ _ v =>
      exists l t, v = dumps (state_dict l t)
                  /\ Forall (fun z => (0 <= z < Z.of_nat n)%Z) l
  | _ => True
  end.

Lemma persist_now_emits (d : dialog) :
  emits (writes_below (count d)) any (_persist_now d).
Proof.
  apply save_state_emits. intros n t. exists (_collect_checked_indices d), t.
  split; [reflexivity |]. apply Forall_forall. intros z Hz.
  apply DialogFacts.collect_spec in Hz. destruct Hz as (i & -> & Hi & _). lia.
Qed.

Lemma setCheckState_emits (n : nat) (d : dialog) (i : nat) (b : bool) :
  count d = n ->
  emits (writes_below n) (fun d' => count d' = n /\ connected d' = connected d)
    (setCheckState d i b).
Proof.
  intros C. unfold setCheckState.
  assert (C' : count (with_checks d (set_nth i b (checks d))) = n).
  { unfold count in *. cbn. now rewrite DialogFacts.length_set_nth. }
  destruct (Bool.eqb (is_checked d i) b); [now apply emits_ret |].
  destruct (connected d) eqn:E; [| apply emits_ret; split; [exact C' | exact E]].
  eapply emits_bind.
  - rewrite <- C'. apply persist_now_emits.
  - intros _ _. apply emits_ret. split; [exact C' | exact E].
Qed.

Lemma set_all_emits (n : nat) (b : bool) (l : list nat) (d : dialog) :
  count d = n ->
  emits (writes_below n) (fun d' => count d' = n /\ connected d' = connected d)
    (for_each l (fun d i => setCheckState d i b) d).
Proof.
  intros C.
  apply (emits_for_each _ (fun d' => count d' = n /\ connected d' = connected d)); auto.
  intros s x [Hs Hc]. eapply emits_weaken; [now apply setCheckState_emits |].
  cbn beta. intros a [Ha Hb]. split; congruence.
Qed.

Lemma writes_below_other (n : nat) (ev : event) : not_a_write ev -> writes_below n ev.
Proof. destruct ev; simpl; tauto. Qed.

Lemma check_all_emits (n : nat) (d : dialog) :
  count d = n ->
  emits (writes_below n) (fun d' => count d' = n /\ connected d' = connected d) (_check_all d).
Proof.
  intros C. unfold _check_all.
  eapply emits_bind; [now apply set_all_emits |].
  cbn beta. intros d1 [C1 K1].
  eapply emits_bind; [rewrite <- C1; apply persist_now_emits |].
  intros _ _. apply notify_emits; [exact I | now split].
Qed.

Lemma clear_all_emits (n : nat) (d : dialog) :
  count d = n ->
  emits (writes_below n) (fun d' => count d' = n /\ connected d' = connected d) (_clear_all d).
Proof.
  intros C. unfold _clear_all.
  eapply emits_bind; [now apply set_all_emits |].
  cbn beta. intros d1 [C1 K1].
  eapply emits_bind; [rewrite <- C1; apply persist_now_emits |].
  intros _ _. apply notify_emits; [exact I | now split].
Qed.

Lemma on_screenshot_emits (P : event -> Prop) (Q : dialog -> Prop) (d : dialog) :
  (forall ev, not_a_write ev -> not_modal ev -> P ev) ->
  (forall msg, Q (with_status d msg)) ->
  emits P Q (_on_screenshot d).
Proof.
  intros HP HQ. unfold _on_screenshot.
  eapply emits_bind.
  - apply screenshot_viewport_emits; intros; now apply HP.
  - intros path _. destruct path as [p|]; [destruct (String.eqb p EmptyString) |];
      (apply notify_emits; [now apply HP | apply HQ]).
Qed.

Lemma save_as_final_emits (P : event -> Prop) :
  (forall ev, not_a_write ev -> P ev) -> emits P any _save_as_final.
Proof.
  intros HP. unfold _save_as_final.
  repeat emits_step; try exact I; now apply HP.
Qed.

Lemma finalize_save_emits (n : nat) (d : dialog) :
  count d = n ->
  emits (writes_below n) (fun d' => count d' = n) (finalize_save d).
Proof.
  intros C. unfold finalize_save.
  eapply emits_bind; [rewrite <- C; apply persist_now_emits | intros _ _].
  eapply emits_bind; [apply save_as_final_emits, writes_below_other | intros fp _].
  eapply emits_bind with (Q := fun d' => count d' = n).
  - destruct fp as [fp|]; [| now apply emits_ret].
    destruct (String.eqb fp EmptyString); [now apply emits_ret |].
    eapply emits_bind;
      [apply screenshot_viewport_emits; intros; exact I | intros shot _].
    apply notify_emits; [exact I | exact C].
  - intros d' C'. apply emits_ret. exact C'.
Qed.

Lemma has_absolute_paths_emits (P : event -> Prop) : emits P any _has_absolute_paths.
Proof. apply emits_gets. Qed.

Lemma finalize_paths_emits (n : nat) (d : dialog) :
  count d = n ->
  emits (writes_below n) (fun d' => count d' = n) (finalize_paths d).
Proof.
  intros C. unfold finalize_paths.
  eapply emits_bind; [apply has_absolute_paths_emits | intros bad _].
  destruct bad as [|b bad]; [now apply finalize_save_emits |].
  eapply emits_bind; [apply emits_displayMessage; exact I | intros ans _].
  destruct (Z.eqb ans 0); [now apply emits_ret | now apply finalize_save_emits].
Qed.

Lemma on_finalize_emits (n : nat) (d : dialog) :
  count d = n ->
  emits (writes_below n) (fun d' => count d' = n) (_on_finalize d).
Proof.
  intros C. unfold _on_finalize.
  destruct (negb (_all_checked d)); [| now apply finalize_paths_emits].
  eapply emits_bind; [apply emits_displayMessage; exact I | intros ans _].
  destruct (Z.eqb ans 0); [now apply emits_ret | now apply finalize_paths_emits].
Qed.

Lemma handle_emits (n : nat) (d : dialog) (a : action) :
  count d = n ->
  emits (writes_below n) (fun d' => count d' = n) (handle d a).
Proof.
  intros C. destruct a as [i| | | | |]; cbn [handle].
  - destruct (i <? count d)%nat; [| now apply emits_ret].
    eapply emits_weaken; [now apply setCheckState_emits | cbn beta; tauto].
  - eapply emits_weaken; [now apply check_all_emits | cbn beta; tauto].
  - eapply emits_weaken; [now apply clear_all_emits | cbn beta; tauto].
  - apply on_screenshot_emits; [intros ev H _; now apply writes_below_other | intros; exact C].
  - now apply on_finalize_emits.
  - now apply emits_ret.
Qed.

Lemma exec_emits (n : nat) (l : list action) (d : dialog) :
  count d = n ->
  emits (writes_below n) (fun d' => count d' = n) (exec_ d l).
Proof.
  revert d; induction l as [|a l IH]; intros d C; cbn [exec_].
  - destruct (closed d); now apply emits_ret.
  - destruct (closed d); [now apply emits_ret |].
    eapply emits_bind; [now apply handle_emits | intros d' C'; now apply IH].
Qed.

(** Whatever the user does in the dialog, the indices that it stores lie
    below the number of labels. *)
Lemma dialog_emits (l : list action) :
  emits (writes_below DialogFacts.N_ITEMS) (fun d => count d = DialogFacts.N_ITEMS)
    (show_finalization_dialog l).
Proof.
  unfold show_finalization_dialog.
  eapply emits_bind with (Q := fun d => count d = DialogFacts.N_ITEMS).
  - intros w. rewrite DialogFacts.init_run. exists []. cbn [fst snd].
    rewrite app_nil_r. repeat split; auto.
    intros a H. destruct (checked_set_of (PersistFacts.loaded w)); [| discriminate].
    injection H as <-. apply DialogFacts.opened_count.
  - intros d C. now apply exec_emits.
Qed.

End WithFloat.

End HandlerEffects.

(** ** The finalization checklist: finalize step by step *)

Module FinalizeFacts.

Import Host Json Checklist Effects HandlerEffects PersistFacts ShotFacts.

Section WithFloat.

Context `{FM : FloatModel}.

(** [_persist_now] returns, with the state stored when the node exists. *)
Definition persisted (w : world) (d : dialog) : world :=
  match lookup "/obj" (nodes w) with
  | Some r => saved_world w r (dumps (state_dict (_collect_checked_indices d) (clock w)))
  | None => w
  end.

Lemma persist_now_run (d : dialog) (w : world) : _persist_now d w = (Ok tt, persisted w d).
Proof.
  unfold _persist_now, persisted.
  destruct (lookup "/obj" (nodes w)) as [r|] eqn:E.
  - now apply save_state_run.
  - now apply save_state_absent.
Qed.

(** [_notify] sets the status line, and the status bar when it can. *)
Definition notified (w : world) (msg : string) : world :=
  match status_bar w with
  | Ok _ => set_log w (log w ++ [EvStatusBar msg])%list
  | Raise _ => w
  end.

Lemma notify_run (d : dialog) (msg : string) (w : world) :
  _notify d msg w = (Ok (with_status d msg), notified w msg).
Proof.
  unfold _notify, notified, bind, try_except, setStatusMessage, ret.
  destruct (status_bar w); reflexivity.
Qed.

(** The name that save-as-final gives a scene. *)
Definition final_name (cur : string) : string :=
  fst (OsPath.splitext cur) ++ "_final" ++ snd (OsPath.splitext cur).

Definition unsaved (cur : string) : bool :=
  String.eqb cur EmptyString || String.eqb cur "untitled.hip".

Definition already_final (cur : string) : bool :=
  Str.endswith (Str.lower cur) "_final.hip".

Definition save_first : event := EvMessage "Save your scene first." ["OK"].

Lemma save_as_final_run (w : world) :
  _save_as_final w
  = if unsaved (hip_path w)
    then (Ok None, set_log w (log w ++ [save_first])%list)
    else if already_final (hip_path w) then (Ok (Some (hip_path w)), w)
    else (Ok (Some (final_name (hip_path w))),
          set_log (set_hip_path w (final_name (hip_path w)))
            (log w ++ [EvSave (final_name (hip_path w))])%list).
Proof.
  unfold _save_as_final, unsaved, already_final, final_name, bind, gets.
  cbn [fst snd].
  destruct (String.eqb (hip_path w) EmptyString || String.eqb (hip_path w) "untitled.hip");
    [reflexivity |].
  destruct (Str.endswith (Str.lower (hip_path w)) "_final.hip"); [reflexivity |].
  destruct (OsPath.splitext (hip_path w)) as [base ext]. reflexivity.
Qed.

(** The status line at the end of a finalize that saved the scene. *)
Definition final_message (fp : string) (shot : option string) : string :=
  match shot with
  | Some s =>
      if String.eqb s EmptyString then "Saved as: " ++ fp
      else ("Saved as: " ++ fp) ++ "  |  Final screenshot: " ++ s
  | None => "Saved as: " ++ fp
  end.

(** [finalize_save]: the state is stored, save-as-final runs, and then
    the screenshot and the status line follow if a path came back. *)
Lemma finalize_save_run (d : dialog) (w : world) :
  finalize_save d w
  = match _save_as_final (persisted w d) with
    | (Ok (Some fp), w2) =>
        if String.eqb fp EmptyString then (Ok (with_closed d (Some true)), w2)
        else
          match _screenshot_viewport "final" w2 with
          | (Ok shot, w3) =>
              (Ok (with_closed (with_status d (final_message fp shot)) (Some true)),
               notified w3 (final_message fp shot))
          | (Raise e, w3) => (Raise e, w3)
          end
    | (Ok None, w2) => (Ok (with_closed d (Some true)), w2)
    | (Raise e, w2) => (Raise e, w2)
    end.
Proof.
  unfold finalize_save. unfold bind at 1. rewrite persist_now_run.
  unfold bind at 1.
  destruct (_save_as_final (persisted w d)) as [[[fp|]|e] w2]; try reflexivity.
  unfold bind at 1.
  destruct (String.eqb fp EmptyString); [reflexivity |].
  unfold bind at 1.
  destruct (_screenshot_viewport "final" w2) as [[shot|e] w3]; [| reflexivity].
  rewrite notify_run. unfold final_message.
  destruct shot as [s|]; [destruct (String.eqb s EmptyString) |]; reflexivity.
Qed.

Lemma scene_viewer_persisted (w : world) (d : dialog) :
  scene_viewer (persisted w d) = scene_viewer w.
Proof. unfold persisted. now destruct (lookup "/obj" (nodes w)). Qed.

Lemma hip_path_persisted (w : world) (d : dialog) :
  hip_path (persisted w d) = hip_path w.
Proof. unfold persisted. now destruct (lookup "/obj" (nodes w)). Qed.

Lemma scene_viewer_saved (w : world) :
  scene_viewer (snd (_save_as_final w)) = scene_viewer w.
Proof.
  rewrite save_as_final_run.
  destruct (unsaved (hip_path w)); [reflexivity |].
  destruct (already_final (hip_path w)); reflexivity.
Qed.

Lemma log_with_screens_dir (w : world) :
  exists evs, log (with_screens_dir w) = (log w ++ evs)%list /\ Forall not_modal evs.
Proof.
  unfold with_screens_dir. destruct (existsb _ _).
  - exists []. now rewrite app_nil_r.
  - exists [EvMakedirs (screens_dir w)]. split; [reflexivity | repeat constructor].
Qed.

Lemma log_after_shot (w : world) (sv : viewer) (sfx : string) :
  exists evs, log (after_shot w sv sfx) = (log w ++ evs)%list /\ Forall not_modal evs.
Proof.
  unfold after_shot. destruct (log_with_screens_dir w) as (evs & E & F).
  cbn [log set_log]. rewrite E, <- app_assoc.
  eexists. split; [reflexivity |]. apply Forall_app. split; [exact F |].
  destruct (flipbook_outcome sv); repeat constructor.
Qed.

Lemma log_notified (w : world) (msg : string) :
  exists evs, log (notified w msg) = (log w ++ evs)%list /\ Forall not_modal evs.
Proof.
  unfold notified. destruct (status_bar w).
  - exists [EvStatusBar msg]. split; [reflexivity | repeat constructor].
  - exists []. now rewrite app_nil_r.
Qed.

Lemma hip_path_after_shot (w : world) (sv : viewer) (sfx : string) :
  hip_path (after_shot w sv sfx) = hip_path w.
Proof. unfold after_shot, with_screens_dir. now destruct (existsb _ _). Qed.

Lemma hip_path_notified (w : world) (msg : string) :
  hip_path (notified w msg) = hip_path w.
Proof. unfold notified. now destruct (status_bar w). Qed.

Definition screenshot_failed : string :=
  "Screenshot failed (no Scene Viewer or flipbook error).".

End WithFloat.

End FinalizeFacts.

(** ** Worlds to run the scripts on *)

Module Sample.

Import Host Checklist.

Definition geo1 : hnode :=
  {| node_path := "/obj/geo1";
     node_parms :=
       [ {| parm_name := "file"; parm_is_string := true;
            parm_eval := Ok "http://example.com/tex.png" |};
         {| parm_name := "cache"; parm_is_string := true;
            parm_eval := Ok "$HIP/geo/cache.bgeo" |};
         {| parm_name := "scale"; parm_is_string := false;
            parm_eval := Ok "/1.0" |} ] |}.

Definition persp : viewer :=
  {| camera := Some "cam1"; viewport_name := "persp1"; flipbook_outcome := Ok tt |}.

Definition broken : viewer :=
  {| camera := None; viewport_name := "persp1"; flipbook_outcome := Raise HostError |}.

(** A scene with a state node that holds the text [raw], if any. *)
Definition studio (hip : string) (sv : option viewer) (raw : option string) : world :=
  {| nodes :=
       [("/obj",
         {| user_data := match raw with
                         | Some t => [(STATE_KEY, t)]
                         | None => []
                         end;
            sub_children := [geo1] |})];
     hip_path := hip;
     hip_var := Ok "/proj";
     cwd := "/home/artist";
     scene_viewer := sv;
     frame := ZNum 24;
     clock := ZNum 1730712345;
     stamp := "20261104_101500";
     dirs := ["/proj"];
     files := [];
     answer := fun _ => 1%Z;
     selected := [3];
     typed := (0%Z, ("1920", "1080"));
     status_bar := Ok tt;
     log := [] |}.

(** A scene with sixty parameters that hold an absolute path. *)
Definition crowded : world :=
  let w := studio "/proj/shot.hip" (Some persp) None in
  let many :=
    {| node_path := "/obj/many";
       node_parms :=
         repeat {| parm_name := "file"; parm_is_string := true;
                   parm_eval := Ok "/textures/wood.png" |} 60 |} in
  {| nodes := [("/obj", {| user_data := []; sub_children := [many] |})];
     hip_path := hip_path w; hip_var := hip_var w; cwd := cwd w;
     scene_viewer := scene_viewer w; frame := frame w; clock := clock w;
     stamp := stamp w; dirs := dirs w; files := files w; answer := answer w;
     selected := selected w; typed := typed w;
     status_bar := status_bar w; log := log w |}.

(** The same scene as the user types a custom resolution. *)
Definition typing (width height : string) : world :=
  let w := studio "/proj/shot.hip" (Some persp) None in
  {| nodes := nodes w; hip_path := hip_path w; hip_var := hip_var w; cwd := cwd w;
     scene_viewer := scene_viewer w; frame := frame w; clock := clock w;
     stamp := stamp w; dirs := dirs w; files := files w; answer := answer w;
     selected := selected w; typed := (0%Z, (width, height));
     status_bar := status_bar w; log := log w |}.

End Sample.

(** ** The finalization checklist: the stored state *)

Module StateClaims.

Import Host Json Checklist Effects HandlerEffects PersistFacts DialogFacts.

Section WithFloat.

Context `{FM : FloatModel}.

Lemma checked_set_of_empty : checked_set_of empty_dict = Ok [].
Proof. reflexivity. Qed.

Lemma loaded_unreadable (w : world) :
  lookup "/obj" (nodes w) = None
  \/ stored w = None
  \/ (exists raw e, stored w = Some raw /\ loads raw = Raise e) ->
  loaded w = empty_dict.
Proof.
  unfold loaded, stored.
  intros [H | [H | (raw & e & H & L)]].
  - now rewrite H.
  - unfold stored in H. now rewrite H.
  - unfold stored in H. rewrite H, L. now destruct (String.eqb raw EmptyString).
Qed.

(** C9.  [_load_state] returns a value on every host and leaves the host
    untouched: no stored text makes it raise.  When the state node is
    missing, when the key is absent, or when the stored text is not valid
    JSON, the value is the empty dictionary, and the dialog then opens
    with one row for each label and no row checked. *)
Theorem C9_load_state_total (w : world) :
  (exists v, _load_state w = (Ok v, w))
  /\ (lookup "/obj" (nodes w) = None
      \/ stored w = None
      \/ (exists raw e, stored w = Some raw /\ loads raw = Raise e) ->
      _load_state w = (Ok empty_dict, w)
      /\ exists d,
           __init__ w = (Ok d, w)
           /\ count d = List.length CHECK_ITEMS
           /\ forall i, is_checked d i = false).
Proof.
  split.
  - exists (loaded w). apply load_state_run.
  - intros H. apply loaded_unreadable in H.
    split; [rewrite load_state_run; now rewrite H |].
    exists (opened []). rewrite init_run, H, checked_set_of_empty.
    split; [reflexivity |]. split; [apply opened_count |].
    intros i. now rewrite opened_checked.
Qed.

(** C8.  The indices that [_collect_checked_indices] hands to
    [_save_state] lie in [0, N) for the N rows of the dialog; whatever the
    user does in the dialog, every write of user data stores a list of
    indices below the number of labels; and a dialog that [__init__] has
    built has one row for each label, its checked rows are those indices
    below that number which the stored set contains, so that a stored
    index out of range changes nothing. *)
Theorem C8_checked_indices_in_range :
  (forall (d : dialog) (z : Z),
      In z (_collect_checked_indices d) -> (0 <= z < Z.of_nat (count d))%Z)
  /\ (forall (l : list action) (w : world),
        exists evs,
          log (snd (show_finalization_dialog l w)) = (log w ++ evs)%list
          /\ Forall (writes_below (List.length CHECK_ITEMS)) evs)
  /\ (forall (w : world) (d : dialog) (w' : world),
        __init__ w = (Ok d, w') ->
        count d = List.length CHECK_ITEMS
        /\ (forall i, is_checked d i = true -> i < List.length CHECK_ITEMS)
        /\ exists cs,
             checked_set_of (loaded w) = Ok cs
             /\ forall i,
                  is_checked d i = py_in i cs && (i <? List.length CHECK_ITEMS)%nat).
Proof.
  split; [| split].
  - intros d z H. apply collect_spec in H. destruct H as (i & -> & Hi & _). lia.
  - intros l w. destruct (dialog_emits l w) as (evs & E & F & _). now exists evs.
  - intros w d w'. rewrite init_run.
    destruct (checked_set_of (loaded w)) as [cs|e]; [| discriminate].
    intros [= <- <-]. split; [apply opened_count |]. split.
    + intros i. rewrite opened_checked. intros H.
      apply andb_true_iff in H. destruct H as [_ H]. now apply Nat.ltb_lt in H.
    + exists cs. split; [reflexivity | intros i; apply opened_checked].
Qed.

(** The dialog that is opened after [_persist_now] has its rows checked
    as they were when the state was stored. *)
Lemma reopen_restores (w : world) (d : dialog) :
  lookup "/obj" (nodes w) <> None ->
  count d = List.length CHECK_ITEMS ->
  exists d',
    __init__ (snd (_persist_now d w)) = (Ok d', snd (_persist_now d w))
    /\ forall i, is_checked d' i = is_checked d i.
Proof.
  intros H C. destruct (lookup "/obj" (nodes w)) as [r|] eqn:E; [clear H | now elim H].
  unfold _persist_now. rewrite (save_state_run _ _ _ E). cbn [snd].
  rewrite init_run, loaded_saved_world, checked_set_of_state.
  exists (opened (map PyInt (_collect_checked_indices d))). split; [reflexivity |].
  intros i. rewrite opened_checked. unfold py_in.
  destruct (is_checked d i) eqn:K.
  - assert (L : i < count d) by now apply is_checked_lt.
    apply andb_true_iff. split.
    + apply in_ints, collect_spec. now exists i.
    + apply Nat.ltb_lt. unfold N_ITEMS. now rewrite <- C.
  - destruct (existsb (py_eq_int (Z.of_nat i)) (map PyInt (_collect_checked_indices d)))
      eqn:X; [| reflexivity].
    apply in_ints, collect_spec in X. destruct X as (j & Hj & _ & Hc).
    apply Nat2Z.inj in Hj. subst j. congruence.
Qed.

Lemma existsb_not_in (x : string) (l : list string) :
  existsb (String.eqb x) l = false -> ~ In x l.
Proof.
  intros H Hin. assert (E : existsb (String.eqb x) l = true).
  { apply existsb_exists. exists x. split; [exact Hin | apply String.eqb_refl]. }
  congruence.
Qed.

(** C10.  [CHECK_ITEMS] holds 18 labels: the label on UV and texture
    stretching and the label on cached sims are one item, the first
    followed at once by the second, and neither is an item by itself. *)
Theorem C10_check_items :
  List.length CHECK_ITEMS = 18
  /\ nth 10 CHECK_ITEMS EmptyString = label_uv ++ label_cache
  /\ ~ In label_uv CHECK_ITEMS
  /\ ~ In label_cache CHECK_ITEMS.
Proof.
  split; [reflexivity |]. split; [reflexivity |].
  split; apply existsb_not_in; vm_compute; reflexivity.
Qed.

End WithFloat.

(** C1 on a scene: the rows 0 and 3 are stored and read back. *)
Lemma C1_witness :
  let w := Sample.studio "/proj/shot.hip" (Some Sample.persp) None in
  lookup "/obj" (nodes w) <> None
  /\ fst (_load_state (snd (_save_state [0; 3]%Z w)))
     = Ok (state_dict [0; 3]%Z (JsonFacts.reload (clock w))).
Proof.
  cbv zeta. split; [discriminate |].
  apply (C1_persist_then_reload (Sample.studio "/proj/shot.hip" (Some Sample.persp) None)
           [0; 3]%Z).
  discriminate.
Defined.

(** C9 on a scene whose stored text is not JSON. *)
Lemma C9_witness :
  let w := Sample.studio "/proj/shot.hip" (Some Sample.persp) (Some "{checked: [0") in
  (exists raw e, stored w = Some raw /\ loads raw = Raise e)
  /\ _load_state w = (Ok empty_dict, w).
Proof.
  cbv zeta.
  assert (H : exists raw e,
             stored (Sample.studio "/proj/shot.hip" (Some Sample.persp) (Some "{checked: [0"))
             = Some raw /\ loads raw = Raise e).
  { exists "{checked: [0", JSONDecodeError. split; reflexivity. }
  split; [exact H |].
  apply (C9_load_state_total
           (Sample.studio "/proj/shot.hip" (Some Sample.persp) (Some "{checked: [0"))).
  right. right. exact H.
Defined.

(** The characters that a JSON value of RFC 8259 starts with: a brace, a
    bracket, a quote, a minus sign, a digit, and the first letters of
    [true], [false] and [null]. *)
Definition rfc8259_value_head (c : ascii) : bool :=
  existsb (Ascii.eqb c)
    ["{"; "["; dquote; "-"; "0"; "1"; "2"; "3"; "4"; "5"; "6"; "7"; "8"; "9";
     "t"; "f"; "n"]%char.

(** C9, as it was claimed, on the stored text "NaN".  The text is not
    valid JSON, no JSON value starts with its first letter, yet
    [json.loads] decodes it: [_load_state] returns the float and not the
    empty dictionary, and the dialog does not open. *)
Lemma C9_counterexample :
  let w := Sample.studio "/proj/shot.hip" (Some Sample.persp) (Some "NaN") in
  stored w = Some "NaN"
  /\ rfc8259_value_head "N" = false
  /\ loads "NaN" = Ok (PyFloat ZNan)
  /\ _load_state w = (Ok (PyFloat ZNan), w)
  /\ PyFloat ZNan <> empty_dict
  /\ __init__ w = (Raise AttributeError, w).
Proof.
  cbv zeta. split; [reflexivity |]. split; [reflexivity |].
  split; [vm_compute; reflexivity |].
  split; [rewrite load_state_run; vm_compute; reflexivity |].
  split; [discriminate |].
  rewrite init_run. vm_compute. reflexivity.
Qed.

(** C8 on a scene whose stored list holds the index 99: the dialog opens
    with the rows 0 and 3 checked and nothing else. *)
Lemma C8_witness :
  let w := Sample.studio "/proj/shot.hip" (Some Sample.persp)
             (Some ("{" ++ quoted "checked" ++ ": [0, 3, 99]}")) in
  exists d,
    __init__ w = (Ok d, w)
    /\ count d = List.length CHECK_ITEMS
    /\ (forall i, is_checked d i = true -> i < List.length CHECK_ITEMS)
    /\ map (is_checked d) [0; 3; 4; 99] = [true; true; false; false].
Proof.
  cbv zeta.
  pose (w := Sample.studio "/proj/shot.hip" (Some Sample.persp)
               (Some ("{" ++ quoted "checked" ++ ": [0, 3, 99]}"))).
  pose (cs := [PyInt 0; PyInt 3; PyInt 99]).
  assert (I : __init__ w = (Ok (opened cs), w)) by (rewrite init_run; reflexivity).
  destruct (proj2 (proj2 C8_checked_indices_in_range) w (opened cs) w I) as (C & L & _).
  exists (opened cs). split; [exact I |]. split; [exact C |]. split; [exact L |].
  rewrite !map_cons, !opened_checked. reflexivity.
Defined.

End StateClaims.

(** ** The finalization checklist: the path scan *)

Module ScanFacts.

Import Host Checklist.

Section WithFloat.

Context `{FM : FloatModel}.

(** A value that the scan reports. *)
Definition flagged (val : string) : bool :=
  negb (String.eqb val EmptyString)
  && is_abs val && negb (Str.contains "$HIP" val) && negb (Str.contains "$JOB" val).

(** The line that the scan reports for a parameter, if it reports one. *)
Definition entry (node : hnode) (p : parm) : list string :=
  if parm_is_string p then
    match parm_eval p with
    | Ok val =>
        if flagged val
        then [node_path node ++ " : " ++ parm_name p ++ " = " ++ val] else []
    | Raise _ => []
    end
  else [].

Definition node_entries (node : hnode) : list string :=
  flat_map (entry node) (node_parms node).

Definition root_entries (w : world) (r : string) : list string :=
  match lookup r (nodes w) with
  | Some n => flat_map node_entries (sub_children n)
  | None => []
  end.

(** The lines for all flagged values, in the order of the scan. *)
Definition all_entries (w : world) : list string := flat_map (root_entries w) ROOTS.

(** A loop that has gathered [l]: it goes on while [l] holds at most 50
    lines, and has returned the first 51 and the marker otherwise. *)
Definition capped (l : list string) : flow (list string) :=
  if (List.length l <=? 50)%nat then Next l
  else Return (firstn 51 l ++ [truncated])%list.

Lemma capped_more (l m : list string) :
  50 < List.length l -> capped (l ++ m) = capped l.
Proof.
  intros H. unfold capped.
  assert (E1 : (List.length l <=? 50)%nat = false) by (apply Nat.leb_gt; lia).
  assert (E2 : (List.length (l ++ m) <=? 50)%nat = false).
  { apply Nat.leb_gt. rewrite length_app. lia. }
  rewrite E1, E2. f_equal. f_equal.
  rewrite firstn_app.
  replace (51 - List.length l) with 0 by lia.
  cbn [firstn]. now rewrite app_nil_r.
Qed.

(** Loops over capped steps are capped. *)
Lemma for_flow_capped {A : Type} (step : list string -> A -> flow (list string))
    (lines : A -> list string) :
  (forall bad a, List.length bad <= 50 -> step bad a = capped (bad ++ lines a)) ->
  forall l bad,
    List.length bad <= 50 ->
    for_flow step l bad = capped (bad ++ flat_map lines l).
Proof.
  intros Hstep l. induction l as [|a l IH]; intros bad Hb; cbn [for_flow flat_map].
  - rewrite app_nil_r. unfold capped.
    now replace (List.length bad <=? 50)%nat with true by (symmetry; apply Nat.leb_le; lia).
  - rewrite (Hstep bad a Hb).
    destruct (Nat.le_gt_cases (List.length (bad ++ lines a)) 50) as [L|L].
    + unfold capped at 1.
      replace (List.length (bad ++ lines a) <=? 50)%nat with true
        by (symmetry; now apply Nat.leb_le).
      rewrite (IH _ L). now rewrite app_assoc.
    + rewrite app_assoc, (capped_more _ _ L).
      unfold capped.
      now replace (List.length (bad ++ lines a) <=? 50)%nat with false
        by (symmetry; apply Nat.leb_gt; lia).
Qed.

Lemma scan_parm_capped (node : hnode) (bad : list string) (p : parm) :
  List.length bad <= 50 -> scan_parm node bad p = capped (bad ++ entry node p).
Proof.
  intros Hb.
  assert (K : capped (bad ++ []) = Next bad).
  { rewrite app_nil_r. unfold capped.
    now replace (List.length bad <=? 50)%nat with true by (symmetry; apply Nat.leb_le; lia). }
  unfold scan_parm, entry, flagged.
  destruct (parm_is_string p); cbn [negb]; [| now rewrite K].
  destruct (parm_eval p) as [val|e]; [| now rewrite K].
  destruct (String.eqb val EmptyString); cbn [negb andb]; [now rewrite K |].
  destruct (is_abs val && negb (Str.contains "$HIP" val) && negb (Str.contains "$JOB" val));
    [| now rewrite K].
  unfold capped. rewrite length_app. cbn [List.length].
  destruct (Nat.ltb_spec 50 (List.length bad + 1)) as [L|L].
  - replace (List.length bad + 1 <=? 50)%nat with false by (symmetry; apply Nat.leb_gt; lia).
    rewrite firstn_all2; [reflexivity | rewrite length_app; cbn; lia].
  - now replace (List.length bad + 1 <=? 50)%nat with true by (symmetry; apply Nat.leb_le; lia).
Qed.

Lemma scan_node_capped (bad : list string) (node : hnode) :
  List.length bad <= 50 -> scan_node bad node = capped (bad ++ node_entries node).
Proof.
  intros Hb. unfold scan_node, node_entries.
  now apply (for_flow_capped (scan_parm node) (entry node) (scan_parm_capped node)).
Qed.

Lemma scan_root_capped (w : world) (bad : list string) (r : string) :
  List.length bad <= 50 -> scan_root w bad r = capped (bad ++ root_entries w r).
Proof.
  intros Hb. unfold scan_root, root_entries.
  destruct (lookup r (nodes w)) as [n|].
  - now apply (for_flow_capped scan_node node_entries scan_node_capped).
  - rewrite app_nil_r. unfold capped.
    now replace (List.length bad <=? 50)%nat with true by (symmetry; apply Nat.leb_le; lia).
Qed.

(** The report of [_has_absolute_paths]: all the lines up to 50 of them,
    the first 51 and the marker beyond. *)
Lemma has_absolute_paths_run (w : world) :
  _has_absolute_paths w = (Ok (flow_result (capped (all_entries w))), w).
Proof.
  unfold _has_absolute_paths, gets, all_entries.
  now rewrite (for_flow_capped (scan_root w) (root_entries w) (scan_root_capped w) ROOTS []
                 (Nat.le_0_l _)).
Qed.

End WithFloat.

End ScanFacts.

(** ** The finalization checklist: the path scan and save-as-final *)

Module PathClaims.

Import Host Checklist ScanFacts FinalizeFacts.

Section WithFloat.

Context `{FM : FloatModel}.

Lemma is_abs_spec (val : string) :
  is_abs val = true
  <-> (exists a b, val = a ++ ":/" ++ b)
      \/ (exists b, val = "/" ++ b)
      \/ (exists c b, val = String c (":\" ++ b)).
Proof.
  unfold is_abs. rewrite !orb_true_iff, StrFacts.contains_spec, StrFacts.startswith_spec.
  assert (D : (2 <? String.length val)%nat && String.eqb (Str.slice 1 3 val) ":\" = true
              <-> exists c b, val = String c (":\" ++ b)).
  { destruct val as [|c [|c1 [|c2 r]]]; cbn.
    - split; [discriminate | intros (c & b & H); discriminate].
    - split; [discriminate | intros (c' & b & H); discriminate].
    - split; [discriminate | intros (c' & b & H); discriminate].
    - unfold Str.slice. cbn.
      assert (S0 : substring 0 0 r = EmptyString) by (destruct r; reflexivity).
      rewrite S0. split.
      + intros H. destruct (Ascii.eqb c1 ":") eqn:E1; [| discriminate].
        destruct (Ascii.eqb c2 "\") eqn:E2; [| discriminate].
        apply Ascii.eqb_eq in E1, E2. subst. now exists c, r.
      + intros (c' & b & H). injection H as -> -> -> ->. reflexivity. }
  rewrite D. tauto.
Qed.

Lemma flagged_spec (val : string) :
  flagged val = true
  <-> val <> EmptyString
      /\ ((exists a b, val = a ++ ":/" ++ b)
          \/ (exists b, val = "/" ++ b)
          \/ (exists c b, val = String c (":\" ++ b)))
      /\ ~ (exists a b, val = a ++ "$HIP" ++ b)
      /\ ~ (exists a b, val = a ++ "$JOB" ++ b).
Proof.
  unfold flagged. rewrite !andb_true_iff, !negb_true_iff, is_abs_spec.
  rewrite <- !StrFacts.contains_spec, String.eqb_neq.
  split.
  - intros (((H1 & H2) & H3) & H4). repeat split; auto; congruence.
  - intros (H1 & H2 & H3 & H4). repeat split; auto.
    + now destruct (Str.contains "$HIP" val).
    + now destruct (Str.contains "$JOB" val).
Qed.

(** The values that the scan reads: the string parameters, which evaluate,
    of the nodes below the roots that exist. *)
Definition scanned (w : world) (node : hnode) (p : parm) (val : string) : Prop :=
  exists r n,
    In r ROOTS /\ lookup r (nodes w) = Some n /\ In node (sub_children n)
    /\ In p (node_parms node) /\ parm_is_string p = true /\ parm_eval p = Ok val.

Lemma all_entries_spec (w : world) (line : string) :
  In line (all_entries w)
  <-> exists node p val,
        scanned w node p val /\ flagged val = true
        /\ line = node_path node ++ " : " ++ parm_name p ++ " = " ++ val.
Proof.
  unfold all_entries, scanned. rewrite in_flat_map. split.
  - intros (r & Hr & H). unfold root_entries in H.
    destruct (lookup r (nodes w)) as [n|] eqn:E; [| contradiction].
    apply in_flat_map in H. destruct H as (node & Hn & H).
    unfold node_entries in H. apply in_flat_map in H. destruct H as (p & Hp & H).
    unfold entry in H.
    destruct (parm_is_string p) eqn:Es; [| contradiction].
    destruct (parm_eval p) as [val|] eqn:Ev; [| contradiction].
    destruct (flagged val) eqn:Ef; [| contradiction].
    destruct H as [<- | []].
    exists node, p, val. split; [| split; [exact Ef | reflexivity]].
    exists r, n. repeat split; auto.
  - intros (node & p & val & (r & n & Hr & E & Hn & Hp & Es & Ev) & Ef & ->).
    exists r. split; [exact Hr |]. unfold root_entries. rewrite E.
    apply in_flat_map. exists node. split; [exact Hn |].
    unfold node_entries. apply in_flat_map. exists p. split; [exact Hp |].
    unfold entry. rewrite Es, Ev, Ef. now left.
Qed.

(** The report beyond 50 lines: the first 51 and the marker. *)
Lemma has_absolute_paths_cut (w : world) :
  50 < List.length (all_entries w) ->
  _has_absolute_paths w = (Ok (firstn 51 (all_entries w) ++ [truncated])%list, w).
Proof.
  intros H. rewrite has_absolute_paths_run. unfold capped.
  now replace (List.length (all_entries w) <=? 50)%nat with false
    by (symmetry; apply Nat.leb_gt; lia).
Qed.

(** C2, as the code has it.  The scan reports a line for exactly those
    string parameters whose value is not empty and holds ":/" somewhere,
    or starts with "/", or has ":\" as its second and third characters,
    and holds neither "$HIP" nor "$JOB".  Up to 50 such lines the report
    is all of them in the order of the scan; beyond, it is cut short: the
    first lines, 50 of them at least and 51 at most, and then the
    truncation marker. *)
Theorem C2_absolute_path_scan (w : world) :
  (forall line,
      In line (all_entries w)
      <-> exists node p val,
            scanned w node p val
            /\ (val <> EmptyString
                /\ ((exists a b, val = a ++ ":/" ++ b)
                    \/ (exists b, val = "/" ++ b)
                    \/ (exists c b, val = String c (":\" ++ b)))
                /\ ~ (exists a b, val = a ++ "$HIP" ++ b)
                /\ ~ (exists a b, val = a ++ "$JOB" ++ b))
            /\ line = node_path node ++ " : " ++ parm_name p ++ " = " ++ val)
  /\ (List.length (all_entries w) <= 50 ->
      _has_absolute_paths w = (Ok (all_entries w), w))
  /\ (50 < List.length (all_entries w) ->
      exists k,
        50 <= k <= 51
        /\ _has_absolute_paths w = (Ok (firstn k (all_entries w) ++ [truncated])%list, w)).
Proof.
  split; [| split].
  - intros line. rewrite all_entries_spec. split.
    + intros (node & p & val & H1 & H2 & H3). exists node, p, val.
      split; [exact H1 |]. split; [now apply flagged_spec | exact H3].
    + intros (node & p & val & H1 & H2 & H3). exists node, p, val.
      split; [exact H1 |]. split; [now apply flagged_spec | exact H3].
  - intros H. rewrite has_absolute_paths_run. unfold capped.
    now replace (List.length (all_entries w) <=? 50)%nat with true
      by (symmetry; now apply Nat.leb_le).
  - intros H. exists 51. split; [lia | now apply has_absolute_paths_cut].
Qed.

(** The scan as the claim words it: a value counts when it starts with "/"
    or with a drive prefix, a letter, a colon and a slash of either kind. *)
Definition is_letter (c : ascii) : bool :=
  let n := Str.code c in
  ((65 <=? n) && (n <=? 90) || (97 <=? n) && (n <=? 122))%N.

Definition drive_prefix (val : string) : bool :=
  match val with
  | String c (String c1 (String c2 _)) =>
      is_letter c && Ascii.eqb c1 ":" && (Ascii.eqb c2 "\" || Ascii.eqb c2 "/")
  | _ => false
  end.

Definition claimed_flagged (val : string) : bool :=
  (Str.startswith val "/" || drive_prefix val)
  && negb (Str.contains "$HIP" val) && negb (Str.contains "$JOB" val).

Lemma splitext_join (p : string) :
  fst (OsPath.splitext p) ++ snd (OsPath.splitext p) = p.
Proof.
  unfold OsPath.splitext, OsPath._splitext.
  match goal with |- context [if ?c then _ else _] => destruct c end; cbn [fst snd].
  - apply StrFacts.take_drop.
  - apply StrFacts.append_nil_r.
Qed.

(** The name with the suffix is the old name with "_final" put between
    what [splitext] takes for the root and for the extension. *)
Lemma final_name_spec (cur : string) :
  exists base ext,
    OsPath.splitext cur = (base, ext) /\ cur = base ++ ext
    /\ final_name cur = base ++ "_final" ++ ext.
Proof.
  exists (fst (OsPath.splitext cur)), (snd (OsPath.splitext cur)).
  split; [now destruct (OsPath.splitext cur) |].
  split; [symmetry; apply splitext_join | reflexivity].
Qed.

(** A saved scene whose name ends in "_final.hip", in any case of the
    letters, is returned as it is and nothing is written. *)
Lemma save_as_final_kept (w : world) :
  unsaved (hip_path w) = false ->
  (exists q s, hip_path w = q ++ s /\ Str.lower s = "_final.hip") ->
  _save_as_final w = (Ok (Some (hip_path w)), w).
Proof.
  intros U (q & s & E & L). rewrite save_as_final_run, U.
  assert (A : already_final (hip_path w) = true).
  { unfold already_final. apply StrFacts.endswith_spec. exists (Str.lower q).
    rewrite E, <- L. clear. induction q as [|c q IH]; cbn; [reflexivity | now rewrite IH]. }
  now rewrite A.
Qed.

End WithFloat.

(** C2 as stated fails on a scene: the texture of [geo1] is a URL, which
    starts neither with "/" nor with a drive prefix, and the scan
    reports it. *)
Lemma C2_counterexample :
  claimed_flagged "http://example.com/tex.png" = false
  /\ fst (_has_absolute_paths (Sample.studio "/proj/shot.hip" (Some Sample.persp) None))
     = Ok ["/obj/geo1 : file = http://example.com/tex.png"].
Proof. split; reflexivity. Qed.

(** C2 on that scene: one line, reported as it is. *)
Lemma C2_witness :
  let w := Sample.studio "/proj/shot.hip" (Some Sample.persp) None in
  List.length (all_entries w) <= 50
  /\ _has_absolute_paths w = (Ok ["/obj/geo1 : file = http://example.com/tex.png"], w).
Proof.
  cbv zeta.
  assert (H : List.length
                (all_entries (Sample.studio "/proj/shot.hip" (Some Sample.persp) None)) <= 50)
    by (vm_compute; lia).
  split; [exact H |].
  exact (proj1 (proj2 (C2_absolute_path_scan
                         (Sample.studio "/proj/shot.hip" (Some Sample.persp) None))) H).
Defined.

(** Sixty flagged values: the report is 51 lines and the marker. *)
Example crowded_report :
  List.length (all_entries Sample.crowded) = 60
  /\ fst (_has_absolute_paths Sample.crowded)
     = Ok (repeat "/obj/many : file = /textures/wood.png" 51 ++ [truncated])%list.
Proof. split; vm_compute; reflexivity. Qed.

(** C3 at a scene saved as "shot_final.hipnc": the name ends in "_final"
    before its extension, and save-as-final writes the scene again as
    "shot_final_final.hipnc". *)
Theorem C3_final_suffix_twice :
  let w := Sample.studio "/proj/shot_final.hipnc" (Some Sample.persp) None in
  OsPath.splitext (hip_path w) = ("/proj/shot_final", ".hipnc")
  /\ fst (_save_as_final w) = Ok (Some "/proj/shot_final_final.hipnc")
  /\ log (snd (_save_as_final w)) = [EvSave "/proj/shot_final_final.hipnc"]
  /\ hip_path (snd (_save_as_final w)) = "/proj/shot_final_final.hipnc".
Proof. cbv zeta. repeat split. Qed.

End PathClaims.

(** ** The finalization checklist: the finalize action *)

Module FinalizeClaims.

Import Host Json Checklist Effects HandlerEffects PersistFacts ShotFacts FinalizeFacts
  ScanFacts.

Section WithFloat.

Context `{FM : FloatModel}.

(** The prompt on unchecked items, and the host once it was shown. *)
Definition ask_unchecked : event := EvMessage unchecked_prompt ["Go Back"; "Proceed"].

Definition asked (w : world) : world := set_log w (log w ++ [ask_unchecked])%list.

(** Events other than that prompt. *)
Definition not_unchecked_prompt (ev : event) : Prop :=
  match ev with
  | EvMessage text _ => text <> unchecked_prompt
  | _ => True
  end.

Lemma paths_prompt_other (bad : list string) : paths_prompt bad <> unchecked_prompt.
Proof. unfold paths_prompt, unchecked_prompt. cbn. discriminate. Qed.

Lemma finalize_save_quiet (d : dialog) : emits not_unchecked_prompt any (finalize_save d).
Proof.
  unfold finalize_save.
  eapply emits_bind; [apply save_state_emits; intros; exact I | intros _ _].
  eapply emits_bind.
  - unfold _save_as_final. repeat emits_step; try exact I. cbn. discriminate.
  - intros fp _. eapply emits_bind with (Q := any); [| intros; now apply emits_ret].
    destruct fp as [fp|]; [| now apply emits_ret].
    destruct (String.eqb fp EmptyString); [now apply emits_ret |].
    eapply emits_bind; [apply screenshot_viewport_emits; intros; exact I | intros shot _].
    apply notify_emits; exact I.
Qed.

Lemma finalize_paths_quiet (d : dialog) : emits not_unchecked_prompt any (finalize_paths d).
Proof.
  unfold finalize_paths.
  eapply emits_bind; [apply has_absolute_paths_emits | intros bad _].
  destruct bad as [|b bad]; [apply finalize_save_quiet |].
  eapply emits_bind; [apply emits_displayMessage; apply paths_prompt_other | intros ans _].
  destruct (Z.eqb ans 0); [now apply emits_ret | apply finalize_save_quiet].
Qed.

Lemma final_name_nonempty (cur : string) : String.eqb (final_name cur) EmptyString = false.
Proof. unfold final_name. destruct (fst (OsPath.splitext cur)); reflexivity. Qed.

(** The scene that save-as-final leaves current. *)
Definition final_path (cur : string) : string :=
  if already_final cur then cur else final_name cur.

Lemma screenshot_viewport_returns (w : world) (sfx : string) :
  exists shot w',
    _screenshot_viewport sfx w = (Ok shot, w')
    /\ hip_path w' = hip_path w
    /\ exists evs, log w' = (log w ++ evs)%list /\ Forall not_modal evs.
Proof.
  destruct (scene_viewer w) as [sv|] eqn:E.
  - rewrite (screenshot_viewport_run _ _ _ E).
    destruct (flipbook_outcome sv); eexists; eexists;
      (split; [reflexivity |]); (split; [apply hip_path_after_shot | apply log_after_shot]).
  - rewrite (screenshot_viewport_none _ _ E). exists None, w.
    repeat split. exists []. now rewrite app_nil_r.
Qed.

(** From [self._persist_now()] on, finalize runs to its end: the dialog
    is accepted with its rows as they were, and a saved scene is current
    under its final name. *)
Lemma finalize_save_done (d : dialog) (w : world) :
  exists d' w',
    finalize_save d w = (Ok d', w')
    /\ closed d' = Some true
    /\ checks d' = checks d
    /\ (unsaved (hip_path w) = false -> hip_path w' = final_path (hip_path w)).
Proof.
  rewrite finalize_save_run, save_as_final_run, hip_path_persisted. unfold final_path.
  destruct (unsaved (hip_path w)) eqn:U.
  - eexists; eexists. repeat split. discriminate.
  - assert (Ne : String.eqb (hip_path w) EmptyString = false).
    { unfold unsaved in U. now apply orb_false_iff in U. }
    destruct (already_final (hip_path w)).
    + rewrite Ne.
      destruct (screenshot_viewport_returns (persisted w d) "final")
        as (shot & w3 & -> & Hp & _).
      eexists; eexists. repeat split.
      intros _. now rewrite hip_path_notified, Hp, hip_path_persisted.
    + rewrite final_name_nonempty.
      match goal with |- context [_screenshot_viewport "final" ?w2] =>
        destruct (screenshot_viewport_returns w2 "final") as (shot & w3 & -> & Hp & _)
      end.
      eexists; eexists. repeat split.
      intros _. now rewrite hip_path_notified, Hp.
Qed.

Lemma finalize_paths_proceeds (d : dialog) (w : world) :
  (forall text, answer w text <> 0%Z) ->
  exists w2,
    finalize_paths d w = finalize_save d w2 /\ hip_path w2 = hip_path w.
Proof.
  intros A. unfold finalize_paths. unfold bind at 1. rewrite has_absolute_paths_run.
  destruct (flow_result (capped (all_entries w))) as [|b bad]; [now exists w |].
  unfold bind, displayMessage.
  destruct (Z.eqb_spec (answer w (paths_prompt (b :: bad))) 0) as [E|_];
    [now elim (A _ E) |].
  eexists. split; reflexivity.
Qed.

(** C6.  With a row unchecked, finalize first shows the warning prompt:
    "Go Back" ends it there with the dialog as it was, any other answer
    continues with the path check, whichever rows are unchecked.  With
    every row checked that prompt is not shown, at once or later.  And a
    user who answers "Proceed" to what is asked gets to the end of
    finalize whatever the rows: the dialog is accepted and a saved scene
    is current under its final name. *)
Theorem C6_finalize_prompt (d : dialog) (w : world) :
  (_all_checked d = false ->
   _on_finalize d w
   = if Z.eqb (answer w unchecked_prompt) 0 then (Ok d, asked w)
     else finalize_paths d (asked w))
  /\ (_all_checked d = true ->
      _on_finalize d w = finalize_paths d w
      /\ exists evs,
           log (snd (_on_finalize d w)) = (log w ++ evs)%list
           /\ Forall not_unchecked_prompt evs)
  /\ ((forall text, answer w text <> 0%Z) ->
      exists d' w',
        _on_finalize d w = (Ok d', w')
        /\ closed d' = Some true
        /\ checks d' = checks d
        /\ (unsaved (hip_path w) = false -> hip_path w' = final_path (hip_path w))).
Proof.
  split; [| split].
  - intros H. unfold _on_finalize. rewrite H. cbn [negb].
    unfold bind, displayMessage, asked, ask_unchecked.
    destruct (Z.eqb (answer w unchecked_prompt) 0); reflexivity.
  - intros H. unfold _on_finalize. rewrite H. cbn [negb].
    split; [reflexivity |].
    destruct (finalize_paths_quiet d w) as (evs & E & F & _). now exists evs.
  - intros A.
    assert (P : exists w1, _on_finalize d w = finalize_paths d w1
                           /\ hip_path w1 = hip_path w /\ answer w1 = answer w).
    { unfold _on_finalize. destruct (negb (_all_checked d)); [| now exists w].
      unfold bind, displayMessage.
      destruct (Z.eqb_spec (answer w unchecked_prompt) 0) as [E|_]; [now elim (A _ E) |].
      eexists. repeat split. }
    destruct P as (w1 & -> & H1 & A1).
    destruct (finalize_paths_proceeds d w1) as (w2 & -> & H2);
      [intros text; rewrite A1; apply A |].
    destruct (finalize_save_done d w2) as (d' & w' & E & C & K & Hp).
    exists d', w'. rewrite H2, H1 in Hp. repeat split; assumption.
Qed.

End WithFloat.

(** C6 on a scene, no row checked, the user pressing "Proceed": the
    prompt comes first and finalize runs to its end. *)
Lemma C6_witness :
  let w := Sample.studio "/proj/shot.hip" (Some Sample.persp) None in
  _all_checked fresh = false
  /\ (forall text, answer w text <> 0%Z)
  /\ exists d' w',
       _on_finalize fresh w = (Ok d', w')
       /\ closed d' = Some true
       /\ checks d' = checks fresh
       /\ (unsaved (hip_path w) = false -> hip_path w' = final_path (hip_path w)).
Proof.
  cbv zeta.
  assert (A : forall text,
             answer (Sample.studio "/proj/shot.hip" (Some Sample.persp) None) text <> 0%Z)
    by (intros text; discriminate).
  split; [reflexivity |]. split; [exact A |].
  exact (proj2 (proj2 (C6_finalize_prompt fresh
                         (Sample.studio "/proj/shot.hip" (Some Sample.persp) None))) A).
Defined.

End FinalizeClaims.

(** ** The viewport screenshot step by step *)

Module ScreenshotFacts.

Import Host Screenshot.

Section WithFloat.

Context `{FM : FloatModel}.

(** The host once the user has picked and typed. *)
Definition picked (w : world) : world :=
  set_log w (log w ++ [EvSelect options; EvReadInput "Custom Resolution"])%list.

(** What the try block makes of the two texts. *)
Definition parsed (width height : string) : res (Z * Z) :=
  match Dec.py_int (Str.strip width), Dec.py_int (Str.strip height) with
  | Some a, Some b =>
      if (a <=? 0)%Z || (b <=? 0)%Z then Raise (HouError invalid_custom) else Ok (a, b)
  | _, _ => Raise (HouError invalid_custom)
  end.

Lemma custom_resolution_run (w : world) (width height : string) :
  typed w = (0%Z, (width, height)) ->
  custom_resolution w
  = (parsed width height,
     set_log w (log w ++ [EvReadInput "Custom Resolution"])%list).
Proof.
  intros T. unfold custom_resolution, bind, readMultiInput. rewrite T. cbn [Z.eqb negb].
  unfold except_ValueError, bind, int_, parsed. cbn [fst snd].
  destruct (Dec.py_int (Str.strip width)) as [a|]; [| reflexivity].
  cbn. destruct (Dec.py_int (Str.strip height)) as [b|]; [| reflexivity].
  cbn. destruct ((a <=? 0)%Z || (b <=? 0)%Z); reflexivity.
Qed.

Lemma pick_resolution_custom (w : world) (rest : list nat) (width height : string) :
  selected w = 3 :: rest ->
  typed w = (0%Z, (width, height)) ->
  pick_resolution w = (parsed width height, picked w).
Proof.
  intros S T. unfold pick_resolution, bind, selectFromList. rewrite S.
  cbn [nth_error options String.eqb Ascii.eqb Bool.eqb].
  rewrite (custom_resolution_run _ width height) by exact T.
  unfold picked. cbn [log set_log]. now rewrite <- app_assoc.
Qed.

(** The file that the script writes. *)
Definition save_dir (hip : string) : string := hip ++ "/screenshots".

Definition doc_name (w : world) : string :=
  OsPath.basename
    (fst (OsPath.splitext
            (if String.eqb (hip_path w) EmptyString then "untitled.hip" else hip_path w))).

Definition file_path (w : world) (hip : string) : string :=
  OsPath.join (save_dir hip) (doc_name w ++ "_" ++ stamp w ++ ".jpg").

Definition settings (w : world) (hip : string) (resolution : Z * Z) : flipbook_settings :=
  {| fb_frame_range := (frame w, frame w);
     fb_output := file_path w hip;
     fb_use_resolution := true;
     fb_resolution := resolution;
     fb_crop_out_mask_overlay := None |}.

(** The events of [shoot] when there is a viewer and [$HIP] expands. *)
Definition shoot_events (w : world) (sv : viewer) (hip : string) (resolution : Z * Z)
  : list event :=
  ((if existsb (String.eqb (save_dir hip)) (dirs w)
       || existsb (String.eqb (save_dir hip)) (files w)
    then [] else [EvMakedirs (save_dir hip)])
   ++ match flipbook_outcome sv with
      | Ok _ =>
          [EvFlipbook (settings w hip resolution);
           EvMessage (saved_message (file_path w hip) resolution) ["OK"]]
      | Raise e => [EvFlipbookFailed (settings w hip resolution) e]
      end)%list.

Lemma expand_save_dir (w : world) (hip : string) :
  hip_var w = Ok hip -> expandString "$HIP/screenshots" w = (Ok (save_dir hip), w).
Proof.
  intros H. unfold expandString, save_dir.
  change (Str.startswith "$HIP/screenshots" "$HIP") with true.
  change (Str.drop 4 "$HIP/screenshots") with "/screenshots".
  cbv iota. now rewrite H.
Qed.

Lemma shoot_run (w : world) (sv : viewer) (hip : string) (resolution : Z * Z) :
  scene_viewer w = Some sv ->
  hip_var w = Ok hip ->
  exists w',
    shoot resolution w
    = (match flipbook_outcome sv with
       | Ok _ => Ok tt
       | Raise e => Raise e
       end, w')
    /\ log w' = (log w ++ shoot_events w sv hip resolution)%list.
Proof.
  intros V H. unfold shoot, shoot_events, settings, file_path, doc_name.
  unfold bind at 1. unfold gets at 1. rewrite V.
  unfold bind at 1. rewrite (expand_save_dir _ _ H).
  unfold bind at 1. unfold exists_, gets at 1.
  destruct (existsb (String.eqb (save_dir hip)) (dirs w)
            || existsb (String.eqb (save_dir hip)) (files w)).
  - unfold bind, gets, ret, flipbook, displayMessage. cbn [fst snd].
    destruct (flipbook_outcome sv); eexists; (split; [reflexivity |]);
      cbn [fst snd log set_log app]; rewrite <- ?app_assoc; reflexivity.
  - unfold bind, gets, ret, makedirs, flipbook, displayMessage. cbn [fst snd].
    destruct (flipbook_outcome sv); eexists; (split; [reflexivity |]);
      cbn [fst snd log set_log set_dirs app hip_path stamp frame];
      rewrite <- ?app_assoc; reflexivity.
Qed.

Lemma shoot_no_viewer (w : world) (resolution : Z * Z) :
  scene_viewer w = None ->
  shoot resolution w = (Raise (HouError "No Scene Viewer found."), w).
Proof. intros V. unfold shoot, bind, gets. now rewrite V. Qed.

End WithFloat.

End ScreenshotFacts.

(** ** The screenshots: the custom resolution and the file names *)

Module ScreenshotClaims.

Import Host Checklist Screenshot ShotFacts ScreenshotFacts.

Section WithFloat.

Context `{FM : FloatModel}.

(** A text that [int] reads as a positive number. *)
Definition positive_int (s : string) (z : Z) : Prop :=
  Dec.py_int (Str.strip s) = Some z /\ (0 < z)%Z.

(** A text that is no integer, or not a positive one. *)
Definition rejected (s : string) : Prop :=
  Dec.py_int (Str.strip s) = None
  \/ exists z, Dec.py_int (Str.strip s) = Some z /\ (z <= 0)%Z.

Lemma parsed_rejected (width height : string) :
  rejected width \/ rejected height ->
  parsed width height = Raise (HouError invalid_custom).
Proof.
  unfold parsed, rejected.
  intros [[H | (z & H & L)] | [H | (z & H & L)]]; rewrite H.
  - reflexivity.
  - destruct (Dec.py_int (Str.strip height)); [| reflexivity].
    now replace (z <=? 0)%Z with true by (symmetry; now apply Z.leb_le).
  - now destruct (Dec.py_int (Str.strip width)).
  - destruct (Dec.py_int (Str.strip width)); [| reflexivity].
    replace (z <=? 0)%Z with true by (symmetry; now apply Z.leb_le).
    now rewrite orb_true_r.
Qed.

Lemma parsed_positive (width height : string) (a b : Z) :
  positive_int width a -> positive_int height b -> parsed width height = Ok (a, b).
Proof.
  unfold parsed. intros [-> La] [-> Lb].
  replace (a <=? 0)%Z with false by (symmetry; apply Z.leb_gt; lia).
  now replace (b <=? 0)%Z with false by (symmetry; apply Z.leb_gt; lia).
Qed.

(** C4.  The user picks "Custom..." and confirms a width and a height.
    If either text is no integer or not a positive one, the script ends
    with the error "Invalid custom resolution. Use positive integers."
    right after the two prompts: no directory is made and nothing is
    captured.  If both are positive integers the script goes on with that
    resolution, and with a viewer that captures, where [$HIP] expands, the
    flipbook is taken at that resolution. *)
Theorem C4_custom_resolution (w : world) (rest : list nat) (width height : string) :
  selected w = 3 :: rest ->
  typed w = (0%Z, (width, height)) ->
  (rejected width \/ rejected height ->
   main w = (Raise (HouError invalid_custom), picked w))
  /\ (forall a b,
        positive_int width a -> positive_int height b ->
        main w = shoot (a, b) (picked w)
        /\ forall sv hip,
             scene_viewer w = Some sv -> hip_var w = Ok hip ->
             flipbook_outcome sv = Ok tt ->
             fst (main w) = Ok tt
             /\ In (EvFlipbook (settings w hip (a, b))) (log (snd (main w)))).
Proof.
  intros S T. split.
  - intros R. unfold main, bind.
    now rewrite (pick_resolution_custom _ _ _ _ S T), (parsed_rejected _ _ R).
  - intros a b Pa Pb.
    assert (M : main w = shoot (a, b) (picked w)).
    { unfold main, bind.
      now rewrite (pick_resolution_custom _ _ _ _ S T), (parsed_positive _ _ _ _ Pa Pb). }
    split; [exact M |].
    intros sv hip V H F. rewrite M.
    destruct (shoot_run (picked w) sv hip (a, b) V H) as (w' & R & L).
    rewrite R. cbn [fst snd]. rewrite L, F. split; [reflexivity |].
    apply in_or_app. right. unfold shoot_events. rewrite F.
    apply in_or_app. right. left. reflexivity.
Qed.

(** The file name in the words of the specification. *)
Definition spec_file_name (doc view frame timestamp : string) (suffix : option string)
  : string :=
  doc ++ "_" ++ view ++ "_" ++ frame ++ "_" ++ timestamp
  ++ match suffix with
     | Some s => "_" ++ s
     | None => EmptyString
     end ++ ".jpg".

Definition suffix_of (custom_suffix : string) : option string :=
  if String.eqb custom_suffix EmptyString then None else Some custom_suffix.

Lemma shot_name_spec (w : world) (custom_suffix : string) :
  shot_name w custom_suffix ++ ".jpg"
  = spec_file_name (ShotFacts.doc_name w) (view_label w) (frame_str w) (stamp w)
      (suffix_of custom_suffix).
Proof.
  unfold shot_name, spec_file_name, suffix_of.
  destruct (String.eqb custom_suffix EmptyString); now rewrite !StrFacts.append_assoc.
Qed.

(** C5, as the code has it.  The checklist writes a screenshot to the
    directory "screenshots" of [$HIP], or of the directory of the scene
    where [$HIP] does not expand, under the name
    {doc}_{view}_{frame}_{timestamp}[_{suffix}].jpg, and returns that
    path.  The screenshot utility writes to [$HIP/screenshots] under the
    name {doc}_{timestamp}.jpg: the view and the frame are not part of
    it. *)
Theorem C5_screenshot_paths (w : world) (sv : viewer) :
  scene_viewer w = Some sv ->
  (forall custom_suffix,
      let p :=
        OsPath.join (OsPath.join (hip_dir w) "screenshots")
          (spec_file_name (ShotFacts.doc_name w) (view_label w) (frame_str w) (stamp w)
             (suffix_of custom_suffix)) in
      (forall q, fst (_screenshot_viewport custom_suffix w) = Ok (Some q) -> q = p)
      /\ exists evs,
           log (snd (_screenshot_viewport custom_suffix w)) = (log w ++ evs)%list
           /\ forall s, In (EvFlipbook s) evs -> fb_output s = p)
  /\ (forall hip resolution,
        hip_var w = Ok hip ->
        exists evs,
          log (snd (shoot resolution w)) = (log w ++ evs)%list
          /\ forall s,
               In (EvFlipbook s) evs ->
               fb_output s
               = OsPath.join (hip ++ "/screenshots")
                   (ScreenshotFacts.doc_name w ++ "_" ++ stamp w ++ ".jpg")).
Proof.
  intros V. split.
  - intros sfx p.
    assert (P : shot_path w sfx = p).
    { unfold shot_path, p, screens_dir. now rewrite shot_name_spec. }
    rewrite (screenshot_viewport_run _ _ _ V). cbn [fst snd]. split.
    + intros q. destruct (flipbook_outcome sv); [| discriminate].
      intros [= <-]. exact P.
    + unfold after_shot, with_screens_dir.
      destruct (existsb (String.eqb (screens_dir w)) (dirs w)); cbn [log set_log].
      * eexists. split; [reflexivity |].
        intros s [H | []]. destruct (flipbook_outcome sv); [| discriminate].
        injection H as <-. exact P.
      * rewrite <- app_assoc. eexists. split; [reflexivity |].
        intros s [H | [H | []]]; [discriminate |].
        destruct (flipbook_outcome sv); [| discriminate].
        injection H as <-. exact P.
  - intros hip resolution H.
    destruct (shoot_run w sv hip resolution V H) as (w' & R & L).
    exists (shoot_events w sv hip resolution). rewrite R. split; [exact L |].
    intros s Hs. unfold shoot_events in Hs. apply in_app_or in Hs.
    destruct Hs as [Hs | Hs].
    + destruct (existsb _ _ || existsb _ _); [contradiction |].
      destruct Hs as [Hs | []]. discriminate.
    + destruct (flipbook_outcome sv).
      * destruct Hs as [Hs | [Hs | []]]; [| discriminate].
        injection Hs as <-. reflexivity.
      * destruct Hs as [Hs | []]. discriminate.
Qed.

End WithFloat.

(** C4 on a scene: "0" for the width is turned down before anything is
    captured, "1920" by "1080" is captured at that size. *)
Lemma C4_witness :
  let bad := Sample.typing "0" "1080" in
  let good := Sample.typing " 1920" "1080" in
  selected bad = [3]
  /\ typed bad = (0%Z, ("0", "1080"))
  /\ rejected "0"
  /\ main bad = (Raise (HouError invalid_custom), picked bad)
  /\ positive_int " 1920" 1920 /\ positive_int "1080" 1080
  /\ fst (main good) = Ok tt
  /\ In (EvFlipbook (settings good "/proj" (1920, 1080)%Z)) (log (snd (main good))).
Proof.
  cbv zeta.
  assert (R : rejected "0") by (right; exists 0%Z; split; [reflexivity | lia]).
  assert (Pa : positive_int " 1920" 1920) by (split; [reflexivity | lia]).
  assert (Pb : positive_int "1080" 1080) by (split; [reflexivity | lia]).
  split; [reflexivity |]. split; [reflexivity |]. split; [exact R |].
  split.
  - exact (proj1 (C4_custom_resolution (Sample.typing "0" "1080") [] "0" "1080"
                    eq_refl eq_refl) (or_introl R)).
  - split; [exact Pa |]. split; [exact Pb |].
    exact (proj2 (proj2 (C4_custom_resolution (Sample.typing " 1920" "1080") []
                           " 1920" "1080" eq_refl eq_refl) 1920%Z 1080%Z Pa Pb)
             Sample.persp "/proj" eq_refl eq_refl eq_refl).
Defined.

(** C5 as stated fails on the screenshot utility: on a scene "shot.hip"
    it writes "shot_20261104_101500.jpg", which is of the form
    {doc}_{view}_{frame}_{timestamp}[_{suffix}].jpg for no view, frame and
    suffix. *)
Lemma C5_counterexample :
  existsb (fun ev => match ev with
                     | EvFlipbook s =>
                         String.eqb (fb_output s) "/proj/screenshots/shot_20261104_101500.jpg"
                     | _ => false
                     end)
    (log (snd (main (Sample.typing "1920" "1080")))) = true
  /\ forall view frame suffix,
       "/proj/screenshots/shot_20261104_101500.jpg"
       <> OsPath.join "/proj/screenshots"
            (spec_file_name "shot" view frame "20261104_101500" suffix).
Proof.
  split; [vm_compute; reflexivity |].
  intros view frame suffix H.
  assert (J : forall x, OsPath.join "/proj/screenshots" (String "s" x)
                        = "/proj/screenshots/" ++ String "s" x)
    by (intros x; reflexivity).
  unfold spec_file_name in H. cbn [append] in H. rewrite J in H.
  apply (f_equal String.length) in H.
  destruct suffix;
    repeat (first [ rewrite StrFacts.length_append in H
                  | progress cbn [String.length append] in H ]);
    lia.
Qed.

(** C5 on a scene: the checkpoint screenshot of the checklist. *)
Lemma C5_witness :
  let w := Sample.studio "/proj/shot.hip" (Some Sample.persp) None in
  scene_viewer w = Some Sample.persp
  /\ forall q,
       fst (_screenshot_viewport "checkpoint" w) = Ok (Some q) ->
       q = "/proj/screenshots/shot_cam1_f0024_20261104_101500_checkpoint.jpg".
Proof.
  cbv zeta. split; [reflexivity |].
  exact (proj1 (proj1 (C5_screenshot_paths
                         (Sample.studio "/proj/shot.hip" (Some Sample.persp) None)
                         Sample.persp eq_refl) "checkpoint")).
Defined.

End ScreenshotClaims.

(** ** The host apart from the stored state and the log *)

Module HostFacts.

Import Host Json Checklist PersistFacts FinalizeFacts.

Section WithFloat.

Context `{FM : FloatModel}.

Definition bare (r : root) : root :=
  {| user_data := []; sub_children := sub_children r |}.

(** The host with the user data and the log wiped. *)
Definition erase (w : world) : world :=
  set_log (set_nodes w (map (fun kr => (fst kr, bare (snd kr))) (nodes w))) [].

Lemma erase_store (k : string) (r r' : root) (l : list (string * root)) :
  lookup k l = Some r ->
  sub_children r' = sub_children r ->
  map (fun kr => (fst kr, bare (snd kr))) (store k r' l)
  = map (fun kr => (fst kr, bare (snd kr))) l.
Proof.
  intros H S. induction l as [|[k' v] l IH]; [discriminate |].
  cbn [lookup] in H. cbn [store].
  destruct (String.eqb k' k) eqn:E.
  - injection H as ->. apply String.eqb_eq in E. subst k'.
    cbn [map fst snd]. unfold bare. now rewrite S.
  - cbn [map]. now rewrite (IH H).
Qed.

Lemma erase_saved_world (w : world) (r : root) (text : string) :
  lookup "/obj" (nodes w) = Some r -> erase (saved_world w r text) = erase w.
Proof.
  intros H. unfold erase, saved_world. cbn.
  now rewrite (erase_store _ r _ _ H) by reflexivity.
Qed.

(** [_persist_now] changes the stored state and the log, nothing else. *)
Lemma erase_persisted (w : world) (d : dialog) : erase (persisted w d) = erase w.
Proof.
  unfold persisted. destruct (lookup "/obj" (nodes w)) as [r|] eqn:E; [| reflexivity].
  now apply erase_saved_world.
Qed.

Lemma erase_set_log (w : world) (l : list event) : erase (set_log w l) = erase w.
Proof. reflexivity. Qed.

Lemma erase_notified (w : world) (msg : string) : erase (notified w msg) = erase w.
Proof. unfold notified. now destruct (status_bar w). Qed.

Lemma lookup_erase (k : string) (l : list (string * root)) :
  lookup k (map (fun kr => (fst kr, bare (snd kr))) l) = option_map bare (lookup k l).
Proof.
  induction l as [|[k' v] l IH]; [reflexivity |].
  cbn. destruct (String.eqb k' k); [reflexivity | exact IH].
Qed.

(** What two hosts share when they differ in stored state and log only. *)
Lemma erase_fields (w w' : world) :
  erase w' = erase w ->
  clock w' = clock w /\ hip_path w' = hip_path w /\ hip_var w' = hip_var w
  /\ scene_viewer w' = scene_viewer w /\ status_bar w' = status_bar w
  /\ dirs w' = dirs w /\ frame w' = frame w /\ stamp w' = stamp w
  /\ answer w' = answer w
  /\ (lookup "/obj" (nodes w') = None <-> lookup "/obj" (nodes w) = None).
Proof.
  intros E.
  pose proof (f_equal clock E) as E1. pose proof (f_equal hip_path E) as E2.
  pose proof (f_equal hip_var E) as E3. pose proof (f_equal scene_viewer E) as E4.
  pose proof (f_equal status_bar E) as E5. pose proof (f_equal dirs E) as E6.
  pose proof (f_equal frame E) as E7. pose proof (f_equal stamp E) as E8.
  pose proof (f_equal answer E) as E9.
  pose proof (f_equal (fun x => lookup "/obj" (nodes x)) E) as E10.
  cbn in E1, E2, E3, E4, E5, E6, E7, E8, E9, E10.
  repeat split; try assumption.
  - intros H. rewrite !lookup_erase, H in E10.
    destruct (lookup "/obj" (nodes w)); [discriminate | reflexivity].
  - intros H. rewrite !lookup_erase, H in E10.
    destruct (lookup "/obj" (nodes w')); [discriminate | reflexivity].
Qed.

(** The state node is there after as it was before. *)
Lemma node_kept (w w' : world) :
  erase w' = erase w -> lookup "/obj" (nodes w) <> None -> lookup "/obj" (nodes w') <> None.
Proof.
  intros E N H. apply N.
  now apply (proj2 (proj2 (proj2 (proj2 (proj2 (proj2 (proj2 (proj2 (proj2
               (erase_fields _ _ E)))))))))).
Qed.

(** With a state node, [_persist_now] stores the rows that are checked. *)
Lemma stored_persisted (w : world) (d : dialog) :
  lookup "/obj" (nodes w) <> None ->
  stored (persisted w d)
  = Some (dumps (state_dict (_collect_checked_indices d) (clock w))).
Proof.
  intros H. unfold persisted.
  destruct (lookup "/obj" (nodes w)) as [r|]; [| now elim H].
  apply stored_saved_world.
Qed.

Lemma stored_set_log (w : world) (l : list event) : stored (set_log w l) = stored w.
Proof. reflexivity. Qed.

Lemma stored_notified (w : world) (msg : string) : stored (notified w msg) = stored w.
Proof. unfold notified. now destruct (status_bar w). Qed.

End WithFloat.

End HostFacts.

(** ** The finalization checklist: checking and clearing rows *)

Module RowFacts.

Import Host Json Checklist PersistFacts DialogFacts FinalizeFacts HostFacts.

Section WithFloat.

Context `{FM : FloatModel}.

(** The rows after [setCheckState]. *)
Definition set_check (d : dialog) (i : nat) (b : bool) : dialog :=
  if Bool.eqb (is_checked d i) b then d else with_checks d (set_nth i b (checks d)).

(** The host after [setCheckState]: the connected slot stores the new rows
    when the value has changed. *)
Definition after_set (w : world) (d : dialog) (i : nat) (b : bool) : world :=
  if Bool.eqb (is_checked d i) b then w
  else if connected d then persisted w (set_check d i b) else w.

Lemma setCheckState_run (d : dialog) (i : nat) (b : bool) (w : world) :
  setCheckState d i b w = (Ok (set_check d i b), after_set w d i b).
Proof.
  unfold setCheckState, after_set, set_check.
  destruct (Bool.eqb (is_checked d i) b); [reflexivity |].
  destruct (connected d); [| reflexivity].
  unfold bind. now rewrite persist_now_run.
Qed.

Lemma count_set_check (d : dialog) (i : nat) (b : bool) : count (set_check d i b) = count d.
Proof.
  unfold set_check. destruct (Bool.eqb _ _); [reflexivity |].
  unfold count. cbn. apply length_set_nth.
Qed.

Lemma connected_set_check (d : dialog) (i : nat) (b : bool) :
  connected (set_check d i b) = connected d.
Proof. unfold set_check. now destruct (Bool.eqb _ _). Qed.

Lemma status_set_check (d : dialog) (i : nat) (b : bool) :
  status (set_check d i b) = status d.
Proof. unfold set_check. now destruct (Bool.eqb _ _). Qed.

Lemma closed_set_check (d : dialog) (i : nat) (b : bool) :
  closed (set_check d i b) = closed d.
Proof. unfold set_check. now destruct (Bool.eqb _ _). Qed.

(** Row [i] takes the value when there is a row [i]; the others keep theirs. *)
Lemma checked_set_check (d : dialog) (i j : nat) (b : bool) :
  is_checked (set_check d i b) j
  = if (j =? i)%nat && (i <? count d)%nat then b else is_checked d j.
Proof.
  unfold set_check.
  destruct (Bool.eqb (is_checked d i) b) eqn:E.
  - apply Bool.eqb_prop in E.
    destruct (Nat.eqb_spec j i) as [->|_]; [| reflexivity].
    destruct (i <? count d)%nat; [exact E | reflexivity].
  - unfold is_checked, count. cbn [checks with_checks].
    rewrite nth_set_nth. reflexivity.
Qed.

Lemma erase_after_set (w : world) (d : dialog) (i : nat) (b : bool) :
  erase (after_set w d i b) = erase w.
Proof.
  unfold after_set. destruct (Bool.eqb _ _); [reflexivity |].
  destruct (connected d); [apply erase_persisted | reflexivity].
Qed.

(** The loop of [_check_all] and [_clear_all] over the rows [l]. *)
Fixpoint set_rows (b : bool) (l : list nat) (d : dialog) (w : world) : dialog * world :=
  match l with
  | [] => (d, w)
  | i :: r => set_rows b r (set_check d i b) (after_set w d i b)
  end.

Lemma set_rows_run (b : bool) (l : list nat) (d : dialog) (w : world) :
  for_each l (fun d i => setCheckState d i b) d w
  = (Ok (fst (set_rows b l d w)), snd (set_rows b l d w)).
Proof.
  revert d w. induction l as [|i l IH]; intros d w; [reflexivity |].
  cbn [for_each set_rows]. unfold bind. rewrite setCheckState_run. apply IH.
Qed.

Lemma erase_set_rows (b : bool) (l : list nat) (d : dialog) (w : world) :
  erase (snd (set_rows b l d w)) = erase w.
Proof.
  revert d w. induction l as [|i l IH]; intros d w; [reflexivity |].
  cbn [set_rows]. now rewrite IH, erase_after_set.
Qed.

Lemma count_set_rows (b : bool) (l : list nat) (d : dialog) (w : world) :
  count (fst (set_rows b l d w)) = count d.
Proof.
  revert d w. induction l as [|i l IH]; intros d w; [reflexivity |].
  cbn [set_rows]. now rewrite IH, count_set_check.
Qed.

Lemma connected_set_rows (b : bool) (l : list nat) (d : dialog) (w : world) :
  connected (fst (set_rows b l d w)) = connected d.
Proof.
  revert d w. induction l as [|i l IH]; intros d w; [reflexivity |].
  cbn [set_rows]. now rewrite IH, connected_set_check.
Qed.

Lemma closed_set_rows (b : bool) (l : list nat) (d : dialog) (w : world) :
  closed (fst (set_rows b l d w)) = closed d.
Proof.
  revert d w. induction l as [|i l IH]; intros d w; [reflexivity |].
  cbn [set_rows]. now rewrite IH, closed_set_check.
Qed.

Lemma checked_set_rows (b : bool) (l : list nat) (d : dialog) (w : world) (j : nat) :
  is_checked (fst (set_rows b l d w)) j
  = if existsb (Nat.eqb j) l && (j <? count d)%nat then b else is_checked d j.
Proof.
  revert d w. induction l as [|i l IH]; intros d w; [reflexivity |].
  cbn [set_rows existsb]. rewrite IH, count_set_check, checked_set_check.
  destruct (Nat.eqb_spec j i) as [->|_]; cbn [orb andb].
  - destruct (i <? count d)%nat; [| now rewrite andb_false_r].
    now destruct (existsb (Nat.eqb i) l).
  - reflexivity.
Qed.

(** The rows once the loop has gone over all of them. *)
Lemma checked_all_rows (b : bool) (d : dialog) (w : world) (j : nat) :
  is_checked (fst (set_rows b (rows d) d w)) j = b && (j <? count d)%nat.
Proof.
  rewrite checked_set_rows. unfold rows. rewrite existsb_seq, andb_diag.
  destruct (Nat.ltb_spec j (count d)) as [L|L].
  - now rewrite andb_true_r.
  - rewrite andb_false_r. unfold is_checked. apply nth_overflow. exact L.
Qed.

Lemma filter_seq_all (f : nat -> bool) (a n : nat) :
  (forall i, a <= i < a + n -> f i = true) -> filter f (seq a n) = seq a n.
Proof.
  revert a. induction n as [|n IH]; intros a H; [reflexivity |].
  cbn [seq filter]. rewrite (H a) by lia. f_equal. apply IH. intros i Hi. apply H. lia.
Qed.

Lemma filter_seq_none (f : nat -> bool) (a n : nat) :
  (forall i, a <= i < a + n -> f i = false) -> filter f (seq a n) = [].
Proof.
  revert a. induction n as [|n IH]; intros a H; [reflexivity |].
  cbn [seq filter]. rewrite (H a) by lia. apply IH. intros i Hi. apply H. lia.
Qed.

(** The indices that are stored after the loop: all of them, or none. *)
Lemma collect_all_rows (b : bool) (d : dialog) (w : world) :
  _collect_checked_indices (fst (set_rows b (rows d) d w))
  = if b then map Z.of_nat (seq 0 (count d)) else [].
Proof.
  pose proof (count_set_rows b (rows d) d w) as C.
  pose proof (checked_all_rows b d w) as K.
  set (d' := fst (set_rows b (rows d) d w)) in *. clearbody d'.
  unfold _collect_checked_indices, rows. rewrite C.
  destruct b.
  - rewrite filter_seq_all; [reflexivity |].
    intros i Hi. rewrite K. apply Nat.ltb_lt. lia.
  - rewrite filter_seq_none; [reflexivity |].
    intros i Hi. now rewrite K.
Qed.

(** [_check_all] and [_clear_all], step by step. *)
Definition set_all (b : bool) (msg : string) (d : dialog) : M dialog :=
  (d <- for_each (rows d) (fun d i => setCheckState d i b) d ;;
   _persist_now d ;;;
   _notify d msg)%host.

Lemma set_all_run (b : bool) (msg : string) (d : dialog) (w : world) :
  exists d' w',
    set_all b msg d w = (Ok d', w')
    /\ count d' = count d
    /\ (forall i, is_checked d' i = b && (i <? count d)%nat)
    /\ status d' = msg
    /\ closed d' = closed d
    /\ connected d' = connected d
    /\ erase w' = erase w
    /\ (lookup "/obj" (nodes w) <> None ->
        stored w'
        = Some (dumps (state_dict (if b then map Z.of_nat (seq 0 (count d)) else [])
                         (clock w)))).
Proof.
  unfold set_all. unfold bind at 1. rewrite set_rows_run.
  unfold bind. rewrite persist_now_run, notify_run.
  pose proof (erase_set_rows b (rows d) d w) as E.
  destruct (erase_fields _ _ E) as (Ec & _ & _ & _ & _ & _ & _ & _ & _ & En).
  eexists; eexists. split; [reflexivity |].
  split; [apply count_set_rows |].
  split; [intros i; apply checked_all_rows |].
  split; [reflexivity |].
  split; [apply closed_set_rows |].
  split; [apply connected_set_rows |].
  split; [now rewrite erase_notified, erase_persisted |].
  intros H. rewrite stored_notified, stored_persisted.
  - now rewrite collect_all_rows, Ec.
  - intros N. apply H. now apply En.
Qed.

End WithFloat.

End RowFacts.

(** ** The finalization checklist: the buttons and the check boxes *)

Module RowProps.

Import Host Json Checklist PersistFacts DialogFacts FinalizeFacts HostFacts RowFacts.

Section WithFloat.

Context `{FM : FloatModel}.

(** X1.  "Check All" returns with every row of the list checked and the
    status line "All items checked."; the dialog stays open.  On a scene
    that has the state node, the state that is stored when it returns
    lists every index from 0 up to the number of rows, with the time of
    the call; the scene file, its path and the directories are as they
    were. *)
Theorem check_all_checks_every_row (d : dialog) (w : world) :
  exists d' w',
    _check_all d w = (Ok d', w')
    /\ count d' = count d
    /\ (forall i, i < count d -> is_checked d' i = true)
    /\ _all_checked d' = true
    /\ status d' = "All items checked."
    /\ closed d' = closed d
    /\ hip_path w' = hip_path w
    /\ dirs w' = dirs w
    /\ (lookup "/obj" (nodes w) <> None ->
        stored w'
        = Some (dumps (state_dict (map Z.of_nat (seq 0 (count d))) (clock w)))).
Proof.
  destruct (set_all_run true "All items checked." d w)
    as (d' & w' & R & C & K & S & Cl & _ & E & St).
  destruct (erase_fields _ _ E) as (_ & Hp & _ & _ & _ & Hd & _).
  exists d', w'. split; [exact R |]. split; [exact C |].
  assert (A : forall i, i < count d -> is_checked d' i = true).
  { intros i Hi. rewrite K. now apply Nat.ltb_lt. }
  split; [exact A |]. split.
  { unfold _all_checked, rows. apply forallb_forall. intros i Hi.
    apply in_seq in Hi. apply A. lia. }
  repeat (split; [assumption |]). exact St.
Qed.

(** X2.  "Clear" returns with no row checked and the status line "All
    items cleared."; the dialog stays open.  On a scene that has the state
    node, the state that is stored when it returns has an empty list of
    indices. *)
Theorem clear_all_unchecks_every_row (d : dialog) (w : world) :
  exists d' w',
    _clear_all d w = (Ok d', w')
    /\ count d' = count d
    /\ (forall i, is_checked d' i = false)
    /\ _collect_checked_indices d' = []
    /\ status d' = "All items cleared."
    /\ closed d' = closed d
    /\ hip_path w' = hip_path w
    /\ dirs w' = dirs w
    /\ (lookup "/obj" (nodes w) <> None ->
        stored w' = Some (dumps (state_dict [] (clock w)))).
Proof.
  destruct (set_all_run false "All items cleared." d w)
    as (d' & w' & R & C & K & S & Cl & _ & E & St).
  destruct (erase_fields _ _ E) as (_ & Hp & _ & _ & _ & Hd & _).
  exists d', w'. split; [exact R |]. split; [exact C |].
  split; [exact K |]. split.
  { unfold _collect_checked_indices, rows. rewrite filter_seq_none; [reflexivity |].
    intros i _. apply K. }
  repeat (split; [assumption |]). exact St.
Qed.

Lemma set_nth_back {A : Type} (i : nat) (x y : A) (l : list A) :
  set_nth i (nth i l y) (set_nth i x l) = l.
Proof.
  revert i. induction l as [|z l IH]; intros i; [now destruct i |].
  destruct i; cbn; [reflexivity | now rewrite IH].
Qed.

Lemma click_run (d : dialog) (i : nat) (w : world) :
  i < count d ->
  handle d (Click i) w
  = (Ok (with_checks d (set_nth i (negb (is_checked d i)) (checks d))),
     if connected d
     then persisted w (with_checks d (set_nth i (negb (is_checked d i)) (checks d)))
     else w).
Proof.
  intros L. cbn [handle]. apply Nat.ltb_lt in L. rewrite L.
  rewrite setCheckState_run. unfold set_check, after_set, set_check.
  now rewrite eqb_negb2.
Qed.

(** X3.  A click on the check box of a row of the open dialog flips that
    row and no other, and the slot that [__init__] connected stores the
    new set of checked rows at once: on a scene that has the state node
    the stored state lists the rows that are checked after the click. *)
Theorem click_is_stored_at_once (d : dialog) (i : nat) (w : world) :
  i < count d ->
  connected d = true ->
  lookup "/obj" (nodes w) <> None ->
  exists d' w',
    handle d (Click i) w = (Ok d', w')
    /\ count d' = count d
    /\ (forall j, is_checked d' j
                  = if (j =? i)%nat then negb (is_checked d i) else is_checked d j)
    /\ stored w'
       = Some (dumps (state_dict (_collect_checked_indices d') (clock w)))
    /\ log w'
       = (log w
          ++ [EvSetUserData "/obj" STATE_KEY
                (dumps (state_dict (_collect_checked_indices d') (clock w)))])%list.
Proof.
  intros L C N. rewrite (click_run _ _ _ L), C.
  eexists; eexists. split; [reflexivity |].
  split; [unfold count; cbn; apply length_set_nth |].
  split.
  - intros j. unfold is_checked at 1. cbn [checks with_checks].
    rewrite nth_set_nth. apply Nat.ltb_lt in L. unfold count in L. rewrite L.
    now rewrite andb_true_r.
  - split; [now apply stored_persisted |].
    unfold persisted. destruct (lookup "/obj" (nodes w)); [reflexivity | now elim N].
Qed.

(** X4.  Two clicks on the same check box leave the rows as they were,
    and the stored state lists the rows that were checked before the
    first click. *)
Theorem click_twice_restores (d : dialog) (i : nat) (w : world) :
  i < count d ->
  connected d = true ->
  lookup "/obj" (nodes w) <> None ->
  exists d1 w1 w2,
    handle d (Click i) w = (Ok d1, w1)
    /\ handle d1 (Click i) w1 = (Ok d, w2)
    /\ stored w2 = Some (dumps (state_dict (_collect_checked_indices d) (clock w))).
Proof.
  intros L C N. rewrite (click_run _ _ _ L), C.
  set (d1 := with_checks d (set_nth i (negb (is_checked d i)) (checks d))).
  assert (L1 : i < count d1) by (unfold count, d1; cbn; now rewrite length_set_nth).
  assert (K : is_checked d1 i = negb (is_checked d i)).
  { unfold is_checked at 1, d1. cbn [checks with_checks]. rewrite nth_set_nth.
    apply Nat.ltb_lt in L. unfold count in L. now rewrite L, Nat.eqb_refl. }
  assert (B : with_checks d1 (set_nth i (negb (is_checked d1 i)) (checks d1)) = d).
  { rewrite K, negb_involutive. unfold d1, is_checked. cbn [checks with_checks].
    rewrite set_nth_back. now destruct d. }
  exists d1, (persisted w d1). eexists. split; [reflexivity |].
  rewrite (click_run _ _ _ L1), B. split; [reflexivity |].
  replace (connected d1) with true by (symmetry; exact C).
  destruct (erase_fields _ _ (erase_persisted w d1)) as (Ec & _ & _ & _ & _ & _ & _ & _ & _ & En).
  rewrite stored_persisted; [now rewrite Ec |].
  intros H. apply N. now apply En.
Qed.

End WithFloat.

(** Check All on a dialog of three rows. *)
Lemma check_all_witness :
  let w := Sample.studio "/proj/shot.hip" (Some Sample.persp) None in
  let d := {| checks := [false; true; false]; status := EmptyString;
              connected := true; closed := None |} in
  lookup "/obj" (nodes w) <> None
  /\ exists d' w',
       _check_all d w = (Ok d', w')
       /\ stored w' = Some (dumps (state_dict [0; 1; 2]%Z (clock w))).
Proof.
  cbv zeta. split; [discriminate |].
  destruct (check_all_checks_every_row
              {| checks := [false; true; false]; status := EmptyString;
                 connected := true; closed := None |}
              (Sample.studio "/proj/shot.hip" (Some Sample.persp) None))
    as (d' & w' & R & _ & _ & _ & _ & _ & _ & _ & S).
  exists d', w'. split; [exact R |]. apply S. discriminate.
Defined.

(** Clear on a dialog of three rows. *)
Lemma clear_all_witness :
  let w := Sample.studio "/proj/shot.hip" (Some Sample.persp) None in
  let d := {| checks := [false; true; false]; status := EmptyString;
              connected := true; closed := None |} in
  lookup "/obj" (nodes w) <> None
  /\ exists d' w',
       _clear_all d w = (Ok d', w')
       /\ stored w' = Some (dumps (state_dict [] (clock w))).
Proof.
  cbv zeta. split; [discriminate |].
  destruct (clear_all_unchecks_every_row
              {| checks := [false; true; false]; status := EmptyString;
                 connected := true; closed := None |}
              (Sample.studio "/proj/shot.hip" (Some Sample.persp) None))
    as (d' & w' & R & _ & _ & _ & _ & _ & _ & _ & S).
  exists d', w'. split; [exact R |]. apply S. discriminate.
Defined.

(** A click on the first of three rows. *)
Lemma click_witness :
  let w := Sample.studio "/proj/shot.hip" (Some Sample.persp) None in
  let d := {| checks := [false; true; false]; status := EmptyString;
              connected := true; closed := None |} in
  exists d' w',
    handle d (Click 0) w = (Ok d', w')
    /\ stored w' = Some (dumps (state_dict (_collect_checked_indices d') (clock w))).
Proof.
  cbv zeta.
  destruct (click_is_stored_at_once
              {| checks := [false; true; false]; status := EmptyString;
                 connected := true; closed := None |} 0
              (Sample.studio "/proj/shot.hip" (Some Sample.persp) None))
    as (d' & w' & R & _ & _ & S & _).
  - cbn. lia.
  - reflexivity.
  - discriminate.
  - exists d', w'. split; [exact R | exact S].
Defined.

(** Two clicks on the second of three rows. *)
Lemma click_twice_witness :
  let w := Sample.studio "/proj/shot.hip" (Some Sample.persp) None in
  let d := {| checks := [false; true; false]; status := EmptyString;
              connected := true; closed := None |} in
  exists d1 w1 w2,
    handle d (Click 1) w = (Ok d1, w1)
    /\ handle d1 (Click 1) w1 = (Ok d, w2)
    /\ stored w2 = Some (dumps (state_dict [1]%Z (clock w))).
Proof.
  cbv zeta.
  apply (click_twice_restores
           {| checks := [false; true; false]; status := EmptyString;
              connected := true; closed := None |} 1
           (Sample.studio "/proj/shot.hip" (Some Sample.persp) None)).
  - cbn. lia.
  - reflexivity.
  - discriminate.
Defined.

End RowProps.

(** ** The finalization checklist: how often the state is written *)

Module WriteProps.

Import Host Json Checklist PersistFacts DialogFacts FinalizeFacts HostFacts RowFacts.

Section WithFloat.

Context `{FM : FloatModel}.

Definition is_write (ev : event) : bool :=
  match ev with
  | EvSetUserData _ _ _ => true
  | _ => false
  end.

(** The number of calls of [setUserData] among the events. *)
Definition writes (evs : list event) : nat := List.length (filter is_write evs).

Lemma writes_app (a b : list event) : writes (a ++ b) = writes a + writes b.
Proof. unfold writes. now rewrite filter_app, length_app. Qed.

Lemma log_persisted (w : world) (d : dialog) :
  lookup "/obj" (nodes w) <> None ->
  exists ev, log (persisted w d) = (log w ++ [ev])%list /\ is_write ev = true.
Proof.
  intros N. unfold persisted.
  destruct (lookup "/obj" (nodes w)); [| now elim N].
  eexists. split; reflexivity.
Qed.

(** The rows of [l] whose value is not [b]. *)
Definition changes (b : bool) (l : list nat) (d : dialog) : nat :=
  List.length (filter (fun i => negb (Bool.eqb (is_checked d i) b)) l).

Lemma changes_set_check (b : bool) (l : list nat) (d : dialog) (i : nat) :
  ~ In i l -> changes b l (set_check d i b) = changes b l d.
Proof.
  intros H. unfold changes. f_equal. apply filter_ext_in.
  intros j Hj. rewrite checked_set_check.
  destruct (Nat.eqb_spec j i) as [->|_]; [now elim H | reflexivity].
Qed.

(** The loop writes the state once for each row that it changes. *)
Lemma set_rows_writes (b : bool) (l : list nat) (d : dialog) (w : world) :
  NoDup l ->
  connected d = true ->
  lookup "/obj" (nodes w) <> None ->
  exists evs,
    log (snd (set_rows b l d w)) = (log w ++ evs)%list
    /\ writes evs = changes b l d.
Proof.
  revert d w. induction l as [|i l IH]; intros d w D C N.
  - exists []. split; [now rewrite app_nil_r | reflexivity].
  - inversion D as [|? ? Hi D']. subst. cbn [set_rows].
    destruct (IH (set_check d i b) (after_set w d i b) D')
      as (evs & E & W).
    + now rewrite connected_set_check.
    + exact (node_kept _ _ (erase_after_set w d i b) N).
    + rewrite (changes_set_check _ _ _ _ Hi) in W. rewrite E.
      unfold after_set, changes. cbn [filter].
      destruct (Bool.eqb (is_checked d i) b); cbn [negb].
      * exists evs. split; [reflexivity | exact W].
      * rewrite C. destruct (log_persisted w (set_check d i b) N) as (ev & -> & Hw).
        exists (ev :: evs). split; [now rewrite <- app_assoc |].
        unfold writes. cbn [filter]. rewrite Hw. cbn [List.length]. f_equal. exact W.
Qed.

Lemma set_all_writes (b : bool) (msg : string) (d : dialog) (w : world) :
  connected d = true ->
  lookup "/obj" (nodes w) <> None ->
  exists evs,
    log (snd (set_all b msg d w)) = (log w ++ evs)%list
    /\ writes evs = S (changes b (rows d) d).
Proof.
  intros C N. unfold set_all. unfold bind at 1. rewrite set_rows_run.
  unfold bind. rewrite persist_now_run, notify_run. cbn [snd].
  destruct (set_rows_writes b (rows d) d w (seq_NoDup _ _) C N) as (evs & E & W).
  pose proof (node_kept _ _ (erase_set_rows b (rows d) d w) N) as N'.
  destruct (log_persisted _ (fst (set_rows b (rows d) d w)) N') as (ev & P & Hw).
  unfold notified.
  destruct (status_bar _); cbn [log set_log]; rewrite P, E, <- !app_assoc;
    eexists; (split; [reflexivity |]); rewrite !writes_app, W;
    unfold writes at 1; cbn [filter app]; rewrite Hw; cbn; lia.
Qed.

(** X5.  On a scene that has the state node, "Check All" in the open
    dialog calls [setUserData] once for each row that was unchecked and
    once more at its end, and "Clear" once for each row that was checked
    and once more at its end: the slot runs for every row whose value
    changes, and for no row whose value stays. *)
Theorem check_all_writes_once_per_change (d : dialog) (w : world) :
  connected d = true ->
  lookup "/obj" (nodes w) <> None ->
  (exists evs,
     log (snd (_check_all d w)) = (log w ++ evs)%list
     /\ writes evs = S (List.length (filter (fun i => negb (is_checked d i)) (rows d))))
  /\ (exists evs,
        log (snd (_clear_all d w)) = (log w ++ evs)%list
        /\ writes evs = S (List.length (filter (is_checked d) (rows d)))).
Proof.
  intros C N. split.
  - destruct (set_all_writes true "All items checked." d w C N) as (evs & E & W).
    exists evs. split; [exact E |]. rewrite W. unfold changes. do 2 f_equal.
    apply filter_ext. intros i. now destruct (is_checked d i).
  - destruct (set_all_writes false "All items cleared." d w C N) as (evs & E & W).
    exists evs. split; [exact E |]. rewrite W. unfold changes. do 2 f_equal.
    apply filter_ext. intros i. now destruct (is_checked d i).
Qed.

End WithFloat.

(** Check All with two of three rows unchecked: three writes. *)
Lemma check_all_writes_witness :
  let w := Sample.studio "/proj/shot.hip" (Some Sample.persp) None in
  let d := {| checks := [false; true; false]; status := EmptyString;
              connected := true; closed := None |} in
  exists evs,
    log (snd (_check_all d w)) = (log w ++ evs)%list /\ writes evs = 3.
Proof.
  cbv zeta.
  apply (check_all_writes_once_per_change
           {| checks := [false; true; false]; status := EmptyString;
              connected := true; closed := None |}
           (Sample.studio "/proj/shot.hip" (Some Sample.persp) None)).
  - reflexivity.
  - discriminate.
Defined.

End WriteProps.

(** ** The finalization checklist: the steps of finalize *)

Module FinalizeProps.

Import Host Json Checklist PersistFacts DialogFacts ShotFacts FinalizeFacts ScanFacts
  HostFacts.

Section WithFloat.

Context `{FM : FloatModel}.

(** A prompt, or a write of the state. *)
Definition prompt_or_write (ev : event) : Prop :=
  match ev with
  | EvMessage _ _ | EvSetUserData _ _ _ => True
  | _ => False
  end.

Definition ask_paths (bad : list string) : event :=
  EvMessage (paths_prompt bad) ["Fix First"; "Proceed"].

(** The report of the path scan. *)
Definition report (w : world) : list string := flow_result (capped (all_entries w)).

Lemma report_nil (w : world) : report w = [] <-> all_entries w = [].
Proof.
  unfold report, capped.
  destruct (List.length (all_entries w) <=? 50)%nat eqn:E; cbn [flow_result].
  - reflexivity.
  - apply Nat.leb_gt in E. split.
    + intros H. apply (f_equal (@List.length string)) in H.
      rewrite length_app in H. cbn in H. lia.
    + intros H. rewrite H in E. cbn in E. lia.
Qed.

(** The path step of finalize. *)
Lemma finalize_paths_run (d : dialog) (w : world) :
  finalize_paths d w
  = match report w with
    | [] => finalize_save d w
    | _ :: _ =>
        if Z.eqb (answer w (paths_prompt (report w))) 0
        then (Ok d, set_log w (log w ++ [ask_paths (report w)])%list)
        else finalize_save d (set_log w (log w ++ [ask_paths (report w)])%list)
    end.
Proof.
  unfold finalize_paths. unfold bind at 1. rewrite has_absolute_paths_run.
  fold (report w). destruct (report w) as [|b bad]; [reflexivity |].
  unfold bind, displayMessage.
  destruct (Z.eqb (answer w (paths_prompt (b :: bad))) 0); reflexivity.
Qed.

(** X6.  The path step of finalize.  When the scan flags no value, no
    prompt is shown and finalize goes on.  When it flags one, the prompt
    with the buttons "Fix First" and "Proceed" is shown: on "Fix First"
    finalize ends there with the dialog open as it was, and nothing is
    stored, saved or captured; on any other answer finalize goes on. *)
Theorem fix_first_stops_finalize (d : dialog) (w : world) :
  (all_entries w = [] -> finalize_paths d w = finalize_save d w)
  /\ (all_entries w <> [] ->
      answer w (paths_prompt (report w)) = 0%Z ->
      finalize_paths d w = (Ok d, set_log w (log w ++ [ask_paths (report w)])%list))
  /\ (all_entries w <> [] ->
      answer w (paths_prompt (report w)) <> 0%Z ->
      finalize_paths d w
      = finalize_save d (set_log w (log w ++ [ask_paths (report w)])%list)).
Proof.
  rewrite finalize_paths_run. split; [| split].
  - intros H. apply report_nil in H. now rewrite H.
  - intros H A. rewrite A. cbn [Z.eqb].
    destruct (report w) eqn:R; [| reflexivity].
    apply report_nil in R. now elim H.
  - intros H A. apply Z.eqb_neq in A. rewrite A.
    destruct (report w) eqn:R; [| reflexivity].
    apply report_nil in R. now elim H.
Qed.

Lemma str_of_N_52 : Dec.str_of_N 52 = "52".
Proof. reflexivity. Qed.

(** X7.  When the scan flags more than 50 values, its report holds the
    first 51 lines and the marker, 52 elements, and the prompt of
    finalize counts the marker as a path: it starts with "Found 52
    absolute paths!", however many values are flagged. *)
Theorem path_prompt_counts_marker (w : world) :
  50 < List.length (all_entries w) ->
  _has_absolute_paths w = (Ok (report w), w)
  /\ report w = (firstn 51 (all_entries w) ++ [truncated])%list
  /\ List.length (report w) = 52
  /\ exists rest, paths_prompt (report w) = "Found 52 absolute paths!" ++ rest.
Proof.
  intros H. split; [apply has_absolute_paths_run |].
  assert (R : report w = (firstn 51 (all_entries w) ++ [truncated])%list).
  { unfold report, capped.
    now replace (List.length (all_entries w) <=? 50)%nat with false
      by (symmetry; apply Nat.leb_gt; lia). }
  assert (L : List.length (report w) = 52).
  { rewrite R, length_app, length_firstn. cbn [List.length]. lia. }
  split; [exact R |]. split; [exact L |].
  unfold paths_prompt. rewrite L. change (N.of_nat 52) with 52%N. rewrite str_of_N_52.
  eexists. cbn [append]. reflexivity.
Qed.

Lemma log_persisted_writes (w : world) (d : dialog) :
  exists evs, log (persisted w d) = (log w ++ evs)%list /\ Forall prompt_or_write evs.
Proof.
  unfold persisted. destruct (lookup "/obj" (nodes w)).
  - eexists. split; [reflexivity | repeat constructor].
  - exists []. split; [now rewrite app_nil_r | constructor].
Qed.

(** With "Proceed" for an answer, finalize gets to the storing of the
    state on a host that differs by the prompts in the log. *)
Lemma on_finalize_proceeds (d : dialog) (w : world) :
  (forall text, answer w text <> 0%Z) ->
  exists w2 msgs,
    _on_finalize d w = finalize_save d w2
    /\ erase w2 = erase w
    /\ nodes w2 = nodes w
    /\ log w2 = (log w ++ msgs)%list
    /\ Forall prompt_or_write msgs.
Proof.
  intros A.
  assert (P : forall w1 msgs,
             erase w1 = erase w -> nodes w1 = nodes w -> answer w1 = answer w ->
             log w1 = (log w ++ msgs)%list -> Forall prompt_or_write msgs ->
             exists w2 msgs,
               finalize_paths d w1 = finalize_save d w2
               /\ erase w2 = erase w /\ nodes w2 = nodes w
               /\ log w2 = (log w ++ msgs)%list /\ Forall prompt_or_write msgs).
  { intros w1 msgs E N An L F. rewrite finalize_paths_run.
    destruct (report w1) as [|b bad].
    - exists w1, msgs. repeat split; assumption.
    - rewrite An. destruct (Z.eqb_spec (answer w (paths_prompt (b :: bad))) 0) as [Z|_];
        [now elim (A _ Z) |].
      eexists. exists (msgs ++ [ask_paths (b :: bad)])%list.
      split; [reflexivity |]. split; [exact E |]. split; [exact N |].
      split; [cbn [log set_log]; now rewrite L, app_assoc |].
      apply Forall_app. split; [exact F | repeat constructor]. }
  unfold _on_finalize. destruct (negb (_all_checked d)).
  - unfold bind, displayMessage.
    destruct (Z.eqb_spec (answer w unchecked_prompt) 0) as [Z|_]; [now elim (A _ Z) |].
    apply (P _ [EvMessage unchecked_prompt ["Go Back"; "Proceed"]]);
      try reflexivity. repeat constructor.
  - apply (P w []); try reflexivity; [now rewrite app_nil_r | constructor].
Qed.

(** X8.  Finalize on a scene that was never saved, its path empty or
    "untitled.hip", with "Proceed" for an answer to what is asked: the
    message "Save your scene first." is the last thing that happens, and
    the dialog is closed as accepted all the same.  Before it there are
    prompts and the write of the state only: no scene is saved, no
    directory is made, no screenshot is taken, and the status line is as
    it was. *)
Theorem finalize_unsaved_scene (d : dialog) (w : world) :
  hip_path w = EmptyString \/ hip_path w = "untitled.hip" ->
  (forall text, answer w text <> 0%Z) ->
  exists w' evs,
    _on_finalize d w = (Ok (with_closed d (Some true)), w')
    /\ log w' = (log w ++ evs ++ [save_first])%list
    /\ Forall prompt_or_write evs
    /\ hip_path w' = hip_path w
    /\ dirs w' = dirs w.
Proof.
  intros U A.
  destruct (on_finalize_proceeds d w A) as (w2 & msgs & -> & E & _ & L & F).
  destruct (erase_fields _ _ E) as (_ & Hp & _ & _ & _ & Hd & _).
  destruct (erase_fields _ _ (erase_persisted w2 d)) as (_ & Hp' & _ & _ & _ & Hd' & _).
  rewrite finalize_save_run, save_as_final_run.
  assert (U' : unsaved (hip_path (persisted w2 d)) = true).
  { rewrite Hp', Hp. unfold unsaved. destruct U as [-> | ->]; reflexivity. }
  rewrite U'.
  destruct (log_persisted_writes w2 d) as (ws & Lp & Fw).
  eexists. exists (msgs ++ ws)%list. split; [reflexivity |].
  cbn [log set_log hip_path dirs].
  split; [now rewrite Lp, L, <- !app_assoc |].
  split; [apply Forall_app; now split |].
  split; congruence.
Qed.

Lemma lower_append (a b : string) : Str.lower (a ++ b) = Str.lower a ++ Str.lower b.
Proof. induction a as [|c a IH]; cbn; [reflexivity | now rewrite IH]. Qed.

Lemma final_name_is_final (cur : string) :
  Str.lower (snd (OsPath.splitext cur)) = ".hip" -> already_final (final_name cur) = true.
Proof.
  intros H. unfold already_final, final_name.
  apply StrFacts.endswith_spec. exists (Str.lower (fst (OsPath.splitext cur))).
  now rewrite !lower_append, H.
Qed.

Lemma final_name_saved (cur : string) :
  Str.lower (snd (OsPath.splitext cur)) = ".hip" -> unsaved (final_name cur) = false.
Proof.
  intros H. apply final_name_is_final in H. unfold unsaved.
  apply orb_false_iff. split.
  - unfold final_name. destruct (fst (OsPath.splitext cur)); reflexivity.
  - destruct (String.eqb_spec (final_name cur) "untitled.hip") as [E|_]; [| reflexivity].
    rewrite E in H. discriminate H.
Qed.

(** X9.  On a saved scene whose extension is ".hip", in any letter case,
    save-as-final leaves a scene current on which a second save-as-final
    saves nothing and returns the same path: the suffix is never added
    twice. *)
Theorem save_as_final_idempotent (w : world) :
  hip_path w <> EmptyString ->
  hip_path w <> "untitled.hip" ->
  Str.lower (snd (OsPath.splitext (hip_path w))) = ".hip" ->
  exists fp w1,
    _save_as_final w = (Ok (Some fp), w1)
    /\ hip_path w1 = fp
    /\ Str.endswith (Str.lower fp) "_final.hip" = true
    /\ _save_as_final w1 = (Ok (Some fp), w1).
Proof.
  intros N1 N2 X.
  assert (U : unsaved (hip_path w) = false).
  { unfold unsaved. apply orb_false_iff. split; now apply String.eqb_neq. }
  rewrite save_as_final_run, U.
  destruct (already_final (hip_path w)) eqn:F.
  - exists (hip_path w), w. repeat split; [exact F |].
    now rewrite save_as_final_run, U, F.
  - eexists; eexists. split; [reflexivity |]. split; [reflexivity |].
    split; [exact (final_name_is_final _ X) |].
    rewrite save_as_final_run. cbn [hip_path set_log set_hip_path].
    now rewrite (final_name_saved _ X), (final_name_is_final _ X).
Qed.

End WithFloat.

(** The scan flags the first parameter of the sample scene: "Fix First"
    ends finalize. *)
Lemma fix_first_witness :
  let w0 := Sample.studio "/proj/shot.hip" (Some Sample.persp) None in
  let w := {| nodes := nodes w0; hip_path := hip_path w0; hip_var := hip_var w0;
              cwd := cwd w0; scene_viewer := scene_viewer w0; frame := frame w0;
              clock := clock w0; stamp := stamp w0; dirs := dirs w0; files := files w0;
              answer := fun _ => 0%Z; selected := selected w0; typed := typed w0;
              status_bar := status_bar w0; log := log w0 |} in
  all_entries w <> []
  /\ forall d, finalize_paths d w
               = (Ok d, set_log w (log w ++ [ask_paths (report w)])%list).
Proof.
  cbv zeta. split; [discriminate |]. intros d.
  refine (proj1 (proj2 (fix_first_stops_finalize d _)) _ _); [discriminate | reflexivity].
Defined.

(** Sixty flagged values: the prompt says 52. *)
Lemma path_prompt_witness :
  50 < List.length (all_entries Sample.crowded)
  /\ exists rest,
       paths_prompt (report Sample.crowded) = "Found 52 absolute paths!" ++ rest.
Proof.
  assert (H : 50 < List.length (all_entries Sample.crowded)).
  { apply Nat.ltb_lt. vm_compute. reflexivity. }
  split; [exact H |].
  exact (proj2 (proj2 (proj2 (path_prompt_counts_marker Sample.crowded H)))).
Defined.

(** Finalize on a new scene. *)
Lemma finalize_unsaved_witness :
  let w := Sample.studio "untitled.hip" (Some Sample.persp) None in
  let d := {| checks := [true; true]; status := EmptyString;
              connected := true; closed := None |} in
  exists w' evs,
    _on_finalize d w = (Ok (with_closed d (Some true)), w')
    /\ log w' = (log w ++ evs ++ [save_first])%list
    /\ Forall prompt_or_write evs
    /\ hip_path w' = hip_path w
    /\ dirs w' = dirs w.
Proof.
  cbv zeta.
  apply (finalize_unsaved_scene
           {| checks := [true; true]; status := EmptyString;
              connected := true; closed := None |}
           (Sample.studio "untitled.hip" (Some Sample.persp) None)).
  - right. reflexivity.
  - intros text. discriminate.
Defined.

(** Save-as-final twice on "/proj/shot.HIP". *)
Lemma save_as_final_twice_witness :
  let w := Sample.studio "/proj/shot.HIP" (Some Sample.persp) None in
  exists w1,
    _save_as_final w = (Ok (Some "/proj/shot_final.HIP"), w1)
    /\ _save_as_final w1 = (Ok (Some "/proj/shot_final.HIP"), w1).
Proof.
  cbv zeta.
  destruct (save_as_final_idempotent (Sample.studio "/proj/shot.HIP" (Some Sample.persp) None))
    as (fp & w1 & R & _ & _ & R2); [discriminate | discriminate | reflexivity |].
  exists w1.
  assert (E : fp = "/proj/shot_final.HIP").
  { assert (K : fst (_save_as_final (Sample.studio "/proj/shot.HIP" (Some Sample.persp) None))
                = Ok (Some "/proj/shot_final.HIP")) by (vm_compute; reflexivity).
    rewrite R in K. cbn [fst] in K. congruence. }
  rewrite <- E. split; [exact R | exact R2].
Defined.

End FinalizeProps.

(** ** The finalization checklist: screenshots *)

Module ShotProps.

Import Host Json Checklist PersistFacts DialogFacts ShotFacts FinalizeFacts HostFacts.

Section WithFloat.

Context `{FM : FloatModel}.

Lemma nonempty_length (s : string) : 0 < String.length s -> String.eqb s EmptyString = false.
Proof. destruct s; cbn; [lia | reflexivity]. Qed.

Lemma join_nonempty (a b : string) :
  0 < String.length b -> String.eqb (OsPath.join a b) EmptyString = false.
Proof.
  intros H. apply nonempty_length. unfold OsPath.join.
  destruct (Str.startswith b "/"); [exact H |].
  destruct (String.eqb a EmptyString || Str.endswith a "/");
    rewrite ?StrFacts.length_append; lia.
Qed.

Lemma shot_path_nonempty (w : world) (sfx : string) :
  String.eqb (shot_path w sfx) EmptyString = false.
Proof.
  unfold shot_path. apply join_nonempty. rewrite StrFacts.length_append. cbn. lia.
Qed.

Lemma screens_dir_kept (w : world) : screens_dir (with_screens_dir w) = screens_dir w.
Proof.
  unfold with_screens_dir. destruct (existsb _ _); reflexivity.
Qed.

Lemma screens_dir_there (w : world) :
  existsb (String.eqb (screens_dir w)) (dirs (with_screens_dir w)) = true.
Proof.
  unfold with_screens_dir.
  destruct (existsb (String.eqb (screens_dir w)) (dirs w)) eqn:E; [exact E |].
  cbn [dirs set_dirs set_log existsb]. now rewrite String.eqb_refl.
Qed.

Lemma log_persisted_any (w : world) (d : dialog) :
  exists evs, log (persisted w d) = (log w ++ evs)%list.
Proof.
  unfold persisted. destruct (lookup "/obj" (nodes w)).
  - eexists. reflexivity.
  - exists []. now rewrite app_nil_r.
Qed.

Lemma log_notified_any (w : world) (msg : string) :
  exists evs, log (notified w msg) = (log w ++ evs)%list.
Proof.
  unfold notified. destruct (status_bar w).
  - eexists. reflexivity.
  - exists []. now rewrite app_nil_r.
Qed.

Lemma log_after_shot_ok (w : world) (sv : viewer) (sfx : string) :
  flipbook_outcome sv = Ok tt ->
  exists made,
    log (after_shot w sv sfx) = (log w ++ made ++ [EvFlipbook (shot_settings w sfx)])%list.
Proof.
  intros F. unfold after_shot, with_screens_dir. rewrite F.
  destruct (existsb (String.eqb (screens_dir w)) (dirs w)); cbn [log set_log set_dirs].
  - exists []. reflexivity.
  - eexists. now rewrite <- app_assoc.
Qed.

(** X10.  [_screens_dir] returns the directory "screenshots" below the
    directory of the scene; the directory exists when it returns, it is
    made only if it was missing, and a second call makes nothing. *)
Theorem screens_dir_made_once (w : world) :
  exists w1,
    _screens_dir w = (Ok (OsPath.join (hip_dir w) "screenshots"), w1)
    /\ existsb (String.eqb (OsPath.join (hip_dir w) "screenshots")) (dirs w1) = true
    /\ (existsb (String.eqb (OsPath.join (hip_dir w) "screenshots")) (dirs w) = true ->
        w1 = w)
    /\ (existsb (String.eqb (OsPath.join (hip_dir w) "screenshots")) (dirs w) = false ->
        log w1 = (log w ++ [EvMakedirs (OsPath.join (hip_dir w) "screenshots")])%list)
    /\ _screens_dir w1 = (Ok (OsPath.join (hip_dir w) "screenshots"), w1).
Proof.
  fold (screens_dir w). exists (with_screens_dir w).
  split; [apply screens_dir_run |].
  split; [apply screens_dir_there |].
  split; [| split].
  - intros E. unfold with_screens_dir. now rewrite E.
  - intros E. unfold with_screens_dir. now rewrite E.
  - rewrite screens_dir_run, screens_dir_kept. f_equal.
    unfold with_screens_dir at 1. rewrite screens_dir_kept.
    now rewrite screens_dir_there.
Qed.

(** X11.  Without a Scene Viewer [_screenshot_viewport] returns [None]
    and leaves the host as it is: no directory is made.  The screenshot
    action then sets the status line to the failure text, passes it to
    the status bar when that takes it, and does nothing else. *)
Theorem screenshot_without_viewer (d : dialog) (w : world) :
  scene_viewer w = None ->
  (forall sfx, _screenshot_viewport sfx w = (Ok None, w))
  /\ exists w',
       _on_screenshot d w
       = (Ok (with_status d "Screenshot failed (no Scene Viewer or flipbook error)."), w')
       /\ log w'
          = (log w ++ match status_bar w with
                      | Ok _ => [EvStatusBar
                                   "Screenshot failed (no Scene Viewer or flipbook error)."]
                      | Raise _ => []
                      end)%list
       /\ dirs w' = dirs w
       /\ nodes w' = nodes w.
Proof.
  intros H. split; [intros sfx; now apply screenshot_viewport_none |].
  unfold _on_screenshot, bind. rewrite (screenshot_viewport_none _ _ H), notify_run.
  eexists. split; [reflexivity |]. unfold notified.
  destruct (status_bar w); cbn; repeat split. now rewrite app_nil_r.
Qed.

(** X12.  With a Scene Viewer whose flipbook call succeeds, the
    screenshot action makes the screenshots directory if it is missing,
    captures the current frame alone at 1920 by 1080 into the file whose
    path it then shows after "Screenshot saved: " on the status line, and
    leaves the rows, the stored state and the scene file as they were. *)
Theorem screenshot_action_saves (d : dialog) (w : world) (sv : viewer) :
  scene_viewer w = Some sv ->
  flipbook_outcome sv = Ok tt ->
  exists p w' made told,
    _on_screenshot d w = (Ok (with_status d ("Screenshot saved: " ++ p)), w')
    /\ log w'
       = (log w ++ made
          ++ [EvFlipbook {| fb_frame_range := (frame w, frame w);
                            fb_output := p;
                            fb_use_resolution := true;
                            fb_resolution := (1920, 1080)%Z;
                            fb_crop_out_mask_overlay := Some true |}]
          ++ told)%list
    /\ (made = [] \/ made = [EvMakedirs (screens_dir w)])
    /\ (told = [] \/ told = [EvStatusBar ("Screenshot saved: " ++ p)])
    /\ existsb (String.eqb (screens_dir w)) (dirs w') = true
    /\ nodes w' = nodes w
    /\ hip_path w' = hip_path w.
Proof.
  intros H F. unfold _on_screenshot, bind.
  rewrite (screenshot_viewport_run _ _ _ H), F, shot_path_nonempty, notify_run.
  exists (shot_path w "checkpoint"). eexists.
  exists (if existsb (String.eqb (screens_dir w)) (dirs w)
          then [] else [EvMakedirs (screens_dir w)]).
  exists (match status_bar w with
          | Ok _ => [EvStatusBar ("Screenshot saved: " ++ shot_path w "checkpoint")]
          | Raise _ => []
          end).
  split; [reflexivity |].
  pose proof (screens_dir_there w) as T.
  assert (S1 : status_bar (after_shot w sv "checkpoint") = status_bar w).
  { unfold after_shot, with_screens_dir.
    now destruct (existsb (String.eqb (screens_dir w)) (dirs w)). }
  assert (D1 : dirs (after_shot w sv "checkpoint") = dirs (with_screens_dir w))
    by reflexivity.
  assert (N1 : nodes (after_shot w sv "checkpoint") = nodes w).
  { unfold after_shot, with_screens_dir.
    now destruct (existsb (String.eqb (screens_dir w)) (dirs w)). }
  assert (L1 : log (after_shot w sv "checkpoint")
               = (log w
                  ++ (if existsb (String.eqb (screens_dir w)) (dirs w)
                      then [] else [EvMakedirs (screens_dir w)])
                  ++ [EvFlipbook (shot_settings w "checkpoint")])%list).
  { unfold after_shot, with_screens_dir. rewrite F.
    destruct (existsb (String.eqb (screens_dir w)) (dirs w));
      cbn [log set_log set_dirs app]; [reflexivity | now rewrite <- app_assoc]. }
  unfold notified. rewrite S1.
  split.
  { destruct (status_bar w); cbn [log set_log]; rewrite L1;
      rewrite <- ?app_assoc, ?app_nil_r; reflexivity. }
  split; [destruct (existsb (String.eqb (screens_dir w)) (dirs w)); tauto |].
  split; [destruct (status_bar w); tauto |].
  split; [destruct (status_bar w); cbn [dirs set_log]; now rewrite D1 |].
  split; [destruct (status_bar w); cbn [nodes set_log]; exact N1 |].
  destruct (status_bar w); cbn [hip_path set_log]; apply hip_path_after_shot.
Qed.

End WithFloat.

(** The status bar of the sample scene takes the failure text. *)
Lemma screenshot_without_viewer_witness :
  let w := Sample.studio "/proj/shot.hip" None None in
  let d := {| checks := [true; false]; status := EmptyString;
              connected := true; closed := None |} in
  exists w',
    _on_screenshot d w
    = (Ok (with_status d "Screenshot failed (no Scene Viewer or flipbook error)."), w')
    /\ log w' = [EvStatusBar "Screenshot failed (no Scene Viewer or flipbook error)."].
Proof.
  cbv zeta.
  destruct (proj2 (screenshot_without_viewer
                     {| checks := [true; false]; status := EmptyString;
                        connected := true; closed := None |}
                     (Sample.studio "/proj/shot.hip" None None) eq_refl))
    as (w' & R & L & _).
  exists w'. split; [exact R | exact L].
Defined.

(** A checkpoint screenshot of the sample scene. *)
Lemma screenshot_action_witness :
  let w := Sample.studio "/proj/shot.hip" (Some Sample.persp) None in
  let d := {| checks := [true; false]; status := EmptyString;
              connected := true; closed := None |} in
  exists p w',
    _on_screenshot d w = (Ok (with_status d ("Screenshot saved: " ++ p)), w')
    /\ existsb (String.eqb "/proj/screenshots") (dirs w') = true.
Proof.
  cbv zeta.
  destruct (screenshot_action_saves
              {| checks := [true; false]; status := EmptyString;
                 connected := true; closed := None |}
              (Sample.studio "/proj/shot.hip" (Some Sample.persp) None)
              Sample.persp eq_refl eq_refl)
    as (p & w' & made & told & R & _ & _ & _ & D & _).
  exists p, w'. split; [exact R | exact D].
Defined.

End ShotProps.

(** ** The finalization checklist: the final screenshot *)

Module FinalShotProps.

Import Host Json Checklist PersistFacts DialogFacts ShotFacts FinalizeFacts HostFacts
  ShotProps.

Section WithFloat.

Context `{FM : FloatModel}.

(** The path of the final screenshot of the scene [fp] below [hip]. *)
Definition final_shot (w : world) (hip fp : string) : string :=
  OsPath.join (OsPath.join hip "screenshots")
    ((OsPath.basename (fst (OsPath.splitext fp)) ++ "_" ++ view_label w ++ "_"
      ++ frame_str w ++ "_" ++ stamp w) ++ "_final.jpg").

Lemma shot_path_final (w2 w : world) (hip fp : string) :
  hip_var w2 = Ok hip ->
  hip_path w2 = fp ->
  String.eqb fp EmptyString = false ->
  scene_viewer w2 = scene_viewer w ->
  frame w2 = frame w ->
  stamp w2 = stamp w ->
  shot_path w2 "final" = final_shot w hip fp.
Proof.
  intros Hv Hp Ne Sv Fr St.
  unfold shot_path, final_shot, screens_dir, hip_dir, shot_name, doc_name, view_label,
    frame_str.
  rewrite Hv, Hp, Ne, Sv, Fr, St.
  change (String.eqb "final" EmptyString) with false. cbv iota.
  f_equal. now rewrite StrFacts.append_assoc.
Qed.

(** X13.  Finalize on a saved scene, from the storing of the state on,
    with a Scene Viewer whose flipbook call succeeds.  The scene is saved
    under its final name before the screenshot is taken, so that the
    screenshot carries the final name of the scene, the view, the frame,
    the time stamp and the suffix "final"; the status line shows both
    paths, and the dialog is closed as accepted. *)
Theorem final_screenshot_after_save (d : dialog) (w : world) (sv : viewer) (hip : string) :
  hip_path w <> EmptyString ->
  hip_path w <> "untitled.hip" ->
  scene_viewer w = Some sv ->
  flipbook_outcome sv = Ok tt ->
  hip_var w = Ok hip ->
  let fp :=
    if Str.endswith (Str.lower (hip_path w)) "_final.hip" then hip_path w
    else fst (OsPath.splitext (hip_path w)) ++ "_final"
         ++ snd (OsPath.splitext (hip_path w)) in
  let shot := final_shot w hip fp in
  exists w' pre post,
    finalize_save d w
    = (Ok (with_closed
             (with_status d (("Saved as: " ++ fp) ++ "  |  Final screenshot: " ++ shot))
             (Some true)), w')
    /\ hip_path w' = fp
    /\ log w'
       = (log w ++ pre
          ++ [EvFlipbook {| fb_frame_range := (frame w, frame w);
                            fb_output := shot;
                            fb_use_resolution := true;
                            fb_resolution := (1920, 1080)%Z;
                            fb_crop_out_mask_overlay := Some true |}]
          ++ post)%list
    /\ (fp <> hip_path w -> In (EvSave fp) pre).
Proof.
  intros N1 N2 Sv F Hv. cbv zeta.
  change (Str.endswith (Str.lower (hip_path w)) "_final.hip")
    with (already_final (hip_path w)).
  change (fst (OsPath.splitext (hip_path w)) ++ "_final"
          ++ snd (OsPath.splitext (hip_path w)))
    with (final_name (hip_path w)).
  assert (U : unsaved (hip_path w) = false).
  { unfold unsaved. apply orb_false_iff. split; now apply String.eqb_neq. }
  destruct (erase_fields _ _ (erase_persisted w d))
    as (_ & Hp & Hv' & Sv' & Sb & Hd & Fr & St & _).
  destruct (log_persisted_any w d) as (ws & Lp).
  rewrite finalize_save_run, save_as_final_run, Hp, U.
  destruct (already_final (hip_path w)) eqn:A.
  - assert (Ne : String.eqb (hip_path w) EmptyString = false) by now apply String.eqb_neq.
    rewrite Ne.
    assert (Sv2 : scene_viewer (persisted w d) = Some sv) by congruence.
    rewrite (screenshot_viewport_run _ _ _ Sv2), F.
    assert (P : shot_path (persisted w d) "final" = final_shot w hip (hip_path w)).
    { apply shot_path_final; congruence. }
    unfold final_message. rewrite shot_path_nonempty, P.
    destruct (log_after_shot_ok (persisted w d) sv "final" F) as (mk & La).
    destruct (log_notified_any (after_shot (persisted w d) sv "final")
                (("Saved as: " ++ hip_path w) ++ "  |  Final screenshot: "
                 ++ final_shot w hip (hip_path w))) as (st & Ln).
    eexists. exists (ws ++ mk)%list, st. split; [reflexivity |].
    split; [now rewrite hip_path_notified, hip_path_after_shot |].
    split; [| intros X; now elim X].
    rewrite Ln, La, Lp. unfold shot_settings. rewrite P, Fr.
    now rewrite <- !app_assoc.
  - assert (Ne : String.eqb (final_name (hip_path w)) EmptyString = false).
    { unfold final_name. destruct (fst (OsPath.splitext (hip_path w))); reflexivity. }
    rewrite Ne.
    set (w2 := set_log (set_hip_path (persisted w d) (final_name (hip_path w)))
                 (log (persisted w d) ++ [EvSave (final_name (hip_path w))])%list).
    assert (Sv2 : scene_viewer w2 = Some sv) by (unfold w2; cbn; congruence).
    rewrite (screenshot_viewport_run _ _ _ Sv2), F.
    assert (P : shot_path w2 "final" = final_shot w hip (final_name (hip_path w))).
    { apply shot_path_final; unfold w2; cbn; congruence. }
    unfold final_message. rewrite shot_path_nonempty, P.
    destruct (log_after_shot_ok w2 sv "final" F) as (mk & La).
    destruct (log_notified_any (after_shot w2 sv "final")
                (("Saved as: " ++ final_name (hip_path w)) ++ "  |  Final screenshot: "
                 ++ final_shot w hip (final_name (hip_path w)))) as (st & Ln).
    eexists. exists (ws ++ [EvSave (final_name (hip_path w))] ++ mk)%list, st.
    split; [reflexivity |].
    split; [now rewrite hip_path_notified, hip_path_after_shot |].
    split.
    + rewrite Ln, La. unfold shot_settings. rewrite P.
      replace (frame w2) with (frame w) by (unfold w2; cbn; congruence).
      unfold w2. cbn [log set_log]. rewrite Lp. now rewrite <- !app_assoc.
    + intros _. apply in_or_app. right. now left.
Qed.

End WithFloat.

(** Finalize on "/proj/shot.hip": the screenshot is named after
    "shot_final". *)
Lemma final_screenshot_witness :
  let w := Sample.studio "/proj/shot.hip" (Some Sample.persp) None in
  let d := {| checks := [true; true]; status := EmptyString;
              connected := true; closed := None |} in
  exists d' w',
    finalize_save d w = (Ok d', w')
    /\ status d'
       = "Saved as: /proj/shot_final.hip  |  Final screenshot: "
         ++ "/proj/screenshots/shot_final_cam1_f0024_20261104_101500_final.jpg"
    /\ hip_path w' = "/proj/shot_final.hip".
Proof.
  cbv zeta.
  destruct (final_screenshot_after_save
              {| checks := [true; true]; status := EmptyString;
                 connected := true; closed := None |}
              (Sample.studio "/proj/shot.hip" (Some Sample.persp) None)
              Sample.persp "/proj")
    as (w' & pre & post & R & P & _); try reflexivity; try discriminate.
  eexists. exists w'. split; [exact R |]. split; [reflexivity | exact P].
Defined.

End FinalShotProps.

(** ** The finalization checklist: finalize on a saved scene, event by event *)

Module FinalizeRun.

Import Host Json Checklist PersistFacts DialogFacts ShotFacts FinalizeFacts FinalizeClaims
  HostFacts ShotProps FinalShotProps FinalizeProps.

Section WithFloat.

Context `{FM : FloatModel}.

(** The write of the state, when the state node exists. *)
Definition store_events (w : world) (d : dialog) : list event :=
  match lookup "/obj" (nodes w) with
  | Some _ =>
      [EvSetUserData "/obj" STATE_KEY
         (dumps (state_dict (_collect_checked_indices d) (clock w)))]
  | None => []
  end.

(** The save of save-as-final, when the scene is not final yet. *)
Definition save_events (cur : string) : list event :=
  if already_final cur then [] else [EvSave (final_name cur)].

(** The settings of the final screenshot of the scene [fp]. *)
Definition final_settings (w : world) (hip fp : string) : flipbook_settings :=
  {| fb_frame_range := (frame w, frame w);
     fb_output := final_shot w hip fp;
     fb_use_resolution := true;
     fb_resolution := (1920, 1080)%Z;
     fb_crop_out_mask_overlay := Some true |}.

(** The directory that is made if it is missing. *)
Definition made_events (w : world) (hip : string) : list event :=
  if existsb (String.eqb (OsPath.join hip "screenshots")) (dirs w) then []
  else [EvMakedirs (OsPath.join hip "screenshots")].

(** The capture, tried when there is a Scene Viewer. *)
Definition capture_events (w : world) (hip fp : string) : list event :=
  match scene_viewer w with
  | None => []
  | Some sv =>
      (made_events w hip
       ++ [match flipbook_outcome sv with
           | Ok _ => EvFlipbook (final_settings w hip fp)
           | Raise e => EvFlipbookFailed (final_settings w hip fp) e
           end])%list
  end.

(** The status line at the end: the screenshot is named when it was
    written, and not mentioned otherwise. *)
Definition finalize_status (w : world) (hip fp : string) : string :=
  match scene_viewer w with
  | Some sv =>
      match flipbook_outcome sv with
      | Ok _ => ("Saved as: " ++ fp) ++ "  |  Final screenshot: " ++ final_shot w hip fp
      | Raise _ => "Saved as: " ++ fp
      end
  | None => "Saved as: " ++ fp
  end.

(** The message on the status bar, when the status bar takes it. *)
Definition status_events (w : world) (msg : string) : list event :=
  match status_bar w with
  | Ok _ => [EvStatusBar msg]
  | Raise _ => []
  end.

Lemma log_persisted_exact (w : world) (d : dialog) :
  log (persisted w d) = (log w ++ store_events w d)%list.
Proof.
  unfold persisted, store_events. destruct (lookup "/obj" (nodes w)).
  - reflexivity.
  - now rewrite app_nil_r.
Qed.

Lemma screens_dir_hip (w : world) (hip : string) :
  hip_var w = Ok hip -> screens_dir w = OsPath.join hip "screenshots".
Proof. intros H. unfold screens_dir, hip_dir. now rewrite H. Qed.

(** The capture and the status line, on the host [w2] that save-as-final
    has left, which differs from [w] in the nodes, the path and the log. *)
Lemma capture_and_tell (d : dialog) (w w2 : world) (hip fp : string) :
  hip_var w2 = Ok hip ->
  hip_path w2 = fp ->
  String.eqb fp EmptyString = false ->
  scene_viewer w2 = scene_viewer w ->
  frame w2 = frame w ->
  stamp w2 = stamp w ->
  dirs w2 = dirs w ->
  status_bar w2 = status_bar w ->
  exists w',
    match _screenshot_viewport "final" w2 with
    | (Ok shot, w3) =>
        (Ok (with_closed (with_status d (final_message fp shot)) (Some true)),
         notified w3 (final_message fp shot))
    | (Raise e, w3) => (Raise e, w3)
    end
    = (Ok (with_closed (with_status d (finalize_status w hip fp)) (Some true)), w')
    /\ hip_path w' = fp
    /\ nodes w' = nodes w2
    /\ log w'
       = (log w2 ++ capture_events w hip fp
          ++ status_events w (finalize_status w hip fp))%list.
Proof.
  intros Hv Hp Ne Sv Fr St Di Sb.
  unfold capture_events, finalize_status, status_events.
  destruct (scene_viewer w) as [sv|] eqn:V.
  - rewrite (screenshot_viewport_run _ _ _ Sv).
    assert (P : shot_path w2 "final" = final_shot w hip fp).
    { apply shot_path_final; try assumption. now rewrite Sv, V. }
    assert (L : log (after_shot w2 sv "final")
                = (log w2 ++ made_events w hip
                   ++ [match flipbook_outcome sv with
                       | Ok _ => EvFlipbook (final_settings w hip fp)
                       | Raise e => EvFlipbookFailed (final_settings w hip fp) e
                       end])%list).
    { unfold after_shot, with_screens_dir, made_events, shot_settings, final_settings.
      rewrite (screens_dir_hip _ _ Hv), P, Fr, Di.
      destruct (existsb (String.eqb (OsPath.join hip "screenshots")) (dirs w));
        cbn [log set_log set_dirs app]; [reflexivity | now rewrite <- app_assoc]. }
    assert (S3 : status_bar (after_shot w2 sv "final") = status_bar w).
    { rewrite <- Sb. unfold after_shot, with_screens_dir.
      now destruct (existsb (String.eqb (screens_dir w2)) (dirs w2)). }
    assert (N3 : nodes (after_shot w2 sv "final") = nodes w2).
    { unfold after_shot, with_screens_dir.
      now destruct (existsb (String.eqb (screens_dir w2)) (dirs w2)). }
    assert (H3 : hip_path (after_shot w2 sv "final") = fp)
      by now rewrite hip_path_after_shot.
    destruct (flipbook_outcome sv) as [u|e]; unfold final_message;
      rewrite ?shot_path_nonempty, ?P; eexists; (split; [reflexivity |]);
      unfold notified; rewrite S3; destruct (status_bar w);
      cbn [hip_path nodes log set_log]; rewrite ?L, <- ?app_assoc, ?app_nil_r;
      repeat split; assumption.
  - rewrite (screenshot_viewport_none _ _ Sv).
    eexists. split; [reflexivity |].
    unfold notified. rewrite Sb. destruct (status_bar w); cbn [hip_path nodes log set_log];
      rewrite ?app_nil_r; repeat split; assumption.
Qed.

(** Finalize on a saved scene, from the storing of the state on: the
    state is stored, the scene is saved under its final name unless it has
    it, the capture is tried, and the status line is set; the dialog is
    closed as accepted. *)
Lemma finalize_save_saved (d : dialog) (w : world) (hip : string) :
  hip_path w <> EmptyString ->
  hip_path w <> "untitled.hip" ->
  hip_var w = Ok hip ->
  exists w',
    finalize_save d w
    = (Ok (with_closed
             (with_status d (finalize_status w hip (final_path (hip_path w))))
             (Some true)), w')
    /\ hip_path w' = final_path (hip_path w)
    /\ nodes w' = nodes (persisted w d)
    /\ log w'
       = (log w ++ store_events w d ++ save_events (hip_path w)
          ++ capture_events w hip (final_path (hip_path w))
          ++ status_events w (finalize_status w hip (final_path (hip_path w))))%list.
Proof.
  intros N1 N2 Hv.
  assert (U : unsaved (hip_path w) = false).
  { unfold unsaved. apply orb_false_iff. split; now apply String.eqb_neq. }
  destruct (erase_fields _ _ (erase_persisted w d))
    as (_ & Hp & Hv' & Sv & Sb & Di & Fr & St & _).
  rewrite finalize_save_run, save_as_final_run, Hp, U.
  unfold final_path, save_events.
  destruct (already_final (hip_path w)) eqn:A.
  - assert (Ne : String.eqb (hip_path w) EmptyString = false) by now apply String.eqb_neq.
    rewrite Ne.
    destruct (capture_and_tell d w (persisted w d) hip (hip_path w))
      as (w' & R & H1 & H2 & H3); try congruence.
    exists w'. split; [exact R |]. split; [exact H1 |]. split; [exact H2 |].
    now rewrite H3, log_persisted_exact, <- !app_assoc.
  - assert (Ne : String.eqb (final_name (hip_path w)) EmptyString = false)
      by apply final_name_nonempty.
    rewrite Ne.
    set (w2 := set_log (set_hip_path (persisted w d) (final_name (hip_path w)))
                 (log (persisted w d) ++ [EvSave (final_name (hip_path w))])%list).
    destruct (capture_and_tell d w w2 hip (final_name (hip_path w)))
      as (w' & R & H1 & H2 & H3); try (unfold w2; cbn; congruence).
    exists w'. split; [exact R |]. split; [exact H1 |]. split; [exact H2 |].
    rewrite H3. unfold w2. cbn [log set_log].
    now rewrite log_persisted_exact, <- !app_assoc.
Qed.

(** A modal message. *)
Definition is_prompt (ev : event) : Prop :=
  match ev with
  | EvMessage _ _ => True
  | _ => False
  end.

(** With "Proceed" for an answer, finalize gets to the storing of the
    state on a host that differs by the prompts in the log. *)
Lemma on_finalize_asks (d : dialog) (w : world) :
  (forall text, answer w text <> 0%Z) ->
  exists w2 msgs,
    _on_finalize d w = finalize_save d w2
    /\ erase w2 = erase w
    /\ nodes w2 = nodes w
    /\ log w2 = (log w ++ msgs)%list
    /\ Forall is_prompt msgs.
Proof.
  intros A.
  assert (P : forall w1 msgs,
             erase w1 = erase w -> nodes w1 = nodes w -> answer w1 = answer w ->
             log w1 = (log w ++ msgs)%list -> Forall is_prompt msgs ->
             exists w2 msgs,
               finalize_paths d w1 = finalize_save d w2
               /\ erase w2 = erase w /\ nodes w2 = nodes w
               /\ log w2 = (log w ++ msgs)%list /\ Forall is_prompt msgs).
  { intros w1 msgs E N An L F. rewrite finalize_paths_run.
    destruct (report w1) as [|b bad].
    - exists w1, msgs. repeat split; assumption.
    - rewrite An. destruct (Z.eqb_spec (answer w (paths_prompt (b :: bad))) 0) as [Z|_];
        [now elim (A _ Z) |].
      eexists. exists (msgs ++ [ask_paths (b :: bad)])%list.
      split; [reflexivity |]. split; [exact E |]. split; [exact N |].
      split; [cbn [log set_log]; now rewrite L, app_assoc |].
      apply Forall_app. split; [exact F | repeat constructor]. }
  unfold _on_finalize. destruct (negb (_all_checked d)).
  - unfold bind, displayMessage.
    destruct (Z.eqb_spec (answer w unchecked_prompt) 0) as [Z|_]; [now elim (A _ Z) |].
    apply (P _ [EvMessage unchecked_prompt ["Go Back"; "Proceed"]]);
      try reflexivity. repeat constructor.
  - apply (P w []); try reflexivity; [now rewrite app_nil_r | constructor].
Qed.

(** The same from the first prompt on, for a user who answers "Proceed"
    to what is asked: the prompts come first. *)
Lemma on_finalize_saved (d : dialog) (w : world) (hip : string) :
  hip_path w <> EmptyString ->
  hip_path w <> "untitled.hip" ->
  hip_var w = Ok hip ->
  (forall text, answer w text <> 0%Z) ->
  exists w' msgs,
    _on_finalize d w
    = (Ok (with_closed
             (with_status d (finalize_status w hip (final_path (hip_path w))))
             (Some true)), w')
    /\ hip_path w' = final_path (hip_path w)
    /\ (lookup "/obj" (nodes w) <> None ->
        stored w' = Some (dumps (state_dict (_collect_checked_indices d) (clock w))))
    /\ Forall is_prompt msgs
    /\ log w'
       = (log w ++ msgs ++ store_events w d ++ save_events (hip_path w)
          ++ capture_events w hip (final_path (hip_path w))
          ++ status_events w (finalize_status w hip (final_path (hip_path w))))%list.
Proof.
  intros N1 N2 Hv A.
  destruct (on_finalize_asks d w A) as (w2 & msgs & -> & E & Nd & L & F).
  destruct (erase_fields _ _ E) as (Ck & Hp & Hv2 & Sv & Sb & Di & Fr & St & _).
  destruct (finalize_save_saved d w2 hip) as (w' & R & H1 & H2 & H3); try congruence.
  assert (X1 : store_events w2 d = store_events w d).
  { unfold store_events. now rewrite Nd, Ck. }
  assert (X2 : final_shot w2 hip (final_path (hip_path w))
               = final_shot w hip (final_path (hip_path w))).
  { unfold final_shot, view_label, frame_str. now rewrite Sv, Fr, St. }
  assert (X3 : capture_events w2 hip (final_path (hip_path w))
               = capture_events w hip (final_path (hip_path w))).
  { unfold capture_events, made_events, final_settings. now rewrite Sv, Di, Fr, X2. }
  assert (X4 : finalize_status w2 hip (final_path (hip_path w))
               = finalize_status w hip (final_path (hip_path w))).
  { unfold finalize_status. now rewrite Sv, X2. }
  assert (X5 : forall m, status_events w2 m = status_events w m).
  { intros m. unfold status_events. now rewrite Sb. }
  rewrite Hp, X4 in R. rewrite Hp in H1.
  exists w', msgs. split; [exact R |]. split; [exact H1 |].
  split.
  { intros Nn. rewrite <- Ck.
    rewrite <- (stored_persisted w2 d) by now rewrite Nd.
    unfold stored. now rewrite H2. }
  split; [exact F |].
  now rewrite H3, L, Hp, X1, X3, X4, X5, <- !app_assoc.
Qed.

End WithFloat.

End FinalizeRun.

(** ** The finalization checklist: a capture that fails *)

Module CaptureClaims.

Import Host Json Checklist PersistFacts DialogFacts ShotFacts FinalizeFacts FinalizeClaims
  HostFacts ShotProps FinalShotProps FinalizeProps FinalizeRun.

Section WithFloat.

Context `{FM : FloatModel}.

(** C7.  The flipbook call of the Scene Viewer is the one call of the
    capture helper that sits in a [try] block; the screenshots directory
    is made before it and outside it, and is here taken to be there or
    free to be made.  When the flipbook call raises, with whatever
    exception, [_screenshot_viewport] returns [None] and does not raise.
    The screenshot action then puts the failure text on the status line
    and, when the status bar takes it, on the status bar: nothing modal.
    Finalize on a saved scene, for a user who answers "Proceed", does not
    report the failure: the state is stored, the scene is saved under its
    final name before the capture is tried, the status line reads "Saved
    as: " and that name and nothing more, and the dialog is closed as
    accepted. *)
Theorem C7_screenshot_failure (d : dialog) (w : world) (sv : viewer) (e : exn)
    (hip : string) :
  scene_viewer w = Some sv ->
  flipbook_outcome sv = Raise e ->
  hip_var w = Ok hip ->
  existsb (String.eqb (OsPath.join hip "screenshots")) (files w) = false ->
  (forall sfx,
      exists w',
        _screenshot_viewport sfx w = (Ok None, w')
        /\ log w'
           = (log w ++ made_events w hip
              ++ [EvFlipbookFailed (shot_settings w sfx) e])%list)
  /\ (exists w',
        _on_screenshot d w = (Ok (with_status d screenshot_failed), w')
        /\ log w'
           = (log w ++ made_events w hip
              ++ [EvFlipbookFailed (shot_settings w "checkpoint") e]
              ++ status_events w screenshot_failed)%list)
  /\ (hip_path w <> EmptyString ->
      hip_path w <> "untitled.hip" ->
      (forall text, answer w text <> 0%Z) ->
      exists w' msgs,
        _on_finalize d w
        = (Ok (with_closed
                 (with_status d ("Saved as: " ++ final_path (hip_path w)))
                 (Some true)), w')
        /\ hip_path w' = final_path (hip_path w)
        /\ (lookup "/obj" (nodes w) <> None ->
            stored w'
            = Some (dumps (state_dict (_collect_checked_indices d) (clock w))))
        /\ Forall is_prompt msgs
        /\ log w'
           = (log w ++ msgs ++ store_events w d ++ save_events (hip_path w)
              ++ made_events w hip
              ++ [EvFlipbookFailed (final_settings w hip (final_path (hip_path w))) e]
              ++ status_events w ("Saved as: " ++ final_path (hip_path w)))%list).
Proof.
  intros Sv F Hv _.
  assert (A : forall sfx,
             log (after_shot w sv sfx)
             = (log w ++ made_events w hip
                ++ [EvFlipbookFailed (shot_settings w sfx) e])%list).
  { intros sfx. unfold after_shot, with_screens_dir, made_events.
    rewrite (screens_dir_hip _ _ Hv), F.
    destruct (existsb (String.eqb (OsPath.join hip "screenshots")) (dirs w));
      cbn [log set_log set_dirs app]; [reflexivity | now rewrite <- app_assoc]. }
  split; [| split].
  - intros sfx. rewrite (screenshot_viewport_run _ _ _ Sv), F.
    eexists. split; [reflexivity | apply A].
  - unfold _on_screenshot, bind.
    rewrite (screenshot_viewport_run _ _ _ Sv), F, notify_run.
    eexists. split; [reflexivity |].
    assert (S3 : status_bar (after_shot w sv "checkpoint") = status_bar w).
    { unfold after_shot, with_screens_dir.
      now destruct (existsb (String.eqb (screens_dir w)) (dirs w)). }
    unfold notified, status_events. rewrite S3.
    destruct (status_bar w); cbn [log set_log]; rewrite A, <- ?app_assoc, ?app_nil_r;
      reflexivity.
  - intros N1 N2 Ans.
    destruct (on_finalize_saved d w hip N1 N2 Hv Ans) as (w' & msgs & R & H1 & H2 & Fm & L).
    assert (X : finalize_status w hip (final_path (hip_path w))
                = "Saved as: " ++ final_path (hip_path w)).
    { unfold finalize_status. now rewrite Sv, F. }
    assert (Y : capture_events w hip (final_path (hip_path w))
                = (made_events w hip
                   ++ [EvFlipbookFailed
                         (final_settings w hip (final_path (hip_path w))) e])%list).
    { unfold capture_events. now rewrite Sv, F. }
    rewrite X in R. rewrite X, Y, <- !app_assoc in L.
    exists w', msgs. repeat split; assumption.
Qed.

End WithFloat.

(** C7 on a scene whose viewer fails to flipbook: the scene is saved as
    "shot_final.hip" and the status line says so. *)
Lemma C7_witness :
  let w := Sample.studio "/proj/shot.hip" (Some Sample.broken) None in
  scene_viewer w = Some Sample.broken
  /\ flipbook_outcome Sample.broken = Raise HostError
  /\ existsb (String.eqb (OsPath.join "/proj" "screenshots")) (files w) = false
  /\ (forall text, answer w text <> 0%Z)
  /\ (exists w', _screenshot_viewport "final" w = (Ok None, w'))
  /\ exists w',
       _on_finalize fresh w
       = (Ok (with_closed (with_status fresh "Saved as: /proj/shot_final.hip") (Some true)),
          w')
       /\ hip_path w' = "/proj/shot_final.hip".
Proof.
  cbv zeta.
  assert (A : forall text,
             answer (Sample.studio "/proj/shot.hip" (Some Sample.broken) None) text <> 0%Z)
    by (intros text; discriminate).
  destruct (C7_screenshot_failure fresh
              (Sample.studio "/proj/shot.hip" (Some Sample.broken) None)
              Sample.broken HostError "/proj" eq_refl eq_refl eq_refl eq_refl)
    as (H1 & _ & H3).
  split; [reflexivity |]. split; [reflexivity |]. split; [reflexivity |].
  split; [exact A |]. split.
  - destruct (H1 "final") as (w' & R & _). now exists w'.
  - destruct H3 as (w' & msgs & R & P & _); [discriminate | discriminate | exact A |].
    exists w'. split; [exact R | exact P].
Defined.

(** C7, as it was claimed, on that scene.  The capture of finalize is
    tried and fails, and the failure is not reported: the status line
    names the saved scene, the status bar is told nothing else, and the
    dialog ends as it does on a scene without a Scene Viewer, where no
    capture is tried. *)
Lemma C7_counterexample :
  let w := Sample.studio "/proj/shot.hip" (Some Sample.broken) None in
  let w0 := Sample.studio "/proj/shot.hip" None None in
  existsb (fun ev => match ev with
                     | EvFlipbookFailed _ _ => true
                     | _ => false
                     end) (log (snd (_on_finalize fresh w))) = true
  /\ option_map status
       (match fst (_on_finalize fresh w) with Ok d => Some d | Raise _ => None end)
     = Some "Saved as: /proj/shot_final.hip"
  /\ existsb (fun ev => match ev with
                        | EvStatusBar text =>
                            negb (String.eqb text "Saved as: /proj/shot_final.hip")
                        | _ => false
                        end) (log (snd (_on_finalize fresh w))) = false
  /\ fst (_on_finalize fresh w) = fst (_on_finalize fresh w0).
Proof. cbv zeta. repeat split; vm_compute; reflexivity. Qed.

End CaptureClaims.

(** ** The finalization checklist: a session of the dialog *)

Module SessionProps.

Import Host Json Checklist PersistFacts DialogFacts ShotFacts FinalizeFacts ScanFacts
  HostFacts RowFacts RowProps ShotProps FinalizeProps.

Section WithFloat.

Context `{FM : FloatModel}.

Lemma nodes_notified (w : world) (msg : string) : nodes (notified w msg) = nodes w.
Proof. unfold notified. now destruct (status_bar w). Qed.

Lemma nodes_after_shot (w : world) (sv : viewer) (sfx : string) :
  nodes (after_shot w sv sfx) = nodes w.
Proof.
  unfold after_shot, with_screens_dir.
  now destruct (existsb (String.eqb (screens_dir w)) (dirs w)).
Qed.

(** [_screenshot_viewport] returns, and leaves the nodes as they are. *)
Lemma screenshot_viewport_ends (w : world) (sfx : string) :
  exists shot w', _screenshot_viewport sfx w = (Ok shot, w') /\ nodes w' = nodes w.
Proof.
  destruct (scene_viewer w) as [sv|] eqn:E.
  - rewrite (screenshot_viewport_run _ _ _ E).
    destruct (flipbook_outcome sv); eexists; eexists;
      (split; [reflexivity | apply nodes_after_shot]).
  - rewrite (screenshot_viewport_none _ _ E). now exists None, w.
Qed.

(** The screenshot action returns with a new status line and nothing else
    changed in the dialog. *)
Lemma on_screenshot_ends (d : dialog) (w : world) :
  exists msg w', _on_screenshot d w = (Ok (with_status d msg), w') /\ nodes w' = nodes w.
Proof.
  unfold _on_screenshot, bind.
  destruct (screenshot_viewport_ends w "checkpoint") as (shot & w1 & -> & N).
  destruct shot as [p|]; [destruct (String.eqb p EmptyString) |];
    rewrite notify_run; eexists; eexists;
    (split; [reflexivity | now rewrite nodes_notified]).
Qed.

Lemma nodes_saved (w : world) : nodes (snd (_save_as_final w)) = nodes w.
Proof.
  rewrite save_as_final_run.
  destruct (unsaved (hip_path w)); [reflexivity |].
  destruct (already_final (hip_path w)); reflexivity.
Qed.

Lemma save_as_final_ends (w : world) : exists fp, fst (_save_as_final w) = Ok fp.
Proof.
  rewrite save_as_final_run.
  destruct (unsaved (hip_path w)); [now eexists |].
  destruct (already_final (hip_path w)); now eexists.
Qed.

(** From the storing of the state on, finalize returns: the dialog is
    accepted with its rows as they were, and the nodes are as
    [_persist_now] left them. *)
Lemma finalize_save_ends (d : dialog) (w : world) :
  exists d' w',
    finalize_save d w = (Ok d', w')
    /\ checks d' = checks d
    /\ connected d' = connected d
    /\ closed d' = Some true
    /\ nodes w' = nodes (persisted w d).
Proof.
  rewrite finalize_save_run.
  pose proof (nodes_saved (persisted w d)) as N.
  destruct (save_as_final_ends (persisted w d)) as (fp & S).
  destruct (_save_as_final (persisted w d)) as [r w2]. cbn [fst snd] in *. subst r.
  destruct fp as [fp|]; [| now eexists; eexists].
  destruct (String.eqb fp EmptyString); [now eexists; eexists |].
  destruct (screenshot_viewport_ends w2 "final") as (shot & w3 & -> & N3).
  eexists; eexists. repeat split. now rewrite nodes_notified, N3.
Qed.

(** The rows of [d] are those that [__init__] would check on [w]. *)
Definition in_sync (d : dialog) (w : world) : Prop :=
  count d = N_ITEMS
  /\ connected d = true
  /\ lookup "/obj" (nodes w) <> None
  /\ exists cs,
       checked_set_of (loaded w) = Ok cs
       /\ forall j, is_checked d j = py_in j cs && (j <? N_ITEMS)%nat.

Lemma loaded_nodes (w w' : world) : nodes w' = nodes w -> loaded w' = loaded w.
Proof. intros H. unfold loaded, stored. now rewrite H. Qed.

Lemma sync_nodes (d d' : dialog) (w w' : world) :
  in_sync d w ->
  nodes w' = nodes w -> checks d' = checks d -> connected d' = connected d ->
  in_sync d' w'.
Proof.
  intros (C & K & N & cs & L & R) Hn Hc Hk.
  unfold in_sync, count, is_checked in *.
  rewrite Hn, Hc, Hk, (loaded_nodes _ _ Hn). repeat split; try assumption.
  now exists cs.
Qed.

Lemma sync_persisted (d : dialog) (w : world) :
  count d = N_ITEMS -> connected d = true -> lookup "/obj" (nodes w) <> None ->
  in_sync d (persisted w d).
Proof.
  intros C K N. split; [exact C |]. split; [exact K |].
  split; [exact (node_kept _ _ (erase_persisted w d) N) |].
  unfold persisted. destruct (lookup "/obj" (nodes w)) as [r|]; [| now elim N].
  rewrite loaded_saved_world, checked_set_of_state.
  eexists. split; [reflexivity |].
  intros i. unfold py_in.
  destruct (is_checked d i) eqn:X.
  - assert (L : i < count d) by now apply is_checked_lt.
    symmetry. apply andb_true_iff. split.
    + apply in_ints, collect_spec. now exists i.
    + apply Nat.ltb_lt. now rewrite <- C.
  - destruct (existsb (py_eq_int (Z.of_nat i)) (map PyInt (_collect_checked_indices d)))
      eqn:Y; [| reflexivity].
    apply in_ints, collect_spec in Y. destruct Y as (j & Hj & _ & Hc).
    apply Nat2Z.inj in Hj. subst j. congruence.
Qed.

Lemma set_all_sync (b : bool) (msg : string) (d : dialog) (w : world) :
  in_sync d w ->
  exists d' w', set_all b msg d w = (Ok d', w') /\ closed d' = closed d /\ in_sync d' w'.
Proof.
  intros (C & K & N & _).
  unfold set_all. unfold bind at 1. rewrite set_rows_run.
  unfold bind. rewrite persist_now_run, notify_run.
  eexists; eexists. split; [reflexivity |].
  split; [apply closed_set_rows |].
  apply (sync_nodes (fst (set_rows b (rows d) d w))
           _ (persisted (snd (set_rows b (rows d) d w)) (fst (set_rows b (rows d) d w))));
    [| apply nodes_notified | reflexivity | reflexivity].
  apply sync_persisted.
  - now rewrite count_set_rows.
  - now rewrite connected_set_rows.
  - exact (node_kept _ _ (erase_set_rows b (rows d) d w) N).
Qed.

Lemma finalize_save_sync (d : dialog) (w : world) :
  count d = N_ITEMS -> connected d = true -> lookup "/obj" (nodes w) <> None ->
  exists d' w', finalize_save d w = (Ok d', w') /\ in_sync d' w'.
Proof.
  intros C K N.
  destruct (finalize_save_ends d w) as (d' & w' & R & Hc & Hk & _ & Hn).
  exists d', w'. split; [exact R |].
  exact (sync_nodes _ _ _ _ (sync_persisted d w C K N) Hn Hc Hk).
Qed.

Lemma finalize_paths_sync (d : dialog) (w : world) :
  in_sync d w -> exists d' w', finalize_paths d w = (Ok d', w') /\ in_sync d' w'.
Proof.
  intros S. pose proof S as (C & K & N & _).
  rewrite finalize_paths_run.
  destruct (report w) as [|b bad]; [now apply finalize_save_sync |].
  destruct (Z.eqb (answer w (paths_prompt (b :: bad))) 0).
  - eexists; eexists. split; [reflexivity |].
    now apply (sync_nodes d _ w).
  - now apply finalize_save_sync.
Qed.

Lemma on_finalize_sync (d : dialog) (w : world) :
  in_sync d w -> exists d' w', _on_finalize d w = (Ok d', w') /\ in_sync d' w'.
Proof.
  intros S. unfold _on_finalize.
  destruct (negb (_all_checked d)); [| now apply finalize_paths_sync].
  unfold bind, displayMessage.
  destruct (Z.eqb (answer w unchecked_prompt) 0).
  - eexists; eexists. split; [reflexivity |]. now apply (sync_nodes d _ w).
  - apply finalize_paths_sync. now apply (sync_nodes d _ w).
Qed.

Lemma handle_sync (d : dialog) (a : action) (w : world) :
  in_sync d w -> exists d' w', handle d a w = (Ok d', w') /\ in_sync d' w'.
Proof.
  intros S. pose proof S as (C & K & N & _).
  destruct a as [i| | | | |].
  - destruct (Nat.ltb_spec i (count d)) as [L|L].
    + rewrite (click_run _ _ _ L), K. eexists; eexists. split; [reflexivity |].
      apply sync_persisted; [| exact K | exact N].
      unfold count. cbn. rewrite length_set_nth. exact C.
    + cbn [handle]. apply Nat.ltb_ge in L. rewrite L. now exists d, w.
  - destruct (set_all_sync true "All items checked." d w S) as (d' & w' & R & _ & S').
    now exists d', w'.
  - destruct (set_all_sync false "All items cleared." d w S) as (d' & w' & R & _ & S').
    now exists d', w'.
  - cbn [handle]. destruct (on_screenshot_ends d w) as (msg & w' & -> & Hn).
    eexists; eexists. split; [reflexivity |]. now apply (sync_nodes d _ w).
  - now apply on_finalize_sync.
  - eexists; eexists. split; [reflexivity |]. now apply (sync_nodes d _ w).
Qed.

Lemma exec_sync (l : list action) (d : dialog) (w : world) :
  in_sync d w -> exists d' w', exec_ d l w = (Ok d', w') /\ in_sync d' w'.
Proof.
  revert d w. induction l as [|a l IH]; intros d w S; cbn [exec_].
  - destruct (closed d); now exists d, w.
  - destruct (closed d); [now exists d, w |].
    unfold bind. destruct (handle_sync d a w S) as (d1 & w1 & -> & S1).
    now apply IH.
Qed.

(** X14.  On a scene that has the state node, a session of the dialog that
    opens returns, whatever the user does in it, and a dialog that is
    opened afterwards has its rows checked as the session left them:
    clicks, "Check All", "Clear", screenshots, a finalize that the user
    goes through or backs out of, and closing keep the stored state and
    the rows in step. *)
Theorem session_then_reopen (l : list action) (w : world) (d0 : dialog) :
  lookup "/obj" (nodes w) <> None ->
  __init__ w = (Ok d0, w) ->
  exists d w' d',
    show_finalization_dialog l w = (Ok d, w')
    /\ __init__ w' = (Ok d', w')
    /\ count d' = count d
    /\ forall j, is_checked d' j = is_checked d j.
Proof.
  intros N I. unfold show_finalization_dialog, bind. rewrite I.
  assert (S : in_sync d0 w).
  { rewrite init_run in I.
    destruct (checked_set_of (loaded w)) as [cs|e] eqn:E; [| discriminate].
    injection I as <-. split; [apply opened_count |]. split; [reflexivity |].
    split; [exact N |]. exists cs. split; [exact E | apply opened_checked]. }
  destruct (exec_sync l d0 w S) as (d & w' & R & C & _ & _ & cs & L & K).
  exists d, w', (opened cs). split; [exact R |].
  split; [now rewrite init_run, L |].
  split; [now rewrite opened_count |].
  intros j. now rewrite opened_checked, K.
Qed.

(** The brackets and braces that open in a text: no value in it nests
    deeper than their number. *)
Fixpoint brackets (s : string) : nat :=
  match s with
  | EmptyString => 0
  | String c r => (if Ascii.eqb c "[" || Ascii.eqb c "{" then 1 else 0) + brackets r
  end.

(** X16.  A stored text that is valid JSON but not a state of the
    checklist stops the dialog from opening.  The text is taken short and
    shallow, at most 640 characters with at most three opening brackets:
    far from the limits of the interpreter on the digits of an integer
    and on recursion, beyond which [json.loads] raises and [_load_state]
    returns the empty state.  When the text decodes to something other
    than an object, [__init__] raises [AttributeError]; when it decodes
    to an object whose "checked" entry is a number, a boolean, null, or a
    list that holds a list or an object, [__init__] raises [TypeError].
    In both cases the host is left as it was, and the stored text with
    it. *)
Theorem init_raises_on_foreign_state (w : world) (raw : string) (v : pyval) :
  stored w = Some raw ->
  raw <> EmptyString ->
  String.length raw <= 640 ->
  brackets raw <= 3 ->
  loads raw = Ok v ->
  ((forall kv, v <> PyDict kv) -> __init__ w = (Raise AttributeError, w))
  /\ (forall kv c,
        v = PyDict kv ->
        dict_get kv (ustr_of "checked") = Some c ->
        match c with
        | PyList items => forallb hashable items = false
        | PyStr _ | PyDict _ => False
        | _ => True
        end ->
        __init__ w = (Raise TypeError, w)).
Proof.
  intros S Ne _ _ L.
  assert (Lw : loaded w = v).
  { unfold loaded. rewrite S, L. apply String.eqb_neq in Ne. now rewrite Ne. }
  rewrite init_run, Lw. split.
  - intros H. destruct v; try reflexivity. exfalso. eapply H. reflexivity.
  - intros kv c -> G T. unfold checked_set_of, get_checked. rewrite G. cbn [res_bind].
    destruct c; cbn [py_set]; try reflexivity; try contradiction.
    now rewrite T.
Qed.

(** X17.  [__init__] restores the rows before it connects the slot:
    opening the dialog reads the stored state and writes nothing, for
    whatever state is stored.  A dialog that opens has one unchecked or
    checked row for each label, an empty status line, and is open. *)
Theorem opening_writes_nothing (w : world) :
  snd (__init__ w) = w
  /\ forall d,
       fst (__init__ w) = Ok d ->
       count d = List.length CHECK_ITEMS
       /\ connected d = true
       /\ closed d = None
       /\ status d = EmptyString.
Proof.
  rewrite init_run. split; [reflexivity |].
  cbn [fst]. intros d H.
  destruct (checked_set_of (loaded w)) as [cs|]; [| discriminate].
  injection H as <-. split; [apply opened_count |]. split; [reflexivity |].
  unfold opened.
  set (f := mark (fun i => py_in i cs)).
  assert (K : forall l d0, closed (fold_left f l d0) = closed d0
                           /\ status (fold_left f l d0) = status d0).
  { induction l as [|i l IH]; intros d0; [now split |].
    cbn [fold_left]. destruct (IH (f d0 i)) as [-> ->].
    unfold f, mark. now destruct (_ && _). }
  cbn [closed status with_connected]. apply K.
Qed.

End WithFloat.

(** A session on the sample scene: a click, Check All, a screenshot. *)
Lemma session_witness :
  let w := Sample.studio "/proj/shot.hip" (Some Sample.persp) None in
  exists d w' d',
    show_finalization_dialog [Click 2; CheckAll; Click 5; Screenshot; Cancel] w = (Ok d, w')
    /\ __init__ w' = (Ok d', w')
    /\ count d' = count d
    /\ forall j, is_checked d' j = is_checked d j.
Proof.
  cbv zeta.
  apply (session_then_reopen [Click 2; CheckAll; Click 5; Screenshot; Cancel]
           (Sample.studio "/proj/shot.hip" (Some Sample.persp) None)
           (opened [])).
  - discriminate.
  - rewrite init_run. reflexivity.
Defined.

(** The stored text "[0, 3]" is a list, and "checked": 5 is not iterable. *)
Lemma init_raises_witness :
  __init__ (Sample.studio "/proj/shot.hip" (Some Sample.persp) (Some "[0, 3]"))
  = (Raise AttributeError,
     Sample.studio "/proj/shot.hip" (Some Sample.persp) (Some "[0, 3]"))
  /\ __init__ (Sample.studio "/proj/shot.hip" (Some Sample.persp)
                 (Some ("{" ++ quoted "checked" ++ ": 5}")))
     = (Raise TypeError,
        Sample.studio "/proj/shot.hip" (Some Sample.persp)
          (Some ("{" ++ quoted "checked" ++ ": 5}"))).
Proof.
  split.
  - refine (proj1 (init_raises_on_foreign_state
                     (Sample.studio "/proj/shot.hip" (Some Sample.persp) (Some "[0, 3]"))
                     "[0, 3]" (PyList [PyInt 0; PyInt 3]) eq_refl _ _ _ _) _).
    + discriminate.
    + vm_compute. lia.
    + vm_compute. lia.
    + vm_compute. reflexivity.
    + intros kv. discriminate.
  - refine (proj2 (init_raises_on_foreign_state
                     (Sample.studio "/proj/shot.hip" (Some Sample.persp)
                        (Some ("{" ++ quoted "checked" ++ ": 5}")))
                     ("{" ++ quoted "checked" ++ ": 5}")
                     (PyDict [(ustr_of "checked", PyInt 5)]) eq_refl _ _ _ _)
              [(ustr_of "checked", PyInt 5)] (PyInt 5) eq_refl _ I).
    + discriminate.
    + vm_compute. lia.
    + vm_compute. lia.
    + vm_compute. reflexivity.
    + vm_compute. reflexivity.
Defined.

End SessionProps.

(** ** The finalization checklist: what the actions show and write *)

Module QuietProps.

Import Host Json Checklist Effects HandlerEffects.

Section WithFloat.

Context `{FM : FloatModel}.

(** Events that neither ask the user anything nor save the scene. *)
Definition background (ev : event) : Prop :=
  match ev with
  | EvMessage _ _ | EvSave _ | EvSelect _ | EvReadInput _ => False
  | _ => True
  end.

(** A write under the state key, or a message on the status bar. *)
Definition state_or_status (ev : event) : Prop :=
  match ev with
  | EvSetUserData _ k _ => k = STATE_KEY
  | EvStatusBar _ => True
  | _ => False
  end.

Lemma state_or_status_background (ev : event) : state_or_status ev -> background ev.
Proof. destruct ev; cbn; tauto. Qed.

Lemma persist_now_state (d : dialog) : emits state_or_status any (_persist_now d).
Proof. apply save_state_emits. reflexivity. Qed.

Lemma setCheckState_state (d : dialog) (i : nat) (b : bool) :
  emits state_or_status any (setCheckState d i b).
Proof.
  unfold setCheckState.
  destruct (Bool.eqb (is_checked d i) b); [now apply emits_ret |].
  destruct (connected d); [| now apply emits_ret].
  eapply emits_bind; [apply persist_now_state | intros _ _; now apply emits_ret].
Qed.

Lemma set_rows_state (b : bool) (msg : string) (d : dialog) :
  emits state_or_status any
    (d <- for_each (rows d) (fun d i => setCheckState d i b) d ;;
     _persist_now d ;;;
     _notify d msg)%host.
Proof.
  eapply emits_bind.
  - apply (emits_for_each _ any); [| exact I]. intros s x _. apply setCheckState_state.
  - intros d1 _. eapply emits_bind; [apply persist_now_state | intros _ _].
    apply notify_emits; exact I.
Qed.

(** X18.  Of the actions of the dialog, finalize alone asks the user
    anything or saves the scene: a click on a check box, "Check All",
    "Clear", "Screenshot" and "Cancel" show no modal message and call no
    save.  All but "Screenshot" do no more to the host than write under
    the state key and put a message on the status bar. *)
Theorem only_finalize_asks_or_saves (d : dialog) (a : action) (w : world) :
  a <> Finalize ->
  exists evs,
    log (snd (handle d a w)) = (log w ++ evs)%list
    /\ Forall background evs
    /\ (a <> Screenshot -> Forall state_or_status evs).
Proof.
  intros NF.
  assert (W : forall m : M dialog,
             emits state_or_status any m ->
             exists evs,
               log (snd (m w)) = (log w ++ evs)%list
               /\ Forall background evs
               /\ (a <> Screenshot -> Forall state_or_status evs)).
  { intros m H. destruct (H w) as (evs & E & F & _). exists evs.
    split; [exact E |]. split; [| intros _; exact F].
    eapply Forall_impl; [| exact F]. apply state_or_status_background. }
  destruct a as [i| | | | |]; cbn [handle].
  - apply W. destruct (i <? count d)%nat; [apply setCheckState_state | now apply emits_ret].
  - apply W. apply set_rows_state.
  - apply W. apply set_rows_state.
  - assert (H : emits background any (_on_screenshot d)).
    { unfold _on_screenshot.
      eapply emits_bind; [apply screenshot_viewport_emits; intros; exact I |].
      intros path _. destruct path as [p|]; [destruct (String.eqb p EmptyString) |];
        apply notify_emits; exact I. }
    destruct (H w) as (evs & E & F & _). exists evs.
    split; [exact E |]. split; [exact F |]. intros X. now elim X.
  - now elim NF.
  - apply W. now apply emits_ret.
Qed.

End WithFloat.

(** "Check All" on the sample scene. *)
Lemma only_finalize_witness :
  let w := Sample.studio "/proj/shot.hip" (Some Sample.persp) None in
  let d := {| checks := [false; true]; status := EmptyString;
              connected := true; closed := None |} in
  exists evs,
    log (snd (handle d CheckAll w)) = (log w ++ evs)%list
    /\ Forall background evs
    /\ (CheckAll <> Screenshot -> Forall state_or_status evs).
Proof.
  cbv zeta.
  apply (only_finalize_asks_or_saves
           {| checks := [false; true]; status := EmptyString;
              connected := true; closed := None |}
           CheckAll (Sample.studio "/proj/shot.hip" (Some Sample.persp) None)).
  discriminate.
Defined.

End QuietProps.

(** ** The viewport screenshot: the ways through the script *)

Module ScriptProps.

Import Host Screenshot ScreenshotFacts.

Section WithFloat.

Context `{FM : FloatModel}.

(** A prompt of the script: the list of resolutions, or the two fields. *)
Definition asks (ev : event) : Prop :=
  match ev with
  | EvSelect _ | EvReadInput _ => True
  | _ => False
  end.

(** Picking a resolution asks the user and does nothing else. *)
Lemma pick_resolution_asks (w : world) :
  exists r evs,
    pick_resolution w = (r, set_log w (log w ++ evs)%list) /\ Forall asks evs.
Proof.
  unfold pick_resolution, bind, selectFromList.
  destruct (selected w) as [|i rest].
  { eexists; exists [EvSelect options]. split; [reflexivity | repeat constructor]. }
  destruct (nth_error options i) as [selection|].
  2: { eexists; exists [EvSelect options]. split; [reflexivity | repeat constructor]. }
  destruct (String.eqb selection "Custom...").
  - unfold custom_resolution, bind, readMultiInput. cbn [fst snd typed log set_log].
    destruct (typed w) as [btn [a b]].
    assert (L : forall r : res (Z * Z),
               exists r' evs,
                 (r, set_log (set_log w (log w ++ [EvSelect options])%list)
                       ((log w ++ [EvSelect options]) ++ [EvReadInput "Custom Resolution"])%list)
                 = (r', set_log w (log w ++ evs)%list) /\ Forall asks evs).
    { intros r. exists r, [EvSelect options; EvReadInput "Custom Resolution"].
      split; [now rewrite <- app_assoc | repeat constructor]. }
    destruct (negb (Z.eqb btn 0)); [apply L |].
    unfold except_ValueError, bind, int_, raise, ret. cbn [fst snd].
    destruct (Dec.py_int (Str.strip a)) as [x|]; [| apply L].
    destruct (Dec.py_int (Str.strip b)) as [y|]; [| apply L].
    destruct ((x <=? 0)%Z || (y <=? 0)%Z); apply L.
  - unfold preset_resolution.
    destruct (map Dec.py_int (Str.split "x" selection)) as [|[x|] [|[y|] [|z l]]];
      eexists; exists [EvSelect options]; (split; [reflexivity | repeat constructor]).
Qed.

(** X19.  The ways out of the script before anything is written.  When
    the user cancels the list of resolutions, or leaves the two fields of
    "Custom..." by another button than the first, the script raises
    "Screenshot canceled." with nothing done but the asking.  When there
    is no Scene Viewer, the script raises as well, "No Scene Viewer
    found." if a resolution was picked, and all it has done is to ask: no
    directory is made, nothing is captured, no message is shown. *)
Theorem script_aborts_before_writing (w : world) :
  (selected w = [] ->
   main w = (Raise (HouError "Screenshot canceled."),
             set_log w (log w ++ [EvSelect options])%list))
  /\ (forall rest btn values,
        selected w = 3 :: rest -> typed w = (btn, values) -> btn <> 0%Z ->
        main w = (Raise (HouError "Screenshot canceled."), picked w))
  /\ (scene_viewer w = None ->
      exists e evs,
        main w = (Raise e, set_log w (log w ++ evs)%list)
        /\ Forall asks evs
        /\ ((exists resolution, fst (pick_resolution w) = Ok resolution) ->
            e = HouError "No Scene Viewer found.")).
Proof.
  split; [| split].
  - intros S. unfold main, pick_resolution, bind, selectFromList. now rewrite S.
  - intros rest btn values S T B.
    unfold main, pick_resolution, bind, selectFromList. rewrite S.
    cbn [nth_error options String.eqb Ascii.eqb Bool.eqb].
    unfold custom_resolution, bind, readMultiInput. cbn [typed set_log].
    rewrite T. apply Z.eqb_neq in B. rewrite B. cbn [negb].
    unfold raise, picked. cbn [log set_log]. now rewrite <- app_assoc.
  - intros V. unfold main, bind.
    destruct (pick_resolution_asks w) as (r & evs & -> & F).
    destruct r as [resolution|e].
    + rewrite shoot_no_viewer by exact V.
      eexists; exists evs. split; [reflexivity |]. split; [exact F | reflexivity].
    + exists e, evs. split; [reflexivity |]. split; [exact F |].
      intros (resolution & X). discriminate X.
Qed.

(** X20.  Each of the three presets gives the width and the height that
    its label names, without the prompt for custom values, and the script
    goes on to the capture with them. *)
Theorem preset_gives_its_label (w : world) (i : nat) (rest : list nat) :
  selected w = i :: rest ->
  i < 3 ->
  exists a b,
    nth i options EmptyString = Dec.str_of_Z a ++ "x" ++ Dec.str_of_Z b
    /\ pick_resolution w = (Ok (a, b), set_log w (log w ++ [EvSelect options])%list)
    /\ main w = shoot (a, b) (set_log w (log w ++ [EvSelect options])%list).
Proof.
  intros S L.
  assert (P : forall a b,
             preset_resolution (nth i options EmptyString) = ret (a, b) ->
             nth_error options i = Some (nth i options EmptyString) ->
             String.eqb (nth i options EmptyString) "Custom..." = false ->
             pick_resolution w = (Ok (a, b), set_log w (log w ++ [EvSelect options])%list)
             /\ main w = shoot (a, b) (set_log w (log w ++ [EvSelect options])%list)).
  { intros a b Hp Hn Hc.
    assert (Q : pick_resolution w
                = (Ok (a, b), set_log w (log w ++ [EvSelect options])%list)).
    { unfold pick_resolution, bind, selectFromList. now rewrite S, Hn, Hc, Hp. }
    split; [exact Q |]. unfold main, bind. now rewrite Q. }
  destruct i as [|[|[|i]]]; [| | | lia].
  - exists 1920%Z, 1080%Z. split; [reflexivity |]. apply P; reflexivity.
  - exists 2560%Z, 1440%Z. split; [reflexivity |]. apply P; reflexivity.
  - exists 3840%Z, 2160%Z. split; [reflexivity |]. apply P; reflexivity.
Qed.

(** X21.  The end of the script, with a Scene Viewer and [$HIP] expanded.
    When the flipbook call succeeds, the last thing that the script does
    is to show one message, which names the file that was written and the
    resolution as width "x" height.  When the flipbook call raises, the
    exception leaves the script and no message is shown: unlike the
    checklist, the script does not guard the call. *)
Theorem script_reports_what_it_saved (w : world) (sv : viewer) (hip : string)
    (resolution : Z * Z) :
  scene_viewer w = Some sv ->
  hip_var w = Ok hip ->
  (flipbook_outcome sv = Ok tt ->
   exists w' made,
     shoot resolution w = (Ok tt, w')
     /\ log w'
        = (log w ++ made
           ++ [EvFlipbook {| fb_frame_range := (frame w, frame w);
                             fb_output := file_path w hip;
                             fb_use_resolution := true;
                             fb_resolution := resolution;
                             fb_crop_out_mask_overlay := None |};
               EvMessage ("Screenshot saved:" ++ nl ++ file_path w hip ++ nl
                          ++ "Resolution: " ++ Dec.str_of_Z (fst resolution) ++ "x"
                          ++ Dec.str_of_Z (snd resolution)) ["OK"]])%list
     /\ (made = [] \/ made = [EvMakedirs (hip ++ "/screenshots")]))
  /\ (forall e,
        flipbook_outcome sv = Raise e ->
        exists w' evs,
          shoot resolution w = (Raise e, w')
          /\ log w' = (log w ++ evs)%list
          /\ forall text buttons, ~ In (EvMessage text buttons) evs).
Proof.
  intros V H. destruct (shoot_run w sv hip resolution V H) as (w' & R & L).
  unfold shoot_events in L. split.
  - intros F. rewrite F in R, L. exists w'. eexists.
    split; [exact R |]. split; [exact L |].
    destruct (_ || _); [now left | now right].
  - intros e F. rewrite F in R, L. exists w'. eexists.
    split; [exact R |]. split; [exact L |].
    intros text buttons X. apply in_app_or in X. destruct X as [X | [X | []]].
    + destruct (_ || _); [destruct X | destruct X as [X | []]; discriminate X].
    + discriminate X.
Qed.

End WithFloat.

(** The user closes the list of resolutions. *)
Lemma script_cancel_witness :
  let w0 := Sample.studio "/proj/shot.hip" (Some Sample.persp) None in
  let w := {| nodes := nodes w0; hip_path := hip_path w0; hip_var := hip_var w0;
              cwd := cwd w0; scene_viewer := scene_viewer w0; frame := frame w0;
              clock := clock w0; stamp := stamp w0; dirs := dirs w0; files := files w0;
              answer := answer w0; selected := []; typed := typed w0;
              status_bar := status_bar w0; log := log w0 |} in
  main w = (Raise (HouError "Screenshot canceled."),
            set_log w (log w ++ [EvSelect options])%list).
Proof.
  cbv zeta.
  refine (proj1 (script_aborts_before_writing _) _). reflexivity.
Defined.

(** The second preset. *)
Lemma preset_witness :
  let w0 := Sample.studio "/proj/shot.hip" (Some Sample.persp) None in
  let w := {| nodes := nodes w0; hip_path := hip_path w0; hip_var := hip_var w0;
              cwd := cwd w0; scene_viewer := scene_viewer w0; frame := frame w0;
              clock := clock w0; stamp := stamp w0; dirs := dirs w0; files := files w0;
              answer := answer w0; selected := [1]; typed := typed w0;
              status_bar := status_bar w0; log := log w0 |} in
  exists a b,
    nth 1 options EmptyString = Dec.str_of_Z a ++ "x" ++ Dec.str_of_Z b
    /\ pick_resolution w = (Ok (a, b), set_log w (log w ++ [EvSelect options])%list)
    /\ main w = shoot (a, b) (set_log w (log w ++ [EvSelect options])%list).
Proof.
  cbv zeta.
  refine (preset_gives_its_label _ 1 [] _ _); [reflexivity | lia].
Defined.

(** A viewer whose flipbook call raises. *)
Lemma script_failure_witness :
  let w := Sample.studio "/proj/shot.hip" (Some Sample.broken) None in
  exists w' evs,
    shoot (1920, 1080)%Z w = (Raise HostError, w')
    /\ log w' = (log w ++ evs)%list
    /\ forall text buttons, ~ In (EvMessage text buttons) evs.
Proof.
  cbv zeta.
  refine (proj2 (script_reports_what_it_saved
                   (Sample.studio "/proj/shot.hip" (Some Sample.broken) None)
                   Sample.broken "/proj" (1920, 1080)%Z eq_refl eq_refl)
            HostError eq_refl).
Defined.

End ScriptProps.

(** ** The finalization checklist: what a write of the state leaves alone *)

Module FrameProps.

Import Host Json Checklist PersistFacts DialogFacts ShotFacts FinalizeFacts FinalizeClaims
  ScanFacts HandlerEffects HostFacts ShotProps FinalShotProps FinalizeProps FinalizeRun.

Section WithFloat.

Context `{FM : FloatModel}.

Lemma lookup_store_other {V : Type} (k k' : string) (v : V) (l : list (string * V)) :
  k' <> k -> lookup k' (store k v l) = lookup k' l.
Proof.
  intros H. induction l as [|[k0 v0] l IH]; cbn [store lookup].
  - destruct (String.eqb_spec k k') as [E|_]; [now elim H | reflexivity].
  - destruct (String.eqb_spec k0 k) as [->|N]; cbn [lookup].
    + destruct (String.eqb_spec k k') as [E|_]; [now elim H | reflexivity].
    + now rewrite IH.
Qed.

(** X22.  [_save_state] writes one key of one node.  Without the /obj
    node it does nothing.  With it, the state key of /obj holds the new
    text, every other key of its user data and its children are as they
    were, and so is every other node; the path scan finds after the write
    what it found before. *)
Theorem save_state_touches_its_key_only (checked_indices : list Z) (w : world) :
  (lookup "/obj" (nodes w) = None -> _save_state checked_indices w = (Ok tt, w))
  /\ (forall r,
        lookup "/obj" (nodes w) = Some r ->
        exists w' r',
          _save_state checked_indices w = (Ok tt, w')
          /\ lookup "/obj" (nodes w') = Some r'
          /\ lookup STATE_KEY (user_data r')
             = Some (dumps (state_dict checked_indices (clock w)))
          /\ (forall k, k <> STATE_KEY -> lookup k (user_data r') = lookup k (user_data r))
          /\ sub_children r' = sub_children r
          /\ (forall n, n <> "/obj" -> lookup n (nodes w') = lookup n (nodes w))
          /\ all_entries w' = all_entries w).
Proof.
  split; [apply save_state_absent |].
  intros r E. rewrite (save_state_run _ _ _ E).
  eexists; eexists. split; [reflexivity |].
  unfold saved_world. cbn [nodes set_log set_nodes].
  split; [apply lookup_store |]. cbn [user_data sub_children].
  split; [apply lookup_store |].
  split; [intros k Hk; now apply lookup_store_other |].
  split; [reflexivity |].
  assert (O : forall n, n <> "/obj" ->
                        lookup n (store "/obj"
                                    {| user_data :=
                                         store STATE_KEY
                                           (dumps (state_dict checked_indices (clock w)))
                                           (user_data r);
                                       sub_children := sub_children r |} (nodes w))
                        = lookup n (nodes w)).
  { intros n Hn. now apply lookup_store_other. }
  split; [exact O |].
  unfold all_entries. apply flat_map_ext. intros n.
  unfold root_entries. cbn [nodes set_log set_nodes].
  destruct (String.eqb_spec n "/obj") as [->|Hn].
  - now rewrite lookup_store, E.
  - now rewrite (O n Hn).
Qed.

(** X23.  A finalize with every row checked, on a saved scene in which
    the scan flags no value, with the screenshots directory there or free
    to be made.  It asks nothing and shows no modal message.  In this
    order and with nothing else done to the host, the state is stored,
    the scene is saved under its final name unless it has it, the capture
    is tried if there is a Scene Viewer, and the status line is set: to
    both paths when the screenshot was written, to the path of the scene
    otherwise.  The dialog is closed as accepted with its rows as they
    were. *)
Theorem clean_finalize_shows_no_message (d : dialog) (w : world) (hip : string) :
  _all_checked d = true ->
  all_entries w = [] ->
  hip_path w <> EmptyString ->
  hip_path w <> "untitled.hip" ->
  hip_var w = Ok hip ->
  existsb (String.eqb (OsPath.join hip "screenshots")) (files w) = false ->
  exists w' evs,
    _on_finalize d w
    = (Ok (with_closed
             (with_status d (finalize_status w hip (final_path (hip_path w))))
             (Some true)), w')
    /\ hip_path w' = final_path (hip_path w)
    /\ (lookup "/obj" (nodes w) <> None ->
        stored w' = Some (dumps (state_dict (_collect_checked_indices d) (clock w))))
    /\ log w' = (log w ++ evs)%list
    /\ evs
       = (store_events w d ++ save_events (hip_path w)
          ++ capture_events w hip (final_path (hip_path w))
          ++ status_events w (finalize_status w hip (final_path (hip_path w))))%list
    /\ Forall not_modal evs.
Proof.
  intros A S N1 N2 Hv _.
  unfold _on_finalize. rewrite A. cbn [negb].
  rewrite finalize_paths_run. apply report_nil in S. rewrite S.
  destruct (finalize_save_saved d w hip N1 N2 Hv) as (w' & R & H1 & H2 & H3).
  exists w'. eexists. split; [exact R |]. split; [exact H1 |].
  split.
  { intros Nn. rewrite <- (stored_persisted w d Nn). unfold stored. now rewrite H2. }
  split; [exact H3 |]. split; [reflexivity |].
  repeat (apply Forall_app; split).
  - unfold store_events. destruct (lookup "/obj" (nodes w)); repeat constructor.
  - unfold save_events. destruct (already_final (hip_path w)); repeat constructor.
  - unfold capture_events, made_events. destruct (scene_viewer w) as [sv|]; [| constructor].
    apply Forall_app. split.
    + destruct (existsb _ (dirs w)); repeat constructor.
    + destruct (flipbook_outcome sv); repeat constructor.
  - unfold status_events. destruct (status_bar w); repeat constructor.
Qed.

End WithFloat.

(** The state is stored on the sample scene. *)
Lemma save_state_witness :
  let w := Sample.studio "/proj/shot.hip" (Some Sample.persp) None in
  exists w', _save_state [0; 3]%Z w = (Ok tt, w') /\ all_entries w' = all_entries w.
Proof.
  cbv zeta.
  destruct (proj2 (save_state_touches_its_key_only [0; 3]%Z
                     (Sample.studio "/proj/shot.hip" (Some Sample.persp) None))
              _ eq_refl)
    as (w' & r' & R & _ & _ & _ & _ & _ & A).
  exists w'. split; [exact R | exact A].
Defined.

(** A finalize on a scene whose only node has no string parameter. *)
Lemma clean_finalize_witness :
  let w := {| nodes := [("/obj", {| user_data := []; sub_children := [] |})];
              hip_path := "/proj/shot.hip"; hip_var := Ok "/proj"; cwd := "/home/artist";
              scene_viewer := Some Sample.persp; frame := ZNum 24;
              clock := ZNum 1730712345; stamp := "20261104_101500";
              dirs := ["/proj"]; files := []; answer := fun _ => 0%Z;
              selected := []; typed := (0%Z, ("", "")); status_bar := Ok tt;
              log := [] |} in
  let d := {| checks := [true; true]; status := EmptyString;
              connected := true; closed := None |} in
  exists d' w' evs,
    _on_finalize d w = (Ok d', w')
    /\ closed d' = Some true
    /\ checks d' = checks d
    /\ hip_path w' = "/proj/shot_final.hip"
    /\ log w' = (log w ++ evs)%list
    /\ Forall not_modal evs.
Proof.
  cbv zeta.
  match goal with
  | |- context [_on_finalize ?d ?w] =>
      destruct (clean_finalize_shows_no_message d w "/proj")
        as (w' & evs & R & P & _ & L & _ & F);
        [reflexivity | reflexivity | discriminate | discriminate | reflexivity
        | reflexivity |]
  end.
  eexists. exists w', evs. split; [exact R |]. split; [reflexivity |].
  split; [reflexivity |]. split; [exact P |]. split; [exact L | exact F].
Defined.

End FrameProps.

(** ** The library functions on concrete inputs *)

Module Examples.

Import Host Json.

Example py_int_1920 : Dec.py_int "1920" = Some 1920%Z.
Proof. vm_compute. reflexivity. Qed.

Example py_int_padded : Dec.py_int (Str.strip "  -1_000 ") = Some (-1000)%Z.
Proof. vm_compute. reflexivity. Qed.

Example py_int_bad :
  map Dec.py_int ["12.5"; "abc"; ""; "1__0"; "_1"; "1_"; "+ 5"; "0x10"; "1 2"]
  = [None; None; None; None; None; None; None; None; None].
Proof. vm_compute. reflexivity. Qed.

Example format_04d_ex :
  map Dec.format_04d [1; 24; 1001; 12345; 0; -5; -1234]%Z
  = ["0001"; "0024"; "1001"; "12345"; "0000"; "-005"; "-1234"].
Proof. vm_compute. reflexivity. Qed.

Example splitext_ex :
  map OsPath.splitext ["/a/b/shot_final.hipnc"; "/a.b/c"; ".hip"; "a/..hip"; "x.tar.gz"]
  = [("/a/b/shot_final", ".hipnc"); ("/a.b/c", ""); (".hip", ""); ("a/..hip", "");
     ("x.tar", ".gz")].
Proof. vm_compute. reflexivity. Qed.

Example path_ex :
  (OsPath.basename "/a/b/c.hip", OsPath.dirname "/a/b/c.hip", OsPath.dirname "//a//b",
   OsPath.join "/a" "b", OsPath.join "/a/" "b", OsPath.join "a" "/b")
  = ("c.hip", "/a/b", "//a", "/a/b", "/a/b", "/b").
Proof. vm_compute. reflexivity. Qed.

Example loads_ex :
  loads ("  [1, [2, {}], " ++ quoted "a\u00e9\ud83d\ude00\n"
         ++ ", null, true, -0, 1.5e3, NaN] ")
  = Ok (PyList [PyInt 1; PyList [PyInt 2; PyDict []];
                PyStr [97; 233; 128512; 10]%N; PyNone; PyBool true; PyInt 0;
                PyFloat (ZNum 1); PyFloat ZNan]).
Proof. vm_compute. reflexivity. Qed.

Example loads_bad :
  map loads ["[01]"; "[1,]"; "1.e5"; "{1: 2}"; "[1] x"; ""]
  = [Raise JSONDecodeError; Raise JSONDecodeError; Raise JSONDecodeError;
     Raise JSONDecodeError; Raise JSONDecodeError; Raise JSONDecodeError].
Proof. vm_compute. reflexivity. Qed.

Example loads_duplicate_key :
  loads ("{" ++ quoted "a" ++ ":1," ++ quoted "b" ++ " : 2 , " ++ quoted "a" ++ ":3}")
  = Ok (PyDict [([97%N], PyInt 3); ([98%N], PyInt 2)]).
Proof. vm_compute. reflexivity. Qed.

Example dumps_ex :
  dumps (PyList [PyStr [233; 128512; 10; 92; 127]%N; PyNone; PyBool true; PyInt (-12)])
  = "[" ++ quoted "\u00e9\ud83d\ude00\n\\\u007f" ++ ", null, true, -12]".
Proof. vm_compute. reflexivity. Qed.

(** A click on two rows, a screenshot, and the state that is stored. *)
Example dialog_ex :
  let w := Sample.studio "/proj/shot.hip" (Some Sample.persp) None in
  let run := Checklist.show_finalization_dialog
               [Checklist.Click 0; Checklist.Click 3; Checklist.Screenshot] w in
  PersistFacts.stored (snd run)
  = Some ("{" ++ quoted "checked" ++ ": [0, 3], " ++ quoted "time" ++ ": 1730712345.0}")
  /\ option_map Checklist.status (match fst run with Ok d => Some d | Raise _ => None end)
     = Some "Screenshot saved: /proj/screenshots/shot_cam1_f0024_20261104_101500_checkpoint.jpg".
Proof. cbv zeta. split; vm_compute; reflexivity. Qed.

End Examples.
